(** * Take-on checklist tracker: instantiation, reconciliation, report

    A shallow embedding of [app.py]: the pages [new_scheme_page] and
    [progress_tracker_page] (with its nested [display_and_edit_progress]),
    the report functions [generate_pdf_report] and [PDF.chapter_body], and
    the helper [fetch_data].  The Supabase store, the Streamlit screen and
    the FPDF document are explicit state; Python exceptions are an error
    monad over that state.  A second part embeds [insert_data], [sign_in],
    [sign_out], [login_form], [master_data_page] and [main] over the state
    of the whole script: the departments, the auth service, the session. *)

From Stdlib Require Import List String Ascii ZArith Bool Arith Lia DecimalString Permutation.
Import ListNotations.

Local Open Scope string_scope.
Local Open Scope list_scope.

(** ** Python values *)

(** A [str] is held as its UTF-8 bytes.  [None] is [None]. *)
Definition truthy (v : option string) : bool :=
  match v with
  | Some s => negb (s =? "")
  | None => false
  end.

(** [str(n)] for a length, and for an id. *)
Definition str_nat (n : nat) : string := NilZero.string_of_uint (Nat.to_uint n).
Definition str_Z (z : Z) : string := NilZero.string_of_int (Z.to_int z).

(** A [bool] read out of a frame ([df.loc[label, column]]) is numpy's
    [bool_], not Python's [bool]. *)
Inductive py_bool :=
| python_bool (b : bool)
| numpy_bool (b : bool).

Definition truth (b : py_bool) : bool :=
  match b with
  | python_bool b | numpy_bool b => b
  end.

Definition opt_eqb (a b : option string) : bool :=
  match a, b with
  | Some x, Some y => x =? y
  | None, None => true
  | _, _ => false
  end.

(** ** Tables of the store *)

Module master_checklist.
Record row := {
  id : Z;
  item_description : option string;
  type : string;          (* "PMA" | "Pretor" *)
  scheme_type : string    (* "BC" | "HOA" *)
}.
End master_checklist.

Module schemes.
(** [scheme_data] of [new_scheme_page]; the columns the pages never look
    at again are kept as (column, rendered value) pairs. *)
Record data := {
  scheme_name : string;
  scheme_type : string;
  registration_number : string;
  assigned_portfolio_manager : string;
  pm_email : string;
  other_columns : list (string * string)
}.
Record row := { id : Z; columns : data }.
End schemes.

Module progress_tracker.
Record row := {
  id : Z;
  scheme_id : Z;
  master_item_id : Z;
  is_complete : bool;
  date_completed : option string;
  completed_by : option string;
  notes : option string
}.

(** One dict of [progress_data] in [new_scheme_page]. *)
Record new_row := {
  new_scheme_id : Z;
  new_master_item_id : Z;
  new_is_complete : bool
}.

(** [update_payload] of [display_and_edit_progress]. *)
Record payload := {
  set_is_complete : py_bool;
  set_date_completed : option string;
  set_completed_by : option string;
  set_notes : option string
}.
End progress_tracker.

Record Database := {
  db_master_checklist : list master_checklist.row;
  db_schemes : list schemes.row;
  db_progress_tracker : list progress_tracker.row;
  next_scheme_id : Z;       (* the id the store gives the next scheme *)
  next_progress_id : Z      (* and the next progress record *)
}.

(** ** Exceptions, screen, requests *)

Inductive exn :=
| KeyError (key : string)
| ValueError (msg : string)
| TypeError (msg : string)
| APIError              (* raised by [execute()] when the store call fails *)
| FPDFUnicodeEncodingException     (* raised by FPDF on a text its font does not hold *)
| StreamlitAPIException (msg : string)
| RerunException.       (* raised by [st.rerun()] *)

(** [except Exception] does not catch the script-control exception. *)
Definition is_Exception (e : exn) : bool :=
  match e with
  | RerunException => false
  | _ => true
  end.

(** What the page shows: [st.success], [st.error] (the text, then [{e}]
    when the message formats an exception), [st.warning], [st.info]. *)
Inductive st_event :=
| success (text : string)
| error (text : string) (e : option exn)
| warning (text : string)
| info (text : string).

Inductive request :=
| select_all (table_name : string)
| insert_scheme (data : schemes.data)
| insert_progress (rows : list progress_tracker.new_row)
| select_progress_joined (scheme_id : Z)
| update_progress (payload : progress_tracker.payload) (id : Z).

Record World := {
  db : Database;
  faults : list bool;                 (* outcome of the coming [execute()] calls: [true] raises *)
  requests : list (request * bool);   (* every [execute()] so far, oldest first; [true]: it went through *)
  screen : list st_event              (* oldest first *)
}.

(** ** The monad of a page run *)

Inductive outcome (A : Type) :=
| returned (a : A)
| raised (e : exn).
Arguments returned {A} a.
Arguments raised {A} e.

Definition M (A : Type) : Type := World -> outcome A * World.

Definition ret {A} (a : A) : M A := fun w => (returned a, w).

Definition bind {A B} (m : M A) (k : A -> M B) : M B :=
  fun w =>
    match m w with
    | (returned a, w') => k a w'
    | (raised e, w') => (raised e, w')
    end.

Definition raise {A} (e : exn) : M A := fun w => (raised e, w).

(** [try: body  except Exception as e: handler e] *)
Definition try_except {A} (body : M A) (handler : exn -> M A) : M A :=
  fun w =>
    match body w with
    | (raised e, w') => if is_Exception e then handler e w' else (raised e, w')
    | r => r
    end.

Declare Scope page_scope.
Delimit Scope page_scope with page.
Notation "x <- c1 ;; c2" := (bind c1 (fun x => c2))
  (at level 100, c1 at next level, right associativity) : page_scope.
Notation "c1 ;; c2" := (bind c1 (fun _ => c2))
  (at level 100, right associativity) : page_scope.
Local Open Scope page_scope.

Definition st (ev : st_event) : M unit :=
  fun w => (returned tt,
            {| db := db w; faults := faults w; requests := requests w;
               screen := screen w ++ [ev] |}).

Definition st_rerun {A} : M A := raise RerunException.

(** [query.execute()]: the store answers the request, or the call raises
    and the tables are left as they were. *)
Definition execute {A} (rq : request) (run : Database -> A * Database) : M A :=
  fun w =>
    match faults w with
    | true :: fs =>
        (raised APIError,
         {| db := db w; faults := fs; requests := requests w ++ [(rq, false)];
            screen := screen w |})
    | fs =>
        let '(a, d) := run (db w) in
        (returned a,
         {| db := d; faults := tl fs; requests := requests w ++ [(rq, true)];
            screen := screen w |})
    end.

(** [for x in xs: body], threading the local variables [acc]. *)
Fixpoint for_each {A S} (xs : list A) (body : A -> S -> M S) (acc : S) : M S :=
  match xs with
  | [] => ret acc
  | x :: xs' => acc' <- body x acc ;; for_each xs' body acc'
  end.

(** ** pandas frames *)

(** A [DataFrame] whose columns are the fields of [A]: the rows in order,
    each with its index label. *)
Definition DataFrame (A : Type) : Type := list (nat * A).

(** [pd.DataFrame(data)] for a list of dicts: a fresh [RangeIndex]. *)
Definition pd_DataFrame {A} (data : list A) : DataFrame A :=
  combine (seq 0 (List.length data)) data.

Definition index {A} (df : DataFrame A) : list nat := map fst df.

Definition empty {A} (df : DataFrame A) : bool :=
  match df with
  | [] => true
  | _ :: _ => false
  end.

(** [df[mask]]: the rows keep their labels. *)
Definition select_rows {A} (mask : A -> bool) (df : DataFrame A) : DataFrame A :=
  filter (fun ir => mask (snd ir)) df.

(** [df.reset_index(drop=True)] *)
Definition reset_index {A} (df : DataFrame A) : DataFrame A :=
  pd_DataFrame (map snd df).

(** [df.loc[label, column]] is [column] of the row [loc df label].  A
    missing label raises [KeyError]; under a repeated label pandas hands
    back a [Series], which the caller's [and] rejects. *)
Definition loc {A} (df : DataFrame A) (label : nat) : M A :=
  match filter (fun ir => fst ir =? label)%nat df with
  | [(_, r)] => ret r
  | [] => raise (KeyError (str_nat label))
  | _ => raise (ValueError "The truth value of a Series is ambiguous.")
  end.

(** ** Utility functions *)

(** [fetch_data(table_name)]: [None] stands for [pd.DataFrame()], the
    frame with neither rows nor columns that is returned when the table
    is empty or the read raised. *)
Definition fetch_data {A} (table_name : string) (table : Database -> list A)
  : M (option (DataFrame A)) :=
  try_except
    (data <- execute (select_all table_name) (fun d => (table d, d)) ;;
     match data with
     | _ :: _ => ret (Some (pd_DataFrame data))
     | [] => ret None
     end)
    (fun e =>
       st (error ("Error fetching data from " ++ table_name ++ ": ")%string (Some e)) ;;
       ret None).

(** ** Create New Scheme *)

(** What the form holds when the script runs. *)
Module new_scheme_form.
Record inputs := {
  scheme_name : string;
  scheme_type : string;     (* "Body Corporate" | "Home Owners Association" *)
  assigned_portfolio_manager : string;
  pm_email : string;
  registration_number : string;
  other_inputs : list (string * string);
  submitted : bool
}.
End new_scheme_form.

(** [all([...])] over strings. *)
Definition all (xs : list string) : bool :=
  forallb (fun s => negb (s =? "")) xs.

(** [supabase.table("schemes").insert(scheme_data)]: the store appends the
    row under the next id and answers with it. *)
Definition store_scheme (data : schemes.data) (d : Database) : Z * Database :=
  (next_scheme_id d,
   {| db_master_checklist := db_master_checklist d;
      db_schemes := db_schemes d ++ [ {| schemes.id := next_scheme_id d; schemes.columns := data |} ];
      db_progress_tracker := db_progress_tracker d;
      next_scheme_id := next_scheme_id d + 1;
      next_progress_id := next_progress_id d |}).

(** The record the store makes of one inserted dict: the columns that
    were not given are null. *)
Definition fresh_progress (id : Z) (r : progress_tracker.new_row) : progress_tracker.row :=
  {| progress_tracker.id := id;
     progress_tracker.scheme_id := progress_tracker.new_scheme_id r;
     progress_tracker.master_item_id := progress_tracker.new_master_item_id r;
     progress_tracker.is_complete := progress_tracker.new_is_complete r;
     progress_tracker.date_completed := None;
     progress_tracker.completed_by := None;
     progress_tracker.notes := None |}.

Fixpoint number_from (id : Z) (rows : list progress_tracker.new_row) : list progress_tracker.row :=
  match rows with
  | [] => []
  | r :: rows' => fresh_progress id r :: number_from (id + 1) rows'
  end.

(** [supabase.table("progress_tracker").insert(progress_data)] *)
Definition store_progress (rows : list progress_tracker.new_row) (d : Database) : unit * Database :=
  (tt,
   {| db_master_checklist := db_master_checklist d;
      db_schemes := db_schemes d;
      db_progress_tracker := db_progress_tracker d ++ number_from (next_progress_id d) rows;
      next_scheme_id := next_scheme_id d;
      next_progress_id := next_progress_id d + Z.of_nat (List.length rows) |}).

(** ['BC' if is_bc else 'HOA'] *)
Definition scheme_type_abbr (form : new_scheme_form.inputs) : string :=
  let is_bc := new_scheme_form.scheme_type form =? "Body Corporate" in
  if is_bc then "BC" else "HOA".

Definition scheme_data (form : new_scheme_form.inputs) : schemes.data :=
  {| schemes.scheme_name := new_scheme_form.scheme_name form;
     schemes.scheme_type := scheme_type_abbr form;
     schemes.registration_number := new_scheme_form.registration_number form;
     schemes.assigned_portfolio_manager := new_scheme_form.assigned_portfolio_manager form;
     schemes.pm_email := new_scheme_form.pm_email form;
     schemes.other_columns := new_scheme_form.other_inputs form |}.

(** The list [progress_data] built by the loop over [items_to_copy.iterrows()]. *)
Definition progress_data (new_scheme_id : Z) (items_to_copy : DataFrame master_checklist.row)
  : list progress_tracker.new_row :=
  map (fun '(index, row) =>
         {| progress_tracker.new_scheme_id := new_scheme_id;
            progress_tracker.new_master_item_id := master_checklist.id row;
            progress_tracker.new_is_complete := false |})
      items_to_copy.

Definition new_scheme_page (form : new_scheme_form.inputs) : M unit :=
  df_master_checklist <- fetch_data "master_checklist" db_master_checklist ;;
  let scheme_name := new_scheme_form.scheme_name form in
  let assigned_portfolio_manager := new_scheme_form.assigned_portfolio_manager form in
  let pm_email := new_scheme_form.pm_email form in
  let registration_number := new_scheme_form.registration_number form in
  if new_scheme_form.submitted form then
    if negb (all [scheme_name; assigned_portfolio_manager; pm_email; registration_number]) then
      st (error "Please fill in all mandatory fields (*)." None)
    else
      try_except
        (new_scheme_id <- execute (insert_scheme (scheme_data form))
                                  (store_scheme (scheme_data form)) ;;
         st (success ("Scheme '" ++ scheme_name ++ "' created successfully!")%string) ;;
         items_to_copy <-
           match df_master_checklist with
           | Some df =>
               ret (select_rows
                      (fun row => master_checklist.scheme_type row =? scheme_type_abbr form) df)
           | None => raise (KeyError "scheme_type")
           end ;;
         if negb (empty items_to_copy) then
           let progress_data := progress_data new_scheme_id items_to_copy in
           execute (insert_progress progress_data) (store_progress progress_data) ;;
           st (success ("Copied " ++ str_nat (List.length progress_data)
                        ++ " checklist items to the new scheme.")%string)
         else
           st (warning "No master checklist items found for this scheme type to copy."))
        (fun e => st (error "Failed to create scheme or copy checklists: " (Some e)))
  else ret tt.

(** ** Progress Tracker: reading the records of a scheme *)

(** One row of [df_progress]. *)
Module df_progress.
Record row := {
  progress_id : Z;
  item_description : option string;
  scheme_type : string;
  type : string;
  is_complete : bool;
  date_completed : option string;
  completed_by : option string;
  notes : option string
}.
End df_progress.

(** [select("*, master_checklist(*)").eq('scheme_id', scheme_id)]: each
    record of the scheme with the catalog item its [master_item_id] points
    to embedded under ['master_checklist'] ([None] when there is none). *)
Definition embedded_item (d : Database) (p : progress_tracker.row) : option master_checklist.row :=
  find (fun m => master_checklist.id m =? progress_tracker.master_item_id p)%Z
       (db_master_checklist d).

Definition read_progress_joined (scheme_id : Z) (d : Database)
  : list (progress_tracker.row * option master_checklist.row) * Database :=
  (map (fun p => (p, embedded_item d p))
       (filter (fun p => progress_tracker.scheme_id p =? scheme_id)%Z (db_progress_tracker d)),
   d).

(** The dict appended to [data_for_df] for one [item], whose embedded
    catalog item is [master]. *)
Definition flat_row (item : progress_tracker.row) (master : master_checklist.row)
  : df_progress.row :=
  {| df_progress.progress_id := progress_tracker.id item;
     df_progress.item_description := master_checklist.item_description master;
     df_progress.scheme_type := master_checklist.scheme_type master;
     df_progress.type := master_checklist.type master;
     df_progress.is_complete := progress_tracker.is_complete item;
     df_progress.date_completed := progress_tracker.date_completed item;
     df_progress.completed_by := progress_tracker.completed_by item;
     df_progress.notes := progress_tracker.notes item |}.

Definition flatten (item : progress_tracker.row * option master_checklist.row)
  : M df_progress.row :=
  match snd item with
  | Some master => ret (flat_row (fst item) master)
  | None => raise (TypeError "'NoneType' object is not subscriptable")
  end.

(** The loop that fills [data_for_df]. *)
Definition flatten_all (progress_data_list : list (progress_tracker.row * option master_checklist.row))
  : M (list df_progress.row) :=
  for_each progress_data_list
    (fun item data_for_df => r <- flatten item ;; ret (data_for_df ++ [r])) [].

(** ** Progress Tracker: the editable grid *)

(** The columns named by [editable_cols]. *)
Module editable.
Record row := {
  Complete : bool;
  Date : option string;
  Completed_By : option string;
  Notes : option string
}.
End editable.

Definition editable_cols : list string := ["Complete"; "Date"; "Completed By"; "Notes"].

(** [df[editable_cols]] *)
Definition select_editable (df : DataFrame df_progress.row) : DataFrame editable.row :=
  map (fun '(i, r) =>
         (i, {| editable.Complete := df_progress.is_complete r;
                editable.Date := df_progress.date_completed r;
                editable.Completed_By := df_progress.completed_by r;
                editable.Notes := df_progress.notes r |}))
      df.

(** [Index.equals]: the same labels in the same order. *)
Fixpoint equals (a b : list nat) : bool :=
  match a, b with
  | [], [] => true
  | x :: a', y :: b' => (x =? y)%nat && equals a' b'
  | _, _ => false
  end.

(** A row of the frame [DataFrame.compare] returns: under each column the
    pair (self, other) where the two differ and [None] (NaN) where they
    agree; two missing values agree. *)
Record changed_row := {
  Complete_changed : option (bool * bool);
  Date_changed : option (option string * option string);
  Completed_By_changed : option (option string * option string);
  Notes_changed : option (option string * option string)
}.

Definition changed_cells (self other : editable.row) : changed_row :=
  let cell (a b : option string) := if opt_eqb a b then None else Some (a, b) in
  {| Complete_changed :=
       if Bool.eqb (editable.Complete self) (editable.Complete other) then None
       else Some (editable.Complete self, editable.Complete other);
     Date_changed := cell (editable.Date self) (editable.Date other);
     Completed_By_changed := cell (editable.Completed_By self) (editable.Completed_By other);
     Notes_changed := cell (editable.Notes self) (editable.Notes other) |}.

Definition isSome {A} (o : option A) : bool :=
  match o with
  | Some _ => true
  | None => false
  end.

(** Whether the cell of [r] under [column] holds a difference. *)
Definition changed_in (column : string) (r : changed_row) : bool :=
  if column =? "Complete" then isSome (Complete_changed r)
  else if column =? "Date" then isSome (Date_changed r)
  else if column =? "Completed By" then isSome (Completed_By_changed r)
  else if column =? "Notes" then isSome (Notes_changed r)
  else false.

Record changes_frame := {
  changed_columns : list string;
  changed_rows : DataFrame changed_row
}.

Definition changes_empty (changes : changes_frame) : bool :=
  empty (changed_rows changes) || match changed_columns changes with [] => true | _ => false end.

(** [self.compare(other, keep_shape=...)].  Frames that are not
    identically labelled raise; with [keep_shape] every row and column is
    kept, without it only those holding a difference. *)
Definition compare (self other : DataFrame editable.row) (keep_shape : bool) : M changes_frame :=
  if equals (index self) (index other) then
    let cells := map (fun '((i, a), (_, b)) => (i, changed_cells a b)) (combine self other) in
    if keep_shape then
      ret {| changed_columns := editable_cols; changed_rows := cells |}
    else
      ret {| changed_columns :=
               filter (fun c => existsb (fun ir => changed_in c (snd ir)) cells) editable_cols;
             changed_rows :=
               filter (fun ir => existsb (fun c => changed_in c (snd ir)) editable_cols) cells |}
  else
    raise (ValueError "Can only compare identically-labeled (both index and columns) DataFrame objects").

(** [update(update_payload).eq('id', progress_id)] *)
Definition write_payload (payload : progress_tracker.payload) (r : progress_tracker.row)
  : progress_tracker.row :=
  {| progress_tracker.id := progress_tracker.id r;
     progress_tracker.scheme_id := progress_tracker.scheme_id r;
     progress_tracker.master_item_id := progress_tracker.master_item_id r;
     progress_tracker.is_complete := truth (progress_tracker.set_is_complete payload);
     progress_tracker.date_completed := progress_tracker.set_date_completed payload;
     progress_tracker.completed_by := progress_tracker.set_completed_by payload;
     progress_tracker.notes := progress_tracker.set_notes payload |}.

Definition update_rows (payload : progress_tracker.payload) (id : Z)
  (rows : list progress_tracker.row) : list progress_tracker.row :=
  map (fun r => if (progress_tracker.id r =? id)%Z then write_payload payload r else r) rows.

Definition store_update (payload : progress_tracker.payload) (id : Z) (d : Database)
  : unit * Database :=
  (tt,
   {| db_master_checklist := db_master_checklist d;
      db_schemes := db_schemes d;
      db_progress_tracker := update_rows payload id (db_progress_tracker d);
      next_scheme_id := next_scheme_id d;
      next_progress_id := next_progress_id d |}).

(** The [update_payload] built from the edited row: [new_complete] is
    read with [edited_df.loc[index, 'Complete']]. *)
Definition update_payload (edited : df_progress.row) : progress_tracker.payload :=
  let new_complete := df_progress.is_complete edited in
  let new_date := df_progress.date_completed edited in
  let new_by := df_progress.completed_by edited in
  let new_notes := df_progress.notes edited in
  {| progress_tracker.set_is_complete := numpy_bool new_complete;
     progress_tracker.set_date_completed :=
       if new_complete && truthy new_date then new_date else None;
     progress_tracker.set_completed_by :=
       if new_complete && truthy new_by then new_by else None;
     progress_tracker.set_notes := new_notes |}.

(** [json.dumps] of the payload, which the client runs inside
    [execute()] before it sends anything: Python's [bool] goes out,
    numpy's does not. *)
Definition json_serializable (payload : progress_tracker.payload) : bool :=
  match progress_tracker.set_is_complete payload with
  | python_bool _ => true
  | numpy_bool _ => false
  end.

(** [update(update_payload).eq('id', progress_id).execute()].  A payload
    that cannot be written as JSON makes the call raise [TypeError]: the
    call is on record as one that did not go through, and as the store
    was not reached none of its coming outcomes is used up. *)
Definition execute_update (payload : progress_tracker.payload) (progress_id : Z) : M unit :=
  if json_serializable payload then
    execute (update_progress payload progress_id) (store_update payload progress_id)
  else
    fun w => (raised (TypeError "Object of type bool_ is not JSON serializable"),
              {| db := db w; faults := faults w;
                 requests := requests w ++ [(update_progress payload progress_id, false)];
                 screen := screen w |}).

(** The body of the loop over [changes.index]; [updated_rows] is the
    list it appends to. *)
Definition save_row (df edited_df : DataFrame df_progress.row) (index : nat)
  (updated_rows : list Z) : M (list Z) :=
  original <- loc df index ;;
  let progress_id := df_progress.progress_id original in
  edited <- loc edited_df index ;;
  execute_update (update_payload edited) progress_id ;;
  ret (updated_rows ++ [progress_id]).

(** [display_and_edit_progress(df, source_type)], given what
    [st.data_editor] returned ([edited_df]) and whether the save button
    was pressed.  [df_display] is [df] with its columns renamed. *)
Definition display_and_edit_progress (df : DataFrame df_progress.row) (source_type : string)
  (edited_df : DataFrame df_progress.row) (save : bool) : M unit :=
  if empty df then
    st (info ("No " ++ source_type ++ " checklist items available for this scheme type.")%string)
  else
    let df_display := df in
    if save then
      let comparison_df_original := select_editable df_display in
      let comparison_df_edited := select_editable edited_df in
      changes <- compare comparison_df_edited comparison_df_original true ;;
      if negb (changes_empty changes) then
        updated_rows <- for_each (index (changed_rows changes)) (save_row df edited_df) [] ;;
        st (success ("Successfully updated " ++ str_nat (List.length updated_rows)
                     ++ " item(s) in the " ++ source_type ++ " list.")%string) ;;
        st_rerun
      else
        st (info "No changes detected to save.")
    else ret tt.

(** ** PDF generation *)

(** The document is the sequence of FPDF calls that put something on the
    page or move the cursor.  A [multi_cell] carries the lines FPDF broke
    its text into: it is drawn one line under the other, each [h] high.
    [set_xy_beside dx] is [set_xy(x + dx, y)] for the point [(x, y)] read
    by [get_x()], [get_y()] before the last [multi_cell].  Where FPDF
    breaks a page of its own accord is not modelled. *)
Inductive pdf_op :=
| alias_nb_pages
| begin_page
| set_font (family style : string) (size : Z)
| set_fill_color (r g b : Z)
| cell (w h : Z) (txt : string) (border ln : Z) (align : string) (fill : Z)
| multi_cell (w h : Z) (txt : string) (border : Z) (align : string) (fill : Z) (lines : list string)
| line (x1 y1 x2 y2 : Z)
| ln (h : Z)
| set_y (y : Z)
| set_xy_beside (dx : Z).

Definition PDF : Type := list pdf_op.

(** The height a call covers on the page; 0 for a call that draws no cell. *)
Definition drawn_height (o : pdf_op) : Z :=
  match o with
  | cell _ h _ _ _ _ _ => h
  | multi_cell _ h _ _ _ _ lines => Z.of_nat (List.length lines) * h
  | _ => 0
  end.

Definition is_cell (o : pdf_op) : bool :=
  match o with
  | cell _ _ _ _ _ _ _ | multi_cell _ _ _ _ _ _ _ => true
  | _ => false
  end.

(** [s.encode('ascii', errors='ignore').decode('ascii')]: every byte of a
    character outside ASCII is 128 or more, and goes. *)
Fixpoint ascii_only (s : string) : string :=
  match s with
  | EmptyString => EmptyString
  | String c s' =>
      if (nat_of_ascii c <? 128)%nat then String c (ascii_only s') else ascii_only s'
  end.

(** The columns [chapter_body] reads. *)
Module report.
Record row := {
  item_description : option string;
  is_complete : bool;
  date_completed : option string;
  completed_by : option string
}.
End report.

Definition fillna (value : string) (v : option string) : string :=
  match v with
  | Some s => s
  | None => value
  end.

Definition col_widths : list Z := [100; 30; 30; 30]%Z.
Definition line_height : Z := 6.

(** FPDF draws with a core font, which holds the characters of Latin-1
    and no other.  In UTF-8 a character beyond Latin-1 (above U+00FF)
    starts with a byte of 0xC4 or more, and no other byte is that high. *)
Definition latin_1 (s : string) : bool :=
  forallb (fun c => (nat_of_ascii c <? 196)%nat) (list_ascii_of_string s).

(** [cell] and [multi_cell] raise on a text the font does not hold.
    Nothing in [PDF] or in [generate_pdf_report] catches that, so the
    methods below collect their calls as if none raised, and [drawn]
    answers for FPDF: the calls, or the exception of the first of them
    that raised. *)
Definition encodes (o : pdf_op) : bool :=
  match o with
  | cell _ _ txt _ _ _ _ | multi_cell _ _ txt _ _ _ _ => latin_1 txt
  | _ => true
  end.

Definition drawn (self : PDF) : outcome PDF :=
  if forallb encodes self then returned self else raised FPDFUnicodeEncodingException.

(** What [output(dest='S')] hands back, and what [st.download_button]
    is given as [data]; the value stands for the document it encodes. *)
Inductive py_data :=
| py_str (doc : PDF)
| py_bytes (doc : PDF)
| py_bytearray (doc : PDF).

(** What the user does on the page: the scheme chosen in the select box,
    what each grid hands back for the frame it is given, and which save
    button is pressed. *)
Module tracker.
Record inputs := {
  selected_scheme_id : Z;
  edit_pma : DataFrame df_progress.row -> DataFrame df_progress.row;
  save_pma : bool;
  edit_pretor : DataFrame df_progress.row -> DataFrame df_progress.row;
  save_pretor : bool
}.
End tracker.

Section Report.

(** [multi_cell(w, h, text, dry_run=True, output='LINES')] in the body
    font: how FPDF breaks [text] to the width [w]. *)
Variable multi_cell_lines : Z -> string -> list string.

(** [PDF.header] *)
Definition header (self : PDF) : PDF :=
  self ++ [ set_font "Arial" "B" 15;
            cell 0 10 "Pretor Group Take-On Progress Report" 0 1 "C" 0;
            line 10 20 200 20;
            ln 5 ].

(** [self.page_no()] *)
Definition page_no (self : PDF) : nat :=
  List.length (filter (fun o => match o with begin_page => true | _ => false end) self).

(** [PDF.footer] *)
Definition footer (self : PDF) : PDF :=
  self ++ [ set_y (-15);
            set_font "Arial" "I" 8;
            cell 0 10 ("Page " ++ str_nat (page_no self) ++ "/{nb}")%string 0 0 "C" 0 ].

(** [FPDF.add_page()]: the page that is open is closed with its footer,
    the next one is opened and the header is run. *)
Definition add_page (self : PDF) : PDF :=
  let self := if (0 <? page_no self)%nat then footer self else self in
  header (self ++ [begin_page]).

(** [FPDF.output(dest='S')], called with a page open: the page is closed
    with its footer, and the document comes back as a [bytearray]. *)
Definition output (self : PDF) : py_data := py_bytearray (footer self).

Definition chapter_title (self : PDF) (title : string) : PDF :=
  self ++ [ set_font "Arial" "B" 12;
            set_fill_color 200 220 255;
            cell 0 8 title 0 1 "L" 1;
            ln 4 ].

(** The body of the loop over [data.iterrows()], the columns already
    filled by the defensive preparation. *)
Definition table_row (self : PDF) (row : report.row) : PDF :=
  let item := ascii_only (fillna "N/A" (report.item_description row)) in
  let status := if report.is_complete row then "Complete" else "Pending" in
  let date_str := fillna "-" (report.date_completed row) in
  let completed_by := fillna "-" (report.completed_by row) in
  let item_lines := multi_cell_lines (nth 0 col_widths 0%Z) item in
  let self := self ++ [ multi_cell (nth 0 col_widths 0%Z) line_height item 1 "L" 0
                                   (multi_cell_lines (nth 0 col_widths 0%Z) item) ] in
  let self := self ++ [ set_xy_beside (nth 0 col_widths 0%Z) ] in
  let cell_height := (Z.of_nat (List.length item_lines) * line_height)%Z in
  self ++ [ cell (nth 1 col_widths 0%Z) cell_height status 1 0 "C" 0;
            cell (nth 2 col_widths 0%Z) cell_height date_str 1 0 "C" 0;
            cell (nth 3 col_widths 0%Z) cell_height completed_by 1 1 "C" 0 ].

Definition chapter_body (self : PDF) (data : DataFrame report.row) (scheme_name : string) : PDF :=
  let self := self ++ [ set_font "Arial" "" 10 ] in
  let self := chapter_title self ("Scheme: " ++ scheme_name)%string in
  let self := self ++ [ set_font "Arial" "B" 10;
                        cell (nth 0 col_widths 0%Z) 7 "Item" 1 0 "L" 0;
                        cell (nth 1 col_widths 0%Z) 7 "Status" 1 0 "C" 0;
                        cell (nth 2 col_widths 0%Z) 7 "Date" 1 0 "C" 0;
                        cell (nth 3 col_widths 0%Z) 7 "Completed By" 1 1 "C" 0 ] in
  let self := self ++ [ set_font "Arial" "" 10 ] in
  fold_left (fun self ir => table_row self (snd ir)) data self.

Definition report_columns (r : df_progress.row) : report.row :=
  {| report.item_description := df_progress.item_description r;
     report.is_complete := df_progress.is_complete r;
     report.date_completed := df_progress.date_completed r;
     report.completed_by := df_progress.completed_by r |}.

(** The frame drawn when no record is a Pretor one. *)
Definition no_pretor_items : DataFrame report.row :=
  pd_DataFrame
    [ {| report.item_description := Some "No Pretor Group items found or linked.";
         report.is_complete := false;
         report.date_completed := Some "-";
         report.completed_by := Some "-" |} ].

Definition generate_pdf_report (scheme_name : string) (progress_data : DataFrame df_progress.row)
  : outcome py_data :=
  let pretor_data := select_rows (fun r => df_progress.type r =? "Pretor") progress_data in
  let pdf : PDF := [] in
  let pdf := pdf ++ [alias_nb_pages] in
  let pdf := add_page pdf in
  let pdf :=
    if negb (empty pretor_data) then
      chapter_body pdf (map (fun ir => (fst ir, report_columns (snd ir))) pretor_data) scheme_name
    else
      chapter_body pdf no_pretor_items scheme_name in
  match drawn pdf with
  | raised e => raised e
  | returned pdf =>
      let pdf_output := output pdf in
      returned match pdf_output with
               | py_str doc => py_bytes doc   (* [pdf_output.encode('latin-1', errors='ignore')] *)
               | _ => pdf_output
               end
  end.

(** ** Progress Tracker: the page *)

(** [scheme_options[x]] *)
Definition getitem (scheme_options : list (Z * string)) (x : Z) : M string :=
  match find (fun kv => fst kv =? x)%Z (rev scheme_options) with
  | Some kv => ret (snd kv)
  | None => raise (KeyError (str_Z x))
  end.

(** [st.download_button(data=...)]: Streamlit takes a [str], [bytes] or
    an open file as [data], and refuses a [bytearray]. *)
Definition st_download_button (data : py_data) : M (option PDF) :=
  match data with
  | py_str doc | py_bytes doc => ret (Some doc)
  | py_bytearray _ =>
      raise (StreamlitAPIException "Invalid binary data format: <class 'bytearray'>")
  end.

(** The page answers with the document its download button takes, when
    it gets that far and the button takes one. *)
Definition progress_tracker_page (ui : tracker.inputs) : M (option PDF) :=
  df_schemes <- fetch_data "schemes" db_schemes ;;
  match df_schemes with
  | None => st (info "Please create a new scheme first.") ;; ret None
  | Some df_schemes =>
      let scheme_options :=
        map (fun ir => (schemes.id (snd ir), schemes.scheme_name (schemes.columns (snd ir))))
            df_schemes in
      let selected_scheme_id := tracker.selected_scheme_id ui in
      if negb (selected_scheme_id =? 0)%Z then
        progress_data_list <-
          execute (select_progress_joined selected_scheme_id)
                  (read_progress_joined selected_scheme_id) ;;
        match progress_data_list with
        | [] => st (info "No checklist items linked to this scheme.") ;; ret None
        | _ :: _ =>
            data_for_df <- flatten_all progress_data_list ;;
            let df_progress := pd_DataFrame data_for_df in
            let df_pma :=
              reset_index (select_rows (fun r => df_progress.type r =? "PMA") df_progress) in
            let df_pretor :=
              reset_index (select_rows (fun r => df_progress.type r =? "Pretor") df_progress) in
            display_and_edit_progress df_pma "PMA"
              (tracker.edit_pma ui df_pma) (tracker.save_pma ui) ;;
            display_and_edit_progress df_pretor "Pretor Group"
              (tracker.edit_pretor ui df_pretor) (tracker.save_pretor ui) ;;
            st (info "This report will **only include Pretor Group items** for client-facing progress confirmation.") ;;
            scheme_name <- getitem scheme_options selected_scheme_id ;;
            pdf_bytes <- (fun w => (generate_pdf_report scheme_name df_progress, w)) ;;
            st_download_button pdf_bytes
        end
      else ret None
  end.

End Report.

(** * Master data, sign-in and the main script *)

(** ** The rest of the store, the auth service, the session *)

(** The [departments] table. *)
Module departments.
Record data := { department_name : string; email : string }.
Record row := { id : Z; columns : data }.
End departments.

(** The [data] dict handed to [insert_data]. *)
Inductive record_data :=
| checklist_item (item_description type scheme_type : string)
| department_contact (department_name email : string).

(** Supabase Auth: [sign_in_with_password] answers with a response, which
    holds a user or none, or raises. *)
Module auth.
Record User := { email : string }.
Inductive reply :=
| response (user : option User)
| refuses (message : string).
End auth.

(** What the script can raise: what a page raises, and what the session
    and the auth client add to it. *)
Inductive app_exn :=
| page_exn (e : exn)
| AttributeError (msg : string)
| AuthApiError (message : string).

Definition is_app_Exception (e : app_exn) : bool :=
  match e with
  | page_exn e => is_Exception e
  | _ => true
  end.

(** [st.session_state]: a key is there or not; [user] may hold [None]. *)
Module session_state.
Record keys := {
  logged_in : option bool;
  user : option (option auth.User)
}.
End session_state.

(** What the functions of this part show: in the sidebar
    ([st.sidebar.success], and [st.success], [st.error] under
    [with st.sidebar]) and in the body.  What [fetch_data] and the two
    pages above show stays on the [screen] of their world. *)
Inductive app_event :=
| sidebar_success (text : string)
| sidebar_error (text : string) (e : option app_exn)
| body_success (text : string)
| body_error (text : string) (e : option app_exn)
| body_warning (text : string)
| body_info (text : string).

Record Site := {
  world : World;                                    (* what the pages run in *)
  db_departments : list departments.row;
  next_item_id : Z;
  next_department_id : Z;
  inserts : list (string * record_data * bool);     (* every [insert_data] call to the store *)
  sign_in_with_password : string -> string -> auth.reply;
  auth_sign_out : option string;                    (* the message [auth.sign_out()] raises with, if it does *)
  session : session_state.keys;
  shown : list app_event                            (* oldest first *)
}.

(** ** The monad of a script run *)

Inductive result (A : Type) :=
| ended (a : A)
| stopped (e : app_exn).
Arguments ended {A} a.
Arguments stopped {A} e.

Definition P (A : Type) : Type := Site -> result A * Site.

Definition ret' {A} (a : A) : P A := fun s => (ended a, s).

Definition bind' {A B} (m : P A) (k : A -> P B) : P B :=
  fun s =>
    match m s with
    | (ended a, s') => k a s'
    | (stopped e, s') => (stopped e, s')
    end.

Definition raise' {A} (e : app_exn) : P A := fun s => (stopped e, s).

(** [try: body  except Exception as e: handler e] *)
Definition try_except' {A} (body : P A) (handler : app_exn -> P A) : P A :=
  fun s =>
    match body s with
    | (ended a, s') => (ended a, s')
    | (stopped e, s') => if is_app_Exception e then handler e s' else (stopped e, s')
    end.

Definition set_world (s : Site) (w : World) : Site :=
  {| world := w; db_departments := db_departments s;
     next_item_id := next_item_id s; next_department_id := next_department_id s;
     inserts := inserts s;
     sign_in_with_password := sign_in_with_password s; auth_sign_out := auth_sign_out s;
     session := session s; shown := shown s |}.

Definition set_session (s : Site) (k : session_state.keys) : Site :=
  {| world := world s; db_departments := db_departments s;
     next_item_id := next_item_id s; next_department_id := next_department_id s;
     inserts := inserts s;
     sign_in_with_password := sign_in_with_password s; auth_sign_out := auth_sign_out s;
     session := k; shown := shown s |}.

(** A page, or a call of the pages' own, run inside the script. *)
Definition lift {A} (m : M A) : P A :=
  fun s =>
    match m (world s) with
    | (returned a, w) => (ended a, set_world s w)
    | (raised e, w) => (stopped (page_exn e), set_world s w)
    end.

Definition show (ev : app_event) : P unit :=
  fun s => (ended tt,
            {| world := world s; db_departments := db_departments s;
               next_item_id := next_item_id s; next_department_id := next_department_id s;
               inserts := inserts s;
               sign_in_with_password := sign_in_with_password s;
               auth_sign_out := auth_sign_out s;
               session := session s; shown := shown s ++ [ev] |}).

(** [st.session_state[key] = value] *)
Definition set_logged_in (value : bool) : P unit :=
  fun s => (ended tt,
            set_session s {| session_state.logged_in := Some value;
                             session_state.user := session_state.user (session s) |}).

Definition set_user (value : option auth.User) : P unit :=
  fun s => (ended tt,
            set_session s {| session_state.logged_in := session_state.logged_in (session s);
                             session_state.user := Some value |}).

(** [st.session_state[key]] *)
Definition get_logged_in : P bool :=
  fun s => match session_state.logged_in (session s) with
           | Some b => (ended b, s)
           | None => (stopped (page_exn (KeyError "logged_in")), s)
           end.

Definition get_user : P (option auth.User) :=
  fun s => match session_state.user (session s) with
           | Some u => (ended u, s)
           | None => (stopped (page_exn (KeyError "user")), s)
           end.

(** ** [insert_data] *)

(** What the store does with an insert: the row gets the next id of its
    table; a dict that does not fit the table named is refused. *)
Definition store_insert (table_name : string) (data : record_data) (s : Site) : option Site :=
  match data with
  | checklist_item item_description type scheme_type =>
      if table_name =? "master_checklist" then
        let d := db (world s) in
        let row := {| master_checklist.id := next_item_id s;
                      master_checklist.item_description := Some item_description;
                      master_checklist.type := type;
                      master_checklist.scheme_type := scheme_type |} in
        Some {| world :=
                  {| db := {| db_master_checklist := db_master_checklist d ++ [row];
                              db_schemes := db_schemes d;
                              db_progress_tracker := db_progress_tracker d;
                              next_scheme_id := next_scheme_id d;
                              next_progress_id := next_progress_id d |};
                     faults := faults (world s); requests := requests (world s);
                     screen := screen (world s) |};
                db_departments := db_departments s;
                next_item_id := next_item_id s + 1;
                next_department_id := next_department_id s;
                inserts := inserts s;
                sign_in_with_password := sign_in_with_password s;
                auth_sign_out := auth_sign_out s;
                session := session s; shown := shown s |}
      else None
  | department_contact department_name email =>
      if table_name =? "departments" then
        let row := {| departments.id := next_department_id s;
                      departments.columns :=
                        {| departments.department_name := department_name;
                           departments.email := email |} |} in
        Some {| world := world s;
                db_departments := db_departments s ++ [row];
                next_item_id := next_item_id s;
                next_department_id := next_department_id s + 1;
                inserts := inserts s;
                sign_in_with_password := sign_in_with_password s;
                auth_sign_out := auth_sign_out s;
                session := session s; shown := shown s |}
      else None
  end.

(** The call has been made: its outcome is off the list of the coming
    ones, and it is on record. *)
Definition called (table_name : string) (data : record_data) (ok : bool) (s : Site) : Site :=
  {| world := {| db := db (world s); faults := tl (faults (world s));
                 requests := requests (world s); screen := screen (world s) |};
     db_departments := db_departments s;
     next_item_id := next_item_id s; next_department_id := next_department_id s;
     inserts := inserts s ++ [(table_name, data, ok)];
     sign_in_with_password := sign_in_with_password s; auth_sign_out := auth_sign_out s;
     session := session s; shown := shown s |}.

(** [supabase.table(table_name).insert(data).execute()] *)
Definition execute_insert (table_name : string) (data : record_data) : P unit :=
  fun s =>
    if hd false (faults (world s)) then
      (stopped (page_exn APIError), called table_name data false s)
    else
      match store_insert table_name data s with
      | Some s' => (ended tt, called table_name data true s')
      | None => (stopped (page_exn APIError), called table_name data false s)
      end.

Declare Scope site_scope.
Delimit Scope site_scope with site.
Notation "x <- c1 ;; c2" := (bind' c1 (fun x => c2))
  (at level 100, c1 at next level, right associativity) : site_scope.
Notation "c1 ;; c2" := (bind' c1 (fun _ => c2))
  (at level 100, right associativity) : site_scope.

(** What the user does in one run of the script. *)
Module login.
Record inputs := { email : string; password : string; submitted : bool }.
End login.

Module master_data.
Record inputs := {
  item_description : string;
  item_type : string;        (* "PMA" | "Pretor" *)
  scheme_type : string;      (* "BC" | "HOA" *)
  add_item : bool;
  department_name : string;
  email : string;
  add_department : bool
}.
End master_data.

Module app.
Record inputs := {
  login_form : login.inputs;
  app_mode : string;         (* "Progress Tracker" | "Create New Scheme" | "Master Data" *)
  master_data : master_data.inputs;
  new_scheme : new_scheme_form.inputs;
  progress_tracker : tracker.inputs
}.
End app.

Section Script.

Variable multi_cell_lines : Z -> string -> list string.

Local Open Scope site_scope.

Definition insert_data (table_name : string) (data : record_data) : P unit :=
  try_except'
    (execute_insert table_name data ;;
     show (body_success ("Successfully added to " ++ table_name ++ "!")%string) ;;
     lift st_rerun)
    (fun e => show (body_error ("Error inserting data into " ++ table_name ++ ": ")%string (Some e))).

(** ** Authentication *)

Definition sign_in (email password : string) : P unit :=
  try_except'
    (response <- (fun s => match sign_in_with_password s email password with
                           | auth.response user => (ended user, s)
                           | auth.refuses message => (stopped (AuthApiError message), s)
                           end) ;;
     match response with
     | Some user =>
         set_user (Some user) ;;
         set_logged_in true ;;
         show (sidebar_success "Signed in successfully!") ;;
         lift st_rerun
     | None => show (sidebar_error "Invalid email or password." None)
     end)
    (fun e => show (sidebar_error "Sign-in failed: " (Some e))).

(** [st.rerun()] ends the run when the script calls it; called from the
    callback of a button it ends nothing, and nothing follows it here. *)
Definition sign_out : P unit :=
  try_except'
    ((fun s => match auth_sign_out s with
               | None => (ended tt, s)
               | Some message => (stopped (AuthApiError message), s)
               end) ;;
     set_user None ;;
     set_logged_in false ;;
     show (body_success "Signed out successfully.") ;;
     lift st_rerun)
    (fun e => show (body_error "Sign-out failed: " (Some e))).

Definition login_form (ui : login.inputs) : P unit :=
  if login.submitted ui then sign_in (login.email ui) (login.password ui) else ret' tt.

(** ** Master Data Management *)

(** What [st.dataframe] and [st.table] draw is not on record. *)
Definition master_data_page (ui : master_data.inputs) : P unit :=
  let item_description := master_data.item_description ui in
  let department_name := master_data.department_name ui in
  let email := master_data.email ui in
  (if master_data.add_item ui then
     if negb (item_description =? "") then
       insert_data "master_checklist"
         (checklist_item item_description (master_data.item_type ui) (master_data.scheme_type ui))
     else show (body_warning "Please enter an item description.")
   else ret' tt) ;;
  df_checklist <- lift (fetch_data "master_checklist" db_master_checklist) ;;
  (match df_checklist with
   | Some _ => ret' tt
   | None => show (body_info "No master checklist items defined yet.")
   end) ;;
  (if master_data.add_department ui then
     if negb (department_name =? "") && negb (email =? "") then
       insert_data "departments" (department_contact department_name email)
     else show (body_warning "Please fill in both department name and email.")
   else ret' tt) ;;
  df_departments <- (fun s => lift (fetch_data "departments" (fun _ => db_departments s)) s) ;;
  match df_departments with
  | Some _ => ret' tt
  | None => show (body_info "No department contacts defined yet.")
  end.

(** ** Main application logic *)

Definition main (ui : app.inputs) : P unit :=
  (fun s => match session_state.logged_in (session s) with
            | None => (set_logged_in false ;; set_user None) s
            | Some _ => (ended tt, s)
            end) ;;
  logged_in <- get_logged_in ;;
  if logged_in then
    user <- get_user ;;
    (match user with
     | Some user => show (sidebar_success ("Logged in as: " ++ auth.email user)%string)
     | None => raise' (AttributeError "'NoneType' object has no attribute 'email'")
     end) ;;
    let app_mode := app.app_mode ui in
    if app_mode =? "Master Data" then master_data_page (app.master_data ui)
    else if app_mode =? "Create New Scheme" then lift (new_scheme_page (app.new_scheme ui))
    else if app_mode =? "Progress Tracker" then
      lift (progress_tracker_page multi_cell_lines (app.progress_tracker ui)) ;; ret' tt
    else ret' tt
  else
    show (body_info "Please sign in on the sidebar to access the application.") ;;
    login_form (app.login_form ui).

End Script.

(** * Reading the runs *)

(** The vocabulary the properties are stated in. *)

(** The store answers every coming call. *)
Definition healthy (w : World) : Prop := Forall (fun b => b = false) (faults w).

(** The updates that went through, oldest first. *)
Definition applied_updates (w : World) : list (progress_tracker.payload * Z) :=
  flat_map (fun q => match q with
                     | (update_progress payload id, true) => [(payload, id)]
                     | _ => []
                     end)
           (requests w).

(** The world in which the update of record [id] with [payload] has been
    asked for and has not gone through, the store not reached. *)
Definition asked_in_vain (payload : progress_tracker.payload) (id : Z) (w : World) : World :=
  {| db := db w; faults := faults w;
     requests := requests w ++ [(update_progress payload id, false)];
     screen := screen w |}.

(** The world once the page has read the schemes and the records of the
    scheme [scheme_id], the store answering both times. *)
Definition after_the_reads (scheme_id : Z) (w : World) : World :=
  {| db := db w; faults := tl (tl (faults w));
     requests := requests w ++ [(select_all "schemes", true);
                                (select_progress_joined scheme_id, true)];
     screen := screen w |}.


(** The edited row with the date and the signature taken out when the
    box is not ticked. *)
Definition clear_incomplete (r : df_progress.row) : df_progress.row :=
  if df_progress.is_complete r then r
  else {| df_progress.progress_id := df_progress.progress_id r;
          df_progress.item_description := df_progress.item_description r;
          df_progress.scheme_type := df_progress.scheme_type r;
          df_progress.type := df_progress.type r;
          df_progress.is_complete := false;
          df_progress.date_completed := None;
          df_progress.completed_by := None;
          df_progress.notes := df_progress.notes r |}.

Definition map_rows {A B} (f : A -> B) (df : DataFrame A) : DataFrame B :=
  map (fun ir => (fst ir, f (snd ir))) df.

(** The rows [flatten_all] makes of the items; [None] when one of them
    has no catalog item embedded. *)
Fixpoint flattened (items : list (progress_tracker.row * option master_checklist.row))
  : option (list df_progress.row) :=
  match items with
  | [] => Some []
  | (p, Some m) :: items' => option_map (cons (flat_row p m)) (flattened items')
  | (_, None) :: _ => None
  end.

(** The texts of the item cells of a document, in the order drawn. *)
Definition drawn_items (doc : PDF) : list string :=
  flat_map (fun o => match o with
                     | multi_cell _ _ txt _ _ _ _ => [txt]
                     | _ => []
                     end) doc.

(** The category the catalog gives the record [p] now. *)
Definition category_now (d : Database) (p : progress_tracker.row) : option string :=
  option_map master_checklist.type (embedded_item d p).

(** The calls that draw one row, and the four texts they carry. *)
Definition row_ops (multi_cell_lines : Z -> string -> list string) (row : report.row) : PDF :=
  table_row multi_cell_lines [] row.

Definition row_texts (row : report.row) : list string :=
  [ ascii_only (fillna "N/A" (report.item_description row));
    if report.is_complete row then "Complete" else "Pending";
    fillna "-" (report.date_completed row);
    fillna "-" (report.completed_by row) ].

(** The rows of the table a document holds: an item cell opens a row,
    and the cells drawn after it, up to the one that ends the line
    ([ln=1]), belong to it. *)
Definition table_rows (doc : PDF) : list (list string) :=
  snd (fold_right
         (fun o acc =>
            match o with
            | cell _ _ txt _ next_line _ _ =>
                if (next_line =? 1)%Z then ([txt], snd acc) else (txt :: fst acc, snd acc)
            | multi_cell _ _ txt _ _ _ _ => ([], (txt :: fst acc) :: snd acc)
            | _ => acc
            end)
         ([], []) doc).

Definition is_multi_cell (o : pdf_op) : bool :=
  match o with
  | multi_cell _ _ _ _ _ _ _ => true
  | _ => false
  end.

(** The dicts the page builds for the catalog items of the scheme's type. *)
Definition copied_items (form : new_scheme_form.inputs) (d : Database)
  : list progress_tracker.new_row :=
  map (fun m => {| progress_tracker.new_scheme_id := next_scheme_id d;
                   progress_tracker.new_master_item_id := master_checklist.id m;
                   progress_tracker.new_is_complete := false |})
      (filter (fun m => master_checklist.scheme_type m =? scheme_type_abbr form)
              (db_master_checklist d)).

Definition mandatory_fields_filled (form : new_scheme_form.inputs) : bool :=
  all [new_scheme_form.scheme_name form; new_scheme_form.assigned_portfolio_manager form;
       new_scheme_form.pm_email form; new_scheme_form.registration_number form].

(** The world the page leaves when the store answers and the catalog is
    not empty. *)
Definition scheme_created (form : new_scheme_form.inputs) (w : World) : World :=
  let created := success ("Scheme '" ++ new_scheme_form.scheme_name form
                          ++ "' created successfully!")%string in
  let d := snd (store_scheme (scheme_data form) (db w)) in
  let asked := requests w ++ [(select_all "master_checklist", true);
                              (insert_scheme (scheme_data form), true)] in
  match copied_items form (db w) with
  | [] =>
      {| db := d; faults := tl (tl (faults w)); requests := asked;
         screen := screen w ++
           [created; warning "No master checklist items found for this scheme type to copy."] |}
  | _ :: _ =>
      {| db := snd (store_progress (copied_items form (db w)) d);
         faults := tl (tl (tl (faults w)));
         requests := asked ++ [(insert_progress (copied_items form (db w)), true)];
         screen := screen w ++
           [created;
            success ("Copied " ++ str_nat (List.length (copied_items form (db w)))
                     ++ " checklist items to the new scheme.")%string] |}
  end.

(** ** Relations between the world before and after a run *)

(** Every run of [m] leaves a world that [R] relates to the one it
    started in. *)
Definition preserves {A} (R : World -> World -> Prop) (m : M A) : Prop :=
  forall w, R w (snd (m w)).

(** Invariant I1 on a stored record: no date and no signature unless the
    record is complete, and never an empty text for either. *)
Definition I1 (r : progress_tracker.row) : Prop :=
  (progress_tracker.is_complete r = false ->
   progress_tracker.date_completed r = None /\ progress_tracker.completed_by r = None) /\
  progress_tracker.date_completed r <> Some "" /\
  progress_tracker.completed_by r <> Some "".

Definition keeps_I1 (w w' : World) : Prop :=
  Forall I1 (db_progress_tracker (db w)) -> Forall I1 (db_progress_tracker (db w')).

Definition is_read (q : request * bool) : bool :=
  match fst q with
  | select_all _ | select_progress_joined _ => true
  | _ => false
  end.

(** The store is as it was and every request made was a read. *)
Definition reads_only (w w' : World) : Prop :=
  db w' = db w /\
  exists new, requests w' = requests w ++ new /\ forallb is_read new = true.

(** What identifies a stored record and binds it to its scheme and its
    catalog item. *)
Definition identity (r : progress_tracker.row) : Z * Z * Z :=
  (progress_tracker.id r, progress_tracker.scheme_id r, progress_tracker.master_item_id r).

(** Every character of the text is an ASCII one. *)
Definition is_ascii (s : string) : bool :=
  forallb (fun c => (nat_of_ascii c <? 128)%nat) (list_ascii_of_string s).

(** The four texts of the table row of a record. *)
Definition record_texts (r : df_progress.row) : list string :=
  [ ascii_only (fillna "N/A" (df_progress.item_description r));
    if df_progress.is_complete r then "Complete" else "Pending";
    fillna "-" (df_progress.date_completed r);
    fillna "-" (df_progress.completed_by r) ].

(** The texts of the row drawn when there is no Pretor record. *)
Definition placeholder_texts : list string :=
  ["No Pretor Group items found or linked."; "Pending"; "-"; "-"].

(** FPDF's font holds every text the report draws as it stands: the name
    of the scheme, and the date and the signature of each Pretor record. *)
Definition printable (scheme_name : string) (progress_data : DataFrame df_progress.row) : Prop :=
  latin_1 scheme_name = true /\
  Forall (fun ir => df_progress.type (snd ir) = "Pretor" ->
                    latin_1 (fillna "-" (df_progress.date_completed (snd ir))) = true /\
                    latin_1 (fillna "-" (df_progress.completed_by (snd ir))) = true)
         progress_data.

(** The four report columns of the records the report is about. *)
Definition pretor_columns (progress_data : DataFrame df_progress.row) : list report.row :=
  map (fun ir => report_columns (snd ir))
      (select_rows (fun r => df_progress.type r =? "Pretor") progress_data).

(** The calls [generate_pdf_report] makes on its [PDF] up to [output]. *)
Definition report_calls (multi_cell_lines : Z -> string -> list string) (scheme_name : string)
  (progress_data : DataFrame df_progress.row) : PDF :=
  chapter_body multi_cell_lines (add_page [alias_nb_pages]) [] scheme_name
  ++ flat_map (row_ops multi_cell_lines)
       match pretor_columns progress_data with
       | [] => map snd no_pretor_items
       | rows => rows
       end.

(** The records of a scheme that the catalog, as it is now, makes Pretor
    ones, and the table row of a record: its description is the one its
    catalog item has now. *)
Definition pretor_now (d : Database) (scheme_id : Z) : list progress_tracker.row :=
  filter (fun p => match category_now d p with
                   | Some t => t =? "Pretor"
                   | None => false
                   end)
         (filter (fun p => progress_tracker.scheme_id p =? scheme_id)%Z (db_progress_tracker d)).

Definition row_of_record (d : Database) (p : progress_tracker.row) : list string :=
  match embedded_item d p with
  | Some m => record_texts (flat_row p m)
  | None => []
  end.

(** ** The script *)

(** The session names a user whenever it says that someone is logged in. *)
Definition session_ok (k : session_state.keys) : Prop :=
  session_state.logged_in k = Some true -> exists u, session_state.user k = Some (Some u).

(** The site with one more thing shown. *)
Definition showing (ev : app_event) (s : Site) : Site := snd (show ev s).

(** The row of the catalog an item of the Master Data form becomes. *)
Definition item_row (id : Z) (ui : master_data.inputs) : master_checklist.row :=
  {| master_checklist.id := id;
     master_checklist.item_description := Some (master_data.item_description ui);
     master_checklist.type := master_data.item_type ui;
     master_checklist.scheme_type := master_data.scheme_type ui |}.

Definition department_row (id : Z) (ui : master_data.inputs) : departments.row :=
  {| departments.id := id;
     departments.columns := {| departments.department_name := master_data.department_name ui;
                               departments.email := master_data.email ui |} |}.

(** Every run of [m] leaves a site that [R] relates to the one it
    started in. *)
Definition keeps {A} (R : Site -> Site -> Prop) (m : P A) : Prop :=
  forall s, R s (snd (m s)).

Definition same_tables (s s' : Site) : Prop :=
  db (world s') = db (world s) /\ db_departments s' = db_departments s.

Definition same_session (s s' : Site) : Prop := session s' = session s.

(** No call to the store has been made: the tables, the record of the
    calls and the list of the coming outcomes are as they were. *)
Definition store_not_called (s s' : Site) : Prop :=
  db (world s') = db (world s) /\ db_departments s' = db_departments s /\
  requests (world s') = requests (world s) /\ inserts s' = inserts s /\
  faults (world s') = faults (world s).

(** A run of [m] stops on nothing but what a page raises. *)
Definition page_errors_only {A} (m : P A) : Prop :=
  forall s e, fst (m s) = stopped e -> exists e', e = page_exn e'.

(** The tables have grown by rows of the Master Data form [ui], none of
    them with a mandatory field empty; the schemes and the records are as
    they were. *)
Definition grown_by (ui : master_data.inputs) (s s' : Site) : Prop :=
  db_schemes (db (world s')) = db_schemes (db (world s)) /\
  db_progress_tracker (db (world s')) = db_progress_tracker (db (world s)) /\
  exists items contacts,
    db_master_checklist (db (world s')) = db_master_checklist (db (world s)) ++ items /\
    db_departments s' = db_departments s ++ contacts /\
    Forall (fun r => master_data.item_description ui <> "" /\
                     exists id, r = item_row id ui) items /\
    Forall (fun r => master_data.department_name ui <> "" /\ master_data.email ui <> "" /\
                     exists id, r = department_row id ui) contacts.

(** The site once the item of the form [ui] is stored. *)
Definition item_added (ui : master_data.inputs) (s : Site) : Site :=
  let data := checklist_item (master_data.item_description ui) (master_data.item_type ui)
                             (master_data.scheme_type ui) in
  match store_insert "master_checklist" data s with
  | Some s' => showing (body_success "Successfully added to master_checklist!")
                       (called "master_checklist" data true s')
  | None => s
  end.

(** A run that hands no document back: it returns without one or ends in
    an exception. *)
Definition no_document (m : M (option PDF)) : Prop :=
  forall w, fst (m w) = returned None \/ exists e, fst (m w) = raised e.

(** * Sample data *)

Definition grid_row (id : Z) (complete : bool) (date by_ notes : option string)
  : df_progress.row :=
  {| df_progress.progress_id := id;
     df_progress.item_description := Some "Obtain previous year's audited financials";
     df_progress.scheme_type := "BC";
     df_progress.type := "PMA";
     df_progress.is_complete := complete;
     df_progress.date_completed := date;
     df_progress.completed_by := by_;
     df_progress.notes := notes |}.

Definition stored_record (id scheme master : Z) : progress_tracker.row :=
  {| progress_tracker.id := id;
     progress_tracker.scheme_id := scheme;
     progress_tracker.master_item_id := master;
     progress_tracker.is_complete := false;
     progress_tracker.date_completed := None;
     progress_tracker.completed_by := None;
     progress_tracker.notes := None |}.

Definition world_of (d : Database) : World :=
  {| db := d; faults := []; requests := []; screen := [] |}.

(** A store holding the records 7 and 8 of scheme 1. *)
Definition two_records : World :=
  world_of {| db_master_checklist := []; db_schemes := [];
              db_progress_tracker := [stored_record 7 1 1; stored_record 8 1 1];
              next_scheme_id := 2; next_progress_id := 9 |}.

Definition ticked (id : Z) (notes : string) : df_progress.row :=
  grid_row id true (Some "2024-03-01") (Some "Bookkeeper") (Some notes).

(** A stand-in for FPDF's line breaking, for the examples: a new line
    every [n] characters, two millimetres a character. *)
Fixpoint break_every (n room : nat) (current text : string) : list string :=
  match text with
  | EmptyString => [current]
  | String c text' =>
      match room with
      | O => current :: break_every n (n - 1) (String c EmptyString) text'
      | S room' => break_every n room' (current ++ String c EmptyString)%string text'
      end
  end.

Definition fixed_pitch_lines (w : Z) (text : string) : list string :=
  break_every (Z.to_nat (w / 2)) (Z.to_nat (w / 2)) "" text.

Definition catalog_item (id : Z) (description type scheme_type : string) : master_checklist.row :=
  {| master_checklist.id := id;
     master_checklist.item_description := Some description;
     master_checklist.type := type;
     master_checklist.scheme_type := scheme_type |}.

Definition sunset_villas : schemes.row :=
  {| schemes.id := 1;
     schemes.columns :=
       {| schemes.scheme_name := "Sunset Villas";
          schemes.scheme_type := "BC";
          schemes.registration_number := "SS 12/2019";
          schemes.assigned_portfolio_manager := "T. Nkosi";
          schemes.pm_email := "t.nkosi@example.com";
          schemes.other_columns := [] |} |}.

(** Scheme 1 with the records 7 (a PMA item) and 8 (a Pretor item). *)
Definition onboarding : World :=
  world_of {| db_master_checklist :=
                [catalog_item 1 "Obtain previous year's audited financials" "PMA" "BC";
                 catalog_item 2 "Confirm insurance schedule" "Pretor" "BC"];
              db_schemes := [sunset_villas];
              db_progress_tracker := [stored_record 7 1 1; stored_record 8 1 2];
              next_scheme_id := 2; next_progress_id := 9 |}.

(** The same store after item 2 of the catalog was turned into a PMA item. *)
Definition recategorised : World :=
  world_of {| db_master_checklist :=
                [catalog_item 1 "Obtain previous year's audited financials" "PMA" "BC";
                 catalog_item 2 "Confirm insurance schedule" "PMA" "BC"];
              db_schemes := [sunset_villas];
              db_progress_tracker := [stored_record 7 1 1; stored_record 8 1 2];
              next_scheme_id := 2; next_progress_id := 9 |}.

(** The user looks at scheme 1 and saves nothing. *)
Definition look_at_scheme_1 : tracker.inputs :=
  {| tracker.selected_scheme_id := 1;
     tracker.edit_pma := fun df => df; tracker.save_pma := false;
     tracker.edit_pretor := fun df => df; tracker.save_pretor := false |}.

(** A row of the grid with its four editable cells filled in. *)
Definition fill_in (complete : bool) (r : df_progress.row) : df_progress.row :=
  {| df_progress.progress_id := df_progress.progress_id r;
     df_progress.item_description := df_progress.item_description r;
     df_progress.scheme_type := df_progress.scheme_type r;
     df_progress.type := df_progress.type r;
     df_progress.is_complete := complete;
     df_progress.date_completed := Some "2024-03-01";
     df_progress.completed_by := Some "Bookkeeper";
     df_progress.notes := Some "done" |}.

(** The user leaves a date and a signature in the rows of the PMA grid
    (on scheme 1: the row of record 7) without ticking the box, and
    saves that grid. *)
Definition leave_date_on_record_7 : tracker.inputs :=
  {| tracker.selected_scheme_id := 1;
     tracker.edit_pma := map_rows (fill_in false); tracker.save_pma := true;
     tracker.edit_pretor := fun df => df; tracker.save_pretor := false |}.

(** The user ticks the rows of the PMA grid (on scheme 1: the row of
    record 7) and saves that grid. *)
Definition tick_record_7 : tracker.inputs :=
  {| tracker.selected_scheme_id := 1;
     tracker.edit_pma := map_rows (fill_in true); tracker.save_pma := true;
     tracker.edit_pretor := fun df => df; tracker.save_pretor := false |}.

(** The form filled in for Sunset Villas, a body corporate. *)
Definition sunset_form : new_scheme_form.inputs :=
  {| new_scheme_form.scheme_name := "Sunset Villas";
     new_scheme_form.scheme_type := "Body Corporate";
     new_scheme_form.assigned_portfolio_manager := "T. Nkosi";
     new_scheme_form.pm_email := "t.nkosi@example.com";
     new_scheme_form.registration_number := "SS 12/2019";
     new_scheme_form.other_inputs := [];
     new_scheme_form.submitted := true |}.

(** A catalog of two BC items and one HOA item, no scheme yet; the third
    call to the store is going to fail. *)
Definition third_call_fails : World :=
  {| db := {| db_master_checklist :=
                [catalog_item 1 "Obtain previous year's audited financials" "PMA" "BC";
                 catalog_item 2 "Confirm insurance schedule" "Pretor" "BC";
                 catalog_item 3 "Obtain the HOA constitution" "PMA" "HOA"];
              db_schemes := []; db_progress_tracker := [];
              next_scheme_id := 1; next_progress_id := 1 |};
     faults := [false; false; true]; requests := []; screen := [] |}.

(** A store with no catalog item at all. *)
Definition empty_catalog : World :=
  world_of {| db_master_checklist := []; db_schemes := []; db_progress_tracker := [];
              next_scheme_id := 1; next_progress_id := 1 |}.

(** The form of Sunset Villas with the registration number left empty. *)
Definition unsigned_form : new_scheme_form.inputs :=
  {| new_scheme_form.scheme_name := "Sunset Villas";
     new_scheme_form.scheme_type := "Body Corporate";
     new_scheme_form.assigned_portfolio_manager := "T. Nkosi";
     new_scheme_form.pm_email := "t.nkosi@example.com";
     new_scheme_form.registration_number := "";
     new_scheme_form.other_inputs := [];
     new_scheme_form.submitted := true |}.

(** A Pretor row and a PMA row of the tracker's frame. *)
Definition pretor_row (progress_id : Z) (description : string) (notes : option string)
  : df_progress.row :=
  {| df_progress.progress_id := progress_id;
     df_progress.item_description := Some description;
     df_progress.scheme_type := "BC";
     df_progress.type := "Pretor";
     df_progress.is_complete := false;
     df_progress.date_completed := None;
     df_progress.completed_by := None;
     df_progress.notes := notes |}.

Definition pma_row (progress_id : Z) (description : string) (is_complete : bool)
  : df_progress.row :=
  {| df_progress.progress_id := progress_id;
     df_progress.item_description := Some description;
     df_progress.scheme_type := "BC";
     df_progress.type := "PMA";
     df_progress.is_complete := is_complete;
     df_progress.date_completed := None;
     df_progress.completed_by := None;
     df_progress.notes := None |}.

Definition insurance_and_audit : DataFrame df_progress.row :=
  pd_DataFrame [pma_row 7 "Obtain previous year's audited financials" false;
                pretor_row 8 "Confirm insurance schedule" None].

(** The same Pretor record with a note on it, under another id, and
    without the PMA record. *)
Definition insurance_with_notes : DataFrame df_progress.row :=
  pd_DataFrame [pretor_row 31 "Confirm insurance schedule" (Some "broker to call back")].

(** The store of [onboarding] with catalog item 2 gone and record 8 still
    pointing at it. *)
Definition item_2_withdrawn : World :=
  world_of {| db_master_checklist :=
                [catalog_item 1 "Obtain previous year's audited financials" "PMA" "BC"];
              db_schemes := [sunset_villas];
              db_progress_tracker := [stored_record 7 1 1; stored_record 8 1 2];
              next_scheme_id := 2; next_progress_id := 9 |}.

(** A site on the store of [onboarding], nobody signed in yet, with one
    account at the auth service. *)
Definition front_door : Site :=
  {| world := onboarding;
     db_departments := [];
     next_item_id := 3; next_department_id := 1;
     inserts := [];
     sign_in_with_password := fun email password =>
       if (email =? "t.nkosi@example.com") && (password =? "correct horse")
       then auth.response (Some {| auth.email := email |})
       else auth.refuses "Invalid login credentials";
     auth_sign_out := None;
     session := {| session_state.logged_in := None; session_state.user := None |};
     shown := [] |}.

(** The same site with T. Nkosi signed in. *)
Definition signed_in : Site :=
  set_session front_door
    {| session_state.logged_in := Some true;
       session_state.user := Some (Some {| auth.email := "t.nkosi@example.com" |}) |}.

(** The Master Data form with a new HOA item for Pretor, and nothing in
    the department form. *)
Definition levy_item : master_data.inputs :=
  {| master_data.item_description := "Load the levy roll";
     master_data.item_type := "Pretor";
     master_data.scheme_type := "HOA";
     master_data.add_item := true;
     master_data.department_name := "";
     master_data.email := "";
     master_data.add_department := false |}.

(** The form of a home owners association. *)
Definition fairview_form : new_scheme_form.inputs :=
  {| new_scheme_form.scheme_name := "Fairview Estate";
     new_scheme_form.scheme_type := "Home Owners Association";
     new_scheme_form.assigned_portfolio_manager := "T. Nkosi";
     new_scheme_form.pm_email := "t.nkosi@example.com";
     new_scheme_form.registration_number := "2019/104";
     new_scheme_form.other_inputs := [];
     new_scheme_form.submitted := true |}.

(** What somebody not signed in can send: a sign-in with a wrong
    password, and whatever the pages' widgets would hold. *)
Definition wrong_password : app.inputs :=
  {| app.login_form := {| login.email := "t.nkosi@example.com"; login.password := "guess";
                          login.submitted := true |};
     app.app_mode := "Master Data";
     app.master_data := levy_item;
     app.new_scheme := fairview_form;
     app.progress_tracker := tick_record_7 |}.


(** T. Nkosi signed in, and the auth service out of reach. *)
Definition auth_is_down : Site :=
  {| world := onboarding;
     db_departments := [];
     next_item_id := 3; next_department_id := 1;
     inserts := [];
     sign_in_with_password := fun _ _ => auth.refuses "Service unavailable";
     auth_sign_out := Some "Service unavailable";
     session := session signed_in;
     shown := [] |}.

(** The store of [third_call_fails] when every call is answered. *)
Definition third_call_answers : World := world_of (db third_call_fails).

(** * Properties *)

(** ** The monad *)

Lemma execute_answers {A} (rq : request) (run : Database -> A * Database) (w : World) :
  hd false (faults w) = false ->
  execute rq run w =
    (returned (fst (run (db w))),
     {| db := snd (run (db w)); faults := tl (faults w);
        requests := requests w ++ [(rq, true)]; screen := screen w |}).
Proof.
  unfold execute. intros H.
  destruct (faults w) as [|[] fs]; try (destruct (run (db w)); reflexivity). discriminate.
Qed.

Lemma execute_raises {A} (rq : request) (run : Database -> A * Database) (w : World) :
  hd false (faults w) = true ->
  execute rq run w =
    (raised APIError,
     {| db := db w; faults := tl (faults w);
        requests := requests w ++ [(rq, false)]; screen := screen w |}).
Proof.
  unfold execute. intros H. destruct (faults w) as [|[] fs]; try discriminate. reflexivity.
Qed.

Lemma execute_healthy {A} (rq : request) (run : Database -> A * Database) (w : World) :
  healthy w ->
  execute rq run w =
    (returned (fst (run (db w))),
     {| db := snd (run (db w)); faults := tl (faults w);
        requests := requests w ++ [(rq, true)]; screen := screen w |}).
Proof.
  intros H. apply execute_answers. unfold healthy in H.
  destruct (faults w); [reflexivity | now inversion H].
Qed.

Lemma healthy_tl (w : World) (d : Database) rqs scr :
  healthy w -> healthy {| db := d; faults := tl (faults w); requests := rqs; screen := scr |}.
Proof.
  unfold healthy; simpl. intros H. destruct (faults w); simpl; [constructor|].
  now inversion H.
Qed.

Lemma bind_run {A B} (m : M A) (k : A -> M B) (w : World) :
  bind m k w =
    match m w with
    | (returned a, w') => k a w'
    | (raised e, w') => (raised e, w')
    end.
Proof. reflexivity. Qed.

(** ** Frames *)

Lemma equals_iff (a b : list nat) : equals a b = true <-> a = b.
Proof.
  revert b; induction a as [|x a IH]; intros [|y b]; simpl; split; intros H;
    try reflexivity; try discriminate.
  - apply andb_true_iff in H as [Hx Hr]. apply Nat.eqb_eq in Hx. apply IH in Hr. congruence.
  - inversion H; subst. rewrite Nat.eqb_refl. simpl. now apply IH.
Qed.

Lemma index_select_editable (df : DataFrame df_progress.row) :
  index (select_editable df) = index df.
Proof.
  unfold index, select_editable. rewrite map_map.
  apply map_ext. now intros [i r].
Qed.

Lemma index_pd_DataFrame {A} (data : list A) :
  index (pd_DataFrame data) = seq 0 (List.length data).
Proof.
  unfold index, pd_DataFrame.
  generalize 0%nat. induction data as [|x data IH]; intros n; simpl; [reflexivity|].
  now rewrite IH.
Qed.

Lemma index_reset_index {A} (df : DataFrame A) : NoDup (index (reset_index df)).
Proof. unfold reset_index. rewrite index_pd_DataFrame. apply seq_NoDup. Qed.

Lemma filter_label_absent {A} (df : DataFrame A) (i : nat) :
  ~ In i (index df) -> filter (fun ir => fst ir =? i)%nat df = [].
Proof.
  induction df as [|[j x] df IH]; simpl; intros H; [reflexivity|].
  destruct (Nat.eqb_spec j i) as [->|_]; [exfalso; apply H; now left|].
  apply IH. intros Hin; apply H; now right.
Qed.

Lemma filter_label_unique {A} (df : DataFrame A) (i : nat) (r : A) :
  NoDup (index df) -> In (i, r) df -> filter (fun ir => fst ir =? i)%nat df = [(i, r)].
Proof.
  induction df as [|[j x] df IH]; simpl; intros Hnd Hin; [contradiction|].
  inversion Hnd as [|? ? Hj Hnd']; subst.
  destruct Hin as [E|Hin].
  - inversion E; subst. rewrite Nat.eqb_refl. now rewrite filter_label_absent.
  - destruct (Nat.eqb_spec j i) as [->|_].
    + exfalso. apply Hj. change i with (fst (i, r)). now apply in_map.
    + now apply IH.
Qed.

Lemma loc_unique {A} (df : DataFrame A) (i : nat) (r : A) (w : World) :
  NoDup (index df) -> In (i, r) df -> loc df i w = (returned r, w).
Proof.
  intros Hnd Hin. unfold loc. now rewrite (filter_label_unique df i r Hnd Hin).
Qed.

Lemma loc_inv {A} (df : DataFrame A) (i : nat) (w : World) :
  snd (loc df i w) = w /\ forall r, fst (loc df i w) = returned r -> In (i, r) df.
Proof.
  unfold loc. destruct (filter _ df) as [|[j x] [|y l]] eqn:E; simpl; split; try reflexivity;
    try discriminate.
  intros r H. inversion H; subst.
  assert (Hin : In (j, r) (filter (fun ir => (fst ir =? i)%nat) df)) by (rewrite E; now left).
  apply filter_In in Hin as [Hin Hl]. simpl in Hl. apply Nat.eqb_eq in Hl. now subst.
Qed.

Lemma compare_labelled (self other : DataFrame editable.row) (w : World) :
  index self = index other ->
  compare self other true w =
    (returned {| changed_columns := editable_cols;
                 changed_rows :=
                   map (fun '((i, a), (_, b)) => (i, changed_cells a b)) (combine self other) |},
     w).
Proof.
  intros E. unfold compare. apply equals_iff in E. now rewrite E.
Qed.

Lemma compare_world (self other : DataFrame editable.row) (keep_shape : bool) (w : World) :
  snd (compare self other keep_shape w) = w.
Proof. unfold compare. destruct (equals _ _); [destruct keep_shape|]; reflexivity. Qed.

(** ** What a save does *)

(** The update a save builds never leaves the client: the flag it
    carries was read out of the frame. *)
Lemma execute_update_run (edited : df_progress.row) (id : Z) (w : World) :
  execute_update (update_payload edited) id w =
    (raised (TypeError "Object of type bool_ is not JSON serializable"),
     asked_in_vain (update_payload edited) id w).
Proof. reflexivity. Qed.

Lemma save_row_run (df edited_df : DataFrame df_progress.row) (i : nat) (acc : list Z)
  (w : World) :
  save_row df edited_df i acc w =
    match fst (loc df i w), fst (loc edited_df i w) with
    | returned original, returned edited =>
        (raised (TypeError "Object of type bool_ is not JSON serializable"),
         asked_in_vain (update_payload edited) (df_progress.progress_id original) w)
    | returned _, raised e => (raised e, w)
    | raised e, _ => (raised e, w)
    end.
Proof.
  unfold save_row. rewrite bind_run.
  destruct (loc_inv df i w) as [Hw _]. destruct (loc df i w) as [[o|e] w1].
  - cbn [snd fst] in *. subst w1. rewrite bind_run.
    destruct (loc_inv edited_df i w) as [Hw' _]. destruct (loc edited_df i w) as [[ed|e] w2];
      cbn [snd fst] in *; subst w2; [|reflexivity].
    now rewrite bind_run, execute_update_run.
  - cbn [snd fst] in *. now subst w1.
Qed.

Lemma save_row_never_returns (df edited_df : DataFrame df_progress.row) (i : nat)
  (acc : list Z) (w : World) :
  exists e, fst (save_row df edited_df i acc w) = raised e.
Proof.
  rewrite save_row_run. destruct (fst (loc df i w)); [|now eexists].
  destruct (fst (loc edited_df i w)); now eexists.
Qed.

Lemma save_rows_run (df edited_df : DataFrame df_progress.row) (i : nat) (rest : list nat)
  (acc : list Z) (w : World) :
  for_each (i :: rest) (save_row df edited_df) acc w =
    (match fst (save_row df edited_df i acc w) with
     | returned _ => raised (TypeError "")
     | raised e => raised e
     end,
     snd (save_row df edited_df i acc w)).
Proof.
  cbn [for_each]. rewrite bind_run.
  destruct (save_row_never_returns df edited_df i acc w) as [e He].
  destruct (save_row df edited_df i acc w) as [[a|e'] w']; cbn [fst snd] in *;
    [discriminate | reflexivity].
Qed.

(** A save of a grid that is not empty, on a view labelled like the
    frame: the first row is sent for update, and the run ends there. *)
Lemma grid_save_run (s : string) (w : World) (i0 : nat) (o0 e0 : df_progress.row)
  (rest rest' : DataFrame df_progress.row) :
  NoDup (i0 :: index rest) -> index rest' = index rest ->
  display_and_edit_progress ((i0, o0) :: rest) s ((i0, e0) :: rest') true w =
    (raised (TypeError "Object of type bool_ is not JSON serializable"),
     asked_in_vain (update_payload e0) (df_progress.progress_id o0) w).
Proof.
  intros Hnd Hix. unfold display_and_edit_progress. cbn [empty].
  rewrite bind_run, compare_labelled
    by (rewrite !index_select_editable; cbn [index map fst]; now f_equal).
  cbn [select_editable map combine changes_empty changed_rows empty changed_columns
       editable_cols orb negb index fst].
  rewrite bind_run, save_rows_run, save_row_run.
  rewrite (loc_unique ((i0, o0) :: rest) i0 o0 w) by (assumption || now left).
  rewrite (loc_unique ((i0, e0) :: rest') i0 e0 w)
    by (try (cbn [index map fst]; unfold index in Hix; rewrite Hix; assumption); now left).
  reflexivity.
Qed.

(** Whatever the frame, the view and the button: a run of the grid
    leaves the store alone and uses up none of its coming outcomes; it
    asks for at most one update, the one of an edited row and of the
    stored row under the same label, and that one does not go through. *)
Lemma grid_outcomes (df edited_df : DataFrame df_progress.row) (s : string) (save : bool)
  (w : World) :
  db (snd (display_and_edit_progress df s edited_df save w)) = db w /\
  faults (snd (display_and_edit_progress df s edited_df save w)) = faults w /\
  (requests (snd (display_and_edit_progress df s edited_df save w)) = requests w \/
   exists i original edited,
     In (i, original) df /\ In (i, edited) edited_df /\
     display_and_edit_progress df s edited_df save w =
       (raised (TypeError "Object of type bool_ is not JSON serializable"),
        asked_in_vain (update_payload edited) (df_progress.progress_id original) w)).
Proof.
  unfold display_and_edit_progress.
  destruct (empty df); [now repeat split; left|].
  destruct save; [|now repeat split; left].
  rewrite bind_run. pose proof (compare_world (select_editable edited_df) (select_editable df) true w) as Hc.
  destruct (compare _ _ true w) as [[changes|e] w1]; cbn [snd] in Hc; subst w1;
    [|now repeat split; left].
  destruct (negb _); [|now repeat split; left].
  rewrite bind_run.
  destruct (index (changed_rows changes)) as [|i rest]; [now repeat split; left|].
  rewrite save_rows_run, save_row_run.
  destruct (loc_inv df i w) as [_ Ho]. destruct (loc_inv edited_df i w) as [_ He].
  destruct (fst (loc df i w)) as [o|e]; [|now repeat split; left].
  destruct (fst (loc edited_df i w)) as [ed|e]; [|now repeat split; left].
  cbn [fst snd]. repeat split. right. exists i, o, ed. now repeat split; auto.
Qed.

Lemma applied_updates_asked_in_vain (payload : progress_tracker.payload) (id : Z) (w : World) :
  applied_updates (asked_in_vain payload id w) = applied_updates w.
Proof.
  unfold applied_updates, asked_in_vain. cbn [requests].
  rewrite flat_map_app. cbn. now rewrite app_nil_r.
Qed.

(** No update of a grid goes through. *)
Lemma applied_updates_grid (df edited_df : DataFrame df_progress.row) (s : string) (save : bool)
  (w : World) :
  applied_updates (snd (display_and_edit_progress df s edited_df save w)) = applied_updates w.
Proof.
  destruct (grid_outcomes df edited_df s save w) as (_ & _ & [E | (i & o & e & _ & _ & E)]).
  - unfold applied_updates. now rewrite E.
  - rewrite E. apply applied_updates_asked_in_vain.
Qed.

(** ** Matching of edited rows to stored records *)





(** ** Unchanged records *)

Lemma opt_eqb_refl (a : option string) : opt_eqb a a = true.
Proof. destruct a; simpl; [apply String.eqb_refl | reflexivity]. Qed.

Lemma changed_cells_same (a : editable.row) :
  changed_cells a a =
    {| Complete_changed := None; Date_changed := None;
       Completed_By_changed := None; Notes_changed := None |}.
Proof.
  unfold changed_cells. now rewrite Bool.eqb_reflx, !opt_eqb_refl.
Qed.

(** Without [keep_shape], [compare] keeps no row and no column of a view
    that was not touched: the branch "No changes detected to save." is
    the one taken. *)
Lemma compare_untouched_without_keep_shape (df : DataFrame editable.row) (w : World) :
  compare df df false w = (returned {| changed_columns := []; changed_rows := [] |}, w).
Proof.
  unfold compare. replace (equals (index df) (index df)) with true
    by (symmetry; now apply equals_iff).
  unfold ret. do 2 f_equal.
  assert (H : forall ir, In ir (map (fun '((i, a), (_, b)) => (i, changed_cells a b)) (combine df df)) ->
                         forall c, changed_in c (snd ir) = false).
  { intros ir Hin c. apply in_map_iff in Hin as ([[i a] [j b]] & <- & Hin).
    assert (E : (i, a) = (j, b)).
    { clear -Hin. induction df as [|x df IH]; simpl in Hin; [contradiction|].
      destruct Hin as [E|Hin]; [now inversion E | auto]. }
    inversion E; subst. cbn [snd]. rewrite changed_cells_same.
    unfold changed_in; cbn. now repeat destruct (_ =? _). }
  f_equal.
  - unfold editable_cols. cbn [filter].
    repeat match goal with
    | |- context [existsb ?f ?l] =>
        replace (existsb f l) with false
          by (symmetry; apply not_true_is_false; intros Hex;
              apply existsb_exists in Hex as (ir & Hin & Hc);
              rewrite (H ir Hin) in Hc; discriminate)
    end.
    reflexivity.
  - induction (map (fun '((i, a), (_, b)) => (i, changed_cells a b)) (combine df df))
      as [|ir l IH]; [reflexivity|].
    cbn [filter]. unfold editable_cols at 1. cbn [existsb].
    rewrite !(H ir (or_introl eq_refl)). cbn [orb].
    apply IH. intros ir' Hin c. apply H. now right.
Qed.

(** C3: Save on a grid in which nothing was touched does not end on "No
    changes detected to save.": the comparison keeps every row, the loop
    reaches the first of them, untouched as it is, and sends it for
    update, where the run ends in the client's [TypeError] with nothing
    shown. *)
Theorem untouched_row_is_sent_for_update
  (source_type : string) (w : World) (i0 : nat) (r0 : df_progress.row)
  (rest : DataFrame df_progress.row) :
  NoDup (i0 :: index rest) ->
  let df := (i0, r0) :: rest in
  display_and_edit_progress df source_type df true w =
    (raised (TypeError "Object of type bool_ is not JSON serializable"),
     asked_in_vain (update_payload r0) (df_progress.progress_id r0) w).
Proof. intros Hnd. now apply grid_save_run. Qed.

Lemma untouched_row_is_sent_for_update_witness :
  display_and_edit_progress (pd_DataFrame [grid_row 7 false None None None]) "PMA"
    (pd_DataFrame [grid_row 7 false None None None]) true two_records =
    (raised (TypeError "Object of type bool_ is not JSON serializable"),
     asked_in_vain (update_payload (grid_row 7 false None None None)) 7 two_records).
Proof.
  apply (untouched_row_is_sent_for_update "PMA" two_records 0 (grid_row 7 false None None None) []).
  repeat constructor. intros [].
Defined.

(** ** Invariant I1 on what is sent *)

Lemma update_payload_clear (e : df_progress.row) :
  update_payload (clear_incomplete e) = update_payload e.
Proof.
  unfold clear_incomplete.
  destruct (df_progress.is_complete e) eqn:E; [reflexivity|].
  unfold update_payload; cbn. now rewrite E.
Qed.

Lemma update_payload_incomplete (e : df_progress.row) :
  df_progress.is_complete e = false ->
  progress_tracker.set_date_completed (update_payload e) = None /\
  progress_tracker.set_completed_by (update_payload e) = None.
Proof. unfold update_payload; cbn. now intros ->. Qed.

(** C5, as stated, fails: the comparison is made on the values as the
    grid holds them.  For a row that is not ticked and has a date typed
    in, it finds the date changed; on the view with that date taken out
    beforehand it finds nothing changed. *)
Lemma diff_sees_the_date_of_an_unticked_row :
  let df := pd_DataFrame [grid_row 7 false None None None] in
  let edited_df := pd_DataFrame [grid_row 7 false (Some "2024-03-01") None None] in
  exists changes cleared,
    compare (select_editable edited_df) (select_editable df) true two_records
      = (returned changes, two_records) /\
    compare (select_editable (map_rows clear_incomplete edited_df)) (select_editable df) true
            two_records
      = (returned cleared, two_records) /\
    map (fun ir => changed_in "Date" (snd ir)) (changed_rows changes) = [true] /\
    map (fun ir => changed_in "Date" (snd ir)) (changed_rows cleared) = [false].
Proof. cbv zeta. do 2 eexists. repeat split. Qed.

(** C5, amended: every update a save asks for carries the values of an
    edited row, and neither date nor signature when that row is not
    ticked, whatever the grid held. *)
Theorem unticked_rows_are_sent_without_date_and_signature
  (df edited_df : DataFrame df_progress.row) (source_type : string) (save : bool) (w : World) :
  Forall (fun q =>
            In q (requests w) \/
            exists i edited id ok,
              In (i, edited) edited_df /\
              q = (update_progress (update_payload edited) id, ok) /\
              (df_progress.is_complete edited = false ->
               progress_tracker.set_date_completed (update_payload edited) = None /\
               progress_tracker.set_completed_by (update_payload edited) = None))
         (requests (snd (display_and_edit_progress df source_type edited_df save w))).
Proof.
  destruct (grid_outcomes df edited_df source_type save w)
    as (_ & _ & [E | (i & o & e & Ho & He & E)]).
  - rewrite E. apply Forall_forall. now left.
  - rewrite E. unfold asked_in_vain. cbn [snd requests]. apply Forall_app. split.
    + apply Forall_forall. now left.
    + constructor; [|constructor]. right. exists i, e, (df_progress.progress_id o), false.
      split; [assumption|]. split; [reflexivity|]. apply update_payload_incomplete.
Qed.

(** ** The Progress Tracker page as far as its grids *)

Lemma flatten_all_run items (w : World) :
  flatten_all items w =
    match flattened items with
    | Some data => (returned data, w)
    | None => (raised (TypeError "'NoneType' object is not subscriptable"), w)
    end.
Proof.
  unfold flatten_all.
  enough (H : forall acc,
             for_each items (fun item data_for_df => r <- flatten item ;; ret (data_for_df ++ [r]))
                      acc w =
             match flattened items with
             | Some data => (returned (acc ++ data), w)
             | None => (raised (TypeError "'NoneType' object is not subscriptable"), w)
             end) by apply (H []).
  induction items as [|[p [m|]] items IH]; intros acc.
  - simpl. now rewrite app_nil_r.
  - simpl for_each. rewrite bind_run. unfold flatten at 1. cbn [snd fst]. rewrite bind_run.
    unfold ret at 1 2. rewrite IH. simpl flattened.
    destruct (flattened items); simpl; [now rewrite <- app_assoc | reflexivity].
  - reflexivity.
Qed.

Lemma fetch_data_healthy {A} (table_name : string) (table : Database -> list A) (w : World) :
  healthy w ->
  fetch_data table_name table w =
    (returned match table (db w) with
              | _ :: _ => Some (pd_DataFrame (table (db w)))
              | [] => None
              end,
     {| db := db w; faults := tl (faults w);
        requests := requests w ++ [(select_all table_name, true)]; screen := screen w |}).
Proof.
  intros Hw. unfold fetch_data, try_except. rewrite bind_run, execute_healthy by assumption.
  cbn [fst snd]. now destruct (table (db w)).
Qed.

(** With the store answering, a scheme chosen and its records read and
    flattened, the page comes to its first grid after the two reads, and
    an exception of that grid is the page's. *)
Lemma page_stops_in_the_first_grid
  (multi_cell_lines : Z -> string -> list string) (ui : tracker.inputs) (w : World)
  (data : list df_progress.row) :
  healthy w ->
  db_schemes (db w) <> [] ->
  tracker.selected_scheme_id ui <> 0%Z ->
  flatten_all (fst (read_progress_joined (tracker.selected_scheme_id ui) (db w))) w
    = (returned data, w) ->
  data <> [] ->
  let df_pma :=
    reset_index (select_rows (fun r => df_progress.type r =? "PMA") (pd_DataFrame data)) in
  forall e w',
    display_and_edit_progress df_pma "PMA" (tracker.edit_pma ui df_pma) (tracker.save_pma ui)
      (after_the_reads (tracker.selected_scheme_id ui) w) = (raised e, w') ->
    progress_tracker_page multi_cell_lines ui w = (raised e, w').
Proof.
  intros Hw Hs Hsel Hfl Hne df_pma e w' Hgrid. unfold progress_tracker_page.
  rewrite bind_run, fetch_data_healthy by assumption.
  destruct (db_schemes (db w)) as [|s0 ss] eqn:Es; [contradiction|].
  apply Z.eqb_neq in Hsel. rewrite Hsel. cbn [negb].
  set (w1 := {| db := db w; faults := tl (faults w); requests := _; screen := _ |}).
  assert (Hw1 : healthy w1) by (subst w1; now apply healthy_tl).
  rewrite bind_run, execute_healthy by assumption.
  cbn [fst snd]. change (db w1) with (db w).
  rewrite flatten_all_run in Hfl.
  destruct (flattened (fst (read_progress_joined (tracker.selected_scheme_id ui) (db w))))
    as [data'|] eqn:Ef; [|discriminate].
  assert (data' = data) by congruence. subst data'.
  destruct (fst (read_progress_joined (tracker.selected_scheme_id ui) (db w)))
    as [|item items] eqn:Er.
  { cbn in Ef. inversion Ef. congruence. }
  rewrite bind_run, flatten_all_run, Ef, bind_run.
  fold df_pma.
  match goal with |- context [display_and_edit_progress df_pma "PMA" _ _ ?w2] =>
    replace w2 with (after_the_reads (tracker.selected_scheme_id ui) w)
  end.
  - now rewrite Hgrid.
  - unfold after_the_reads. subst w1. cbn [db faults requests screen].
    now rewrite <- app_assoc.
Qed.

(** ** Saving twice *)

(** C4: a second Save with the same view does not find the work done.
    The first run sends the first row for update and ends in the client's
    [TypeError], the store as it was; the second run, on the store the
    first one left, reads the same records, finds the same changes, sends
    the same row for update and ends the same way. *)
Theorem second_save_finds_the_same_changes
  (multi_cell_lines : Z -> string -> list string) (ui : tracker.inputs) (w : World)
  (data : list df_progress.row) (i0 : nat) (o0 e0 : df_progress.row)
  (rest rest' : DataFrame df_progress.row) :
  healthy w ->
  db_schemes (db w) <> [] ->
  tracker.selected_scheme_id ui <> 0%Z ->
  flatten_all (fst (read_progress_joined (tracker.selected_scheme_id ui) (db w))) w
    = (returned data, w) ->
  reset_index (select_rows (fun r => df_progress.type r =? "PMA") (pd_DataFrame data))
    = (i0, o0) :: rest ->
  tracker.edit_pma ui ((i0, o0) :: rest) = (i0, e0) :: rest' ->
  index rest' = index rest ->
  tracker.save_pma ui = true ->
  let stopped w :=
    asked_in_vain (update_payload e0) (df_progress.progress_id o0)
                  (after_the_reads (tracker.selected_scheme_id ui) w) in
  progress_tracker_page multi_cell_lines ui w =
    (raised (TypeError "Object of type bool_ is not JSON serializable"), stopped w) /\
  progress_tracker_page multi_cell_lines ui (stopped w) =
    (raised (TypeError "Object of type bool_ is not JSON serializable"), stopped (stopped w)) /\
  db (stopped (stopped w)) = db w.
Proof.
  intros Hw Hs Hsel Hfl Hpma Hedit Hix Hsave stopped.
  assert (Hnd : NoDup (i0 :: index rest)).
  { change (i0 :: index rest) with (index ((i0, o0) :: rest)). rewrite <- Hpma.
    apply index_reset_index. }
  assert (Hne : data <> []) by (intros ->; discriminate).
  assert (Hrun : forall w0, healthy w0 -> db w0 = db w ->
            progress_tracker_page multi_cell_lines ui w0 =
              (raised (TypeError "Object of type bool_ is not JSON serializable"), stopped w0)).
  { intros w0 Hw0 Hdb.
    apply (page_stops_in_the_first_grid multi_cell_lines ui w0 data); try assumption.
    - now rewrite Hdb.
    - rewrite Hdb. rewrite flatten_all_run in *.
      destruct (flattened _); [|discriminate]. now inversion Hfl.
    - rewrite Hpma, Hedit, Hsave. now apply grid_save_run. }
  split; [now apply Hrun|]. split; [|reflexivity].
  apply Hrun; [|reflexivity].
  unfold stopped, asked_in_vain, after_the_reads, healthy in *. cbn [faults].
  destruct (faults w) as [|b [|b' fs]]; cbn [tl]; try constructor.
  inversion Hw as [|? ? _ Hw']. now inversion Hw'.
Qed.

Lemma second_save_finds_the_same_changes_witness :
  let stopped w :=
    asked_in_vain (update_payload (ticked 7 "done")) 7 (after_the_reads 1 w) in
  progress_tracker_page fixed_pitch_lines tick_record_7 onboarding =
    (raised (TypeError "Object of type bool_ is not JSON serializable"), stopped onboarding) /\
  progress_tracker_page fixed_pitch_lines tick_record_7 (stopped onboarding) =
    (raised (TypeError "Object of type bool_ is not JSON serializable"),
     stopped (stopped onboarding)) /\
  db (stopped (stopped onboarding)) = db onboarding.
Proof.
  apply (second_save_finds_the_same_changes fixed_pitch_lines tick_record_7 onboarding
           [grid_row 7 false None None None;
            pretor_row 8 "Confirm insurance schedule" None]
           0 (grid_row 7 false None None None) (ticked 7 "done") [] []).
  - constructor.
  - discriminate.
  - discriminate.
  - reflexivity.
  - reflexivity.
  - reflexivity.
  - reflexivity.
  - reflexivity.
Defined.

(** ** The report *)

Lemma table_row_ops (multi_cell_lines : Z -> string -> list string) (self : PDF) (row : report.row) :
  table_row multi_cell_lines self row = self ++ row_ops multi_cell_lines row.
Proof.
  unfold row_ops, table_row. cbn [app]. now rewrite <- !app_assoc.
Qed.

Lemma chapter_body_ops (multi_cell_lines : Z -> string -> list string) (self : PDF)
  (data : DataFrame report.row) (scheme_name : string) :
  chapter_body multi_cell_lines self data scheme_name =
    chapter_body multi_cell_lines self [] scheme_name
    ++ flat_map (fun ir => row_ops multi_cell_lines (snd ir)) data.
Proof.
  unfold chapter_body. cbn [fold_left].
  generalize (chapter_title (self ++ [set_font "Arial" "" 10]) ("Scheme: " ++ scheme_name)%string
              ++ [set_font "Arial" "B" 10;
                  cell (nth 0 col_widths 0%Z) 7 "Item" 1 0 "L" 0;
                  cell (nth 1 col_widths 0%Z) 7 "Status" 1 0 "C" 0;
                  cell (nth 2 col_widths 0%Z) 7 "Date" 1 0 "C" 0;
                  cell (nth 3 col_widths 0%Z) 7 "Completed By" 1 1 "C" 0]).
  intros pdf. generalize (pdf ++ [set_font "Arial" "" 10]). clear pdf. intros pdf.
  revert pdf. induction data as [|ir data IH]; intros pdf; cbn [fold_left flat_map].
  - now rewrite app_nil_r.
  - now rewrite IH, table_row_ops, app_assoc.
Qed.

Lemma table_rows_of_rows (multi_cell_lines : Z -> string -> list string) (rows : list report.row)
  (acc : list string * list (list string)) :
  snd acc = [] ->
  snd (fold_right
         (fun o acc =>
            match o with
            | cell _ _ txt _ next_line _ _ =>
                if (next_line =? 1)%Z then ([txt], snd acc) else (txt :: fst acc, snd acc)
            | multi_cell _ _ txt _ _ _ _ => ([], (txt :: fst acc) :: snd acc)
            | _ => acc
            end)
         acc (flat_map (row_ops multi_cell_lines) rows))
  = map row_texts rows.
Proof.
  intros Hacc. induction rows as [|r rows IH]; [assumption|].
  cbn [flat_map]. rewrite fold_right_app.
  set (inner := fold_right _ acc (flat_map _ rows)) in *.
  unfold row_ops, table_row. cbn [app fold_right].
  change (1 =? 1)%Z with true. change (0 =? 1)%Z with false.
  cbn [fst snd map]. now rewrite IH.
Qed.

Lemma table_rows_skip (head rest : PDF) :
  forallb (fun o => negb (is_multi_cell o)) head = true ->
  table_rows (head ++ rest) = table_rows rest.
Proof.
  unfold table_rows. rewrite fold_right_app.
  generalize (fold_right
                (fun o acc =>
                   match o with
                   | cell _ _ txt _ next_line _ _ =>
                       if (next_line =? 1)%Z then ([txt], snd acc) else (txt :: fst acc, snd acc)
                   | multi_cell _ _ txt _ _ _ _ => ([], (txt :: fst acc) :: snd acc)
                   | _ => acc
                   end) ([], []) rest).
  induction head as [|o head IH]; intros acc H; [reflexivity|].
  cbn [forallb] in H. apply andb_true_iff in H as [Ho Hh].
  cbn [fold_right]. rewrite <- (IH acc Hh).
  destruct o; try discriminate; try reflexivity.
  now destruct (_ =? 1)%Z.
Qed.

Lemma select_rows_pd_DataFrame {A} (mask : A -> bool) (data : list A) :
  map snd (select_rows mask (pd_DataFrame data)) = filter mask data.
Proof.
  unfold select_rows, pd_DataFrame. generalize 0%nat.
  induction data as [|x data IH]; intros n; [reflexivity|].
  cbn [List.length seq combine filter snd]. destruct (mask x); cbn [map snd]; now rewrite IH.
Qed.

Lemma latin_1_ascii (s : string) : is_ascii s = true -> latin_1 s = true.
Proof.
  unfold is_ascii, latin_1. intros H. rewrite forallb_forall in *. intros c Hc.
  specialize (H c Hc). apply Nat.ltb_lt in H. apply Nat.ltb_lt. lia.
Qed.

Lemma ascii_only_is_ascii (s : string) : is_ascii (ascii_only s) = true.
Proof.
  unfold is_ascii. induction s as [|c s IH]; [reflexivity|].
  cbn [ascii_only]. destruct (nat_of_ascii c <? 128)%nat eqn:E; [|exact IH].
  cbn [list_ascii_of_string forallb]. now rewrite E.
Qed.

(** What [generate_pdf_report] answers: the calls it made, closed with
    the footer, as a [bytearray], when FPDF could draw each of them. *)
Lemma generate_pdf_report_run (multi_cell_lines : Z -> string -> list string)
  (scheme_name : string) (progress_data : DataFrame df_progress.row) :
  generate_pdf_report multi_cell_lines scheme_name progress_data =
    if forallb encodes (report_calls multi_cell_lines scheme_name progress_data)
    then returned (py_bytearray (footer (report_calls multi_cell_lines scheme_name progress_data)))
    else raised FPDFUnicodeEncodingException.
Proof.
  assert (E : (if negb (empty (select_rows (fun r => df_progress.type r =? "Pretor") progress_data))
               then chapter_body multi_cell_lines (add_page ([] ++ [alias_nb_pages]))
                      (map (fun ir => (fst ir, report_columns (snd ir)))
                           (select_rows (fun r => df_progress.type r =? "Pretor") progress_data))
                      scheme_name
               else chapter_body multi_cell_lines (add_page ([] ++ [alias_nb_pages]))
                      no_pretor_items scheme_name)
              = report_calls multi_cell_lines scheme_name progress_data).
  { unfold report_calls, pretor_columns. cbn [app].
    destruct (select_rows _ progress_data) as [|ir0 pretor_data]; cbn [empty negb];
      rewrite chapter_body_ops; [reflexivity|].
    f_equal. cbn [map]. cbn [flat_map fst snd]. f_equal.
    rewrite !flat_map_concat_map, !map_map. reflexivity. }
  unfold generate_pdf_report. cbv zeta. rewrite E. unfold drawn, output.
  now destruct (forallb encodes _).
Qed.

Lemma encodes_rows (multi_cell_lines : Z -> string -> list string) (rows : list report.row) :
  forallb encodes (flat_map (row_ops multi_cell_lines) rows) =
  forallb (fun r => latin_1 (fillna "-" (report.date_completed r))
                    && latin_1 (fillna "-" (report.completed_by r))) rows.
Proof.
  induction rows as [|r rows IH]; [reflexivity|].
  cbn [flat_map]. rewrite forallb_app, IH. cbn [forallb]. f_equal.
  unfold row_ops, table_row. cbn [app forallb encodes].
  rewrite (latin_1_ascii _ (ascii_only_is_ascii _)).
  destruct (report.is_complete r); cbn [andb]; now rewrite andb_true_r.
Qed.

Lemma encodes_head (multi_cell_lines : Z -> string -> list string) (scheme_name : string) :
  forallb encodes (chapter_body multi_cell_lines (add_page [alias_nb_pages]) [] scheme_name)
  = latin_1 scheme_name.
Proof.
  unfold chapter_body, chapter_title, add_page, header. cbn.
  now rewrite !andb_true_r.
Qed.

(** FPDF can draw the report exactly when the font holds the name of the
    scheme and the dates and signatures of the Pretor records. *)
Lemma encodes_report_calls (multi_cell_lines : Z -> string -> list string)
  (scheme_name : string) (progress_data : DataFrame df_progress.row) :
  forallb encodes (report_calls multi_cell_lines scheme_name progress_data) = true <->
  printable scheme_name progress_data.
Proof.
  unfold report_calls, printable. rewrite forallb_app, encodes_head, andb_true_iff.
  apply and_iff_compat_l.
  assert (E : forallb encodes
                (flat_map (row_ops multi_cell_lines)
                   match pretor_columns progress_data with
                   | [] => map snd no_pretor_items
                   | rows => rows
                   end)
              = forallb (fun r => latin_1 (fillna "-" (report.date_completed r))
                                  && latin_1 (fillna "-" (report.completed_by r)))
                        (pretor_columns progress_data)).
  { rewrite encodes_rows. now destruct (pretor_columns progress_data). }
  rewrite E. unfold pretor_columns, select_rows. clear E.
  induction progress_data as [|[i r] df IH]; [split; [constructor | reflexivity]|].
  cbn [filter snd]. destruct (String.eqb_spec (df_progress.type r) "Pretor") as [Ht|Ht].
  - cbn [map forallb snd report_columns report.date_completed report.completed_by].
    rewrite andb_true_iff, IH, andb_true_iff. split.
    + intros [Hr Hdf]. constructor; [now intros _ | exact Hdf].
    + intros H. inversion H as [|? ? Hr Hdf]; subst. split; [now apply Hr | exact Hdf].
  - rewrite IH. split.
    + intros Hdf. constructor; [intros E; cbn in E; contradiction | exact Hdf].
    + intros H. now inversion H.
Qed.

Lemma table_rows_report (multi_cell_lines : Z -> string -> list string)
  (scheme_name : string) (progress_data : DataFrame df_progress.row) :
  table_rows (footer (report_calls multi_cell_lines scheme_name progress_data)) =
    map row_texts match pretor_columns progress_data with
                  | [] => map snd no_pretor_items
                  | rows => rows
                  end.
Proof.
  unfold footer, report_calls. rewrite <- app_assoc.
  rewrite table_rows_skip by reflexivity.
  unfold table_rows. rewrite fold_right_app.
  apply table_rows_of_rows. reflexivity.
Qed.

(** The rows of the table of a report that FPDF can draw. *)
Lemma report_rows
  (multi_cell_lines : Z -> string -> list string) (scheme_name : string)
  (progress_data : DataFrame df_progress.row) :
  printable scheme_name progress_data ->
  exists doc,
    generate_pdf_report multi_cell_lines scheme_name progress_data = returned (py_bytearray doc) /\
    table_rows doc =
      match filter (fun r => df_progress.type r =? "Pretor") (map snd progress_data) with
      | [] => [placeholder_texts]
      | pretor => map record_texts pretor
      end.
Proof.
  intros Hp. apply encodes_report_calls with (multi_cell_lines := multi_cell_lines) in Hp.
  eexists. rewrite generate_pdf_report_run, Hp. split; [reflexivity|].
  rewrite table_rows_report. unfold pretor_columns, select_rows. clear Hp.
  assert (H : forall l : DataFrame df_progress.row,
            map row_texts (map (fun ir => report_columns (snd ir))
                               (filter (fun ir => df_progress.type (snd ir) =? "Pretor") l))
            = map record_texts (filter (fun r => df_progress.type r =? "Pretor") (map snd l))).
  { induction l as [|[j x] l IHl]; [reflexivity|].
    cbn [filter map snd]. destruct (df_progress.type x =? "Pretor"); cbn [map]; now rewrite IHl. }
  specialize (H progress_data).
  destruct (filter (fun r => df_progress.type r =? "Pretor") (map snd progress_data)) eqn:E;
    destruct (filter (fun ir => df_progress.type (snd ir) =? "Pretor") progress_data);
    try discriminate; [reflexivity | exact H].
Qed.

(** C7: when FPDF's font holds the texts to draw, the report is drawn,
    and the rows of its table are those of the records whose type is
    'Pretor', in the order of the records, each with the description
    (sanitized), the status, the date and the signature of the record;
    with no such record the table holds the one placeholder row. *)
Theorem report_holds_the_pretor_records
  (multi_cell_lines : Z -> string -> list string) (scheme_name : string)
  (progress_data : DataFrame df_progress.row) :
  printable scheme_name progress_data ->
  exists doc,
    generate_pdf_report multi_cell_lines scheme_name progress_data = returned (py_bytearray doc) /\
    table_rows doc =
      match filter (fun r => df_progress.type r =? "Pretor") (map snd progress_data) with
      | [] => [["No Pretor Group items found or linked."; "Pending"; "-"; "-"]]
      | pretor =>
          map (fun r => [ ascii_only (fillna "N/A" (df_progress.item_description r));
                          if df_progress.is_complete r then "Complete" else "Pending";
                          fillna "-" (df_progress.date_completed r);
                          fillna "-" (df_progress.completed_by r) ])
              pretor
      end.
Proof. exact (report_rows multi_cell_lines scheme_name progress_data). Qed.

Lemma report_holds_the_pretor_records_witness :
  exists doc,
    generate_pdf_report fixed_pitch_lines "Sunset Villas" insurance_and_audit
      = returned (py_bytearray doc) /\
    table_rows doc = [["Confirm insurance schedule"; "Pending"; "-"; "-"]].
Proof.
  apply (report_holds_the_pretor_records fixed_pitch_lines "Sunset Villas" insurance_and_audit).
  split; [reflexivity|]. repeat constructor.
Defined.

(** C8: when the sanitized description breaks into [N] lines at the
    width of the item column, the row is the wrapped item cell followed
    by three plain cells (status, date, completed-by), and each of the
    four covers [N] times the line height. *)
Theorem row_cells_share_the_item_height
  (multi_cell_lines : Z -> string -> list string) (self : PDF) (row : report.row) (N : nat) :
  List.length (multi_cell_lines 100%Z (ascii_only (fillna "N/A" (report.item_description row)))) = N ->
  exists item_cell status_cell date_cell by_cell,
    table_row multi_cell_lines self row =
      self ++ [item_cell; set_xy_beside 100; status_cell; date_cell; by_cell] /\
    map is_multi_cell [item_cell; status_cell; date_cell; by_cell] = [true; false; false; false] /\
    map is_cell [status_cell; date_cell; by_cell] = [true; true; true] /\
    map drawn_height [item_cell; status_cell; date_cell; by_cell] =
      repeat (Z.of_nat N * line_height)%Z 4.
Proof.
  intros HN. rewrite table_row_ops. unfold row_ops, table_row. cbn [app nth col_widths].
  do 4 eexists. split; [reflexivity|]. cbn [map is_multi_cell is_cell drawn_height repeat].
  rewrite HN. repeat split.
Qed.

(** On a description of 127 characters, three lines of the sample font. *)
Lemma row_cells_share_the_item_height_witness :
  exists item_cell status_cell date_cell by_cell,
    table_row fixed_pitch_lines []
      {| report.item_description :=
           Some "Obtain the previous managing agent's signed handover pack, including all keys, access tags, remote controls and the alarm codes";
         report.is_complete := true;
         report.date_completed := Some "2024-03-01";
         report.completed_by := None |} =
      [] ++ [item_cell; set_xy_beside 100; status_cell; date_cell; by_cell] /\
    map is_multi_cell [item_cell; status_cell; date_cell; by_cell] = [true; false; false; false] /\
    map is_cell [status_cell; date_cell; by_cell] = [true; true; true] /\
    map drawn_height [item_cell; status_cell; date_cell; by_cell] =
      repeat (Z.of_nat 3 * line_height)%Z 4.
Proof.
  apply row_cells_share_the_item_height. vm_compute. reflexivity.
Defined.

(** ** The category of a record *)

Lemma rows_of_pd_DataFrame {A} (data : list A) : map snd (pd_DataFrame data) = data.
Proof.
  unfold pd_DataFrame. generalize 0%nat.
  induction data as [|x data IH]; intros n; [reflexivity|].
  cbn [List.length seq combine map snd]. now rewrite IH.
Qed.

(** The Pretor rows of the frame the page builds are the records that
    the catalog, as it is when they are read, makes Pretor ones. *)
Lemma pretor_rows_by_current_category (d : Database) (scheme_id : Z)
  (data : list df_progress.row) :
  flattened (fst (read_progress_joined scheme_id d)) = Some data ->
  map record_texts (filter (fun r => df_progress.type r =? "Pretor") data) =
  map (row_of_record d) (pretor_now d scheme_id).
Proof.
  unfold pretor_now, read_progress_joined, category_now, row_of_record; cbn [fst].
  generalize (filter (fun p => (progress_tracker.scheme_id p =? scheme_id)%Z)
                     (db_progress_tracker d)).
  intros rows. revert data. induction rows as [|p rows IH]; intros data H.
  - inversion H. reflexivity.
  - cbn [map flattened] in H. destruct (embedded_item d p) as [m|] eqn:Em; [|discriminate].
    destruct (flattened (map _ rows)) as [data'|]; [|discriminate].
    inversion H; subst. cbn [filter option_map]. rewrite Em.
    cbn [option_map df_progress.type flat_row].
    destruct (master_checklist.type m =? "Pretor"); cbn [map];
      rewrite ?Em; now rewrite (IH data' eq_refl).
Qed.

(** C2, as stated, fails: record 8 was created from catalog item 2.  With
    the item a Pretor one, the report drawn from what the page reads
    shows the record; once the item is turned into a PMA one, the report
    of the very same records shows the placeholder instead. *)
Lemma catalog_edit_changes_the_report :
  db_progress_tracker (db recategorised) = db_progress_tracker (db onboarding) /\
  exists data data' doc doc',
    flatten_all (fst (read_progress_joined 1 (db onboarding))) onboarding
      = (returned data, onboarding) /\
    flatten_all (fst (read_progress_joined 1 (db recategorised))) recategorised
      = (returned data', recategorised) /\
    generate_pdf_report fixed_pitch_lines "Sunset Villas" (pd_DataFrame data)
      = returned (py_bytearray doc) /\
    generate_pdf_report fixed_pitch_lines "Sunset Villas" (pd_DataFrame data')
      = returned (py_bytearray doc') /\
    table_rows doc = [["Confirm insurance schedule"; "Pending"; "-"; "-"]] /\
    table_rows doc' = [["No Pretor Group items found or linked."; "Pending"; "-"; "-"]].
Proof.
  split; [reflexivity|]. do 4 eexists. repeat split; vm_compute; reflexivity.
Qed.

(** C2, amended: the category of a record is not held on the record; it
    is the one its catalog item has when the records are read.  The
    report drawn from what the page has read of a scheme shows exactly
    the records of the scheme that the catalog makes Pretor ones at that
    time, in stored order, each with the description its item has then:
    the report follows the catalog as it is when the records are read. *)
Theorem report_inclusion_follows_the_current_catalog
  (multi_cell_lines : Z -> string -> list string) (scheme_name : string)
  (scheme_id : Z) (d : Database) (w : World) (data : list df_progress.row) :
  flatten_all (fst (read_progress_joined scheme_id d)) w = (returned data, w) ->
  printable scheme_name (pd_DataFrame data) ->
  exists doc,
    generate_pdf_report multi_cell_lines scheme_name (pd_DataFrame data)
      = returned (py_bytearray doc) /\
    table_rows doc =
      match pretor_now d scheme_id with
      | [] => [placeholder_texts]
      | records => map (row_of_record d) records
      end.
Proof.
  intros Hf Hp. rewrite flatten_all_run in Hf.
  destruct (flattened (fst (read_progress_joined scheme_id d))) as [data'|] eqn:E; [|discriminate].
  assert (data' = data) by congruence. subst data'.
  destruct (report_rows multi_cell_lines scheme_name (pd_DataFrame data) Hp) as (doc & Hg & Hr).
  exists doc. split; [assumption|]. rewrite Hr, rows_of_pd_DataFrame.
  pose proof (pretor_rows_by_current_category d scheme_id data E) as H.
  destruct (filter _ data); destruct (pretor_now d scheme_id); try discriminate;
    [reflexivity | exact H].
Qed.

(** On scheme 1 of [onboarding]: record 8, whose item is a Pretor one. *)
Lemma report_inclusion_follows_the_current_catalog_witness :
  exists doc,
    generate_pdf_report fixed_pitch_lines "Sunset Villas"
      (pd_DataFrame
         [flat_row (stored_record 7 1 1)
                   (catalog_item 1 "Obtain previous year's audited financials" "PMA" "BC");
          flat_row (stored_record 8 1 2)
                   (catalog_item 2 "Confirm insurance schedule" "Pretor" "BC")])
      = returned (py_bytearray doc) /\
    table_rows doc = [["Confirm insurance schedule"; "Pending"; "-"; "-"]].
Proof.
  apply (report_inclusion_follows_the_current_catalog fixed_pitch_lines "Sunset Villas" 1
           (db onboarding) onboarding).
  - reflexivity.
  - split; [reflexivity|]. repeat constructor.
Defined.

(** ** Creating a scheme *)

Lemma progress_data_of_catalog (form : new_scheme_form.inputs) (d : Database) :
  progress_data (next_scheme_id d)
    (select_rows (fun row => master_checklist.scheme_type row =? scheme_type_abbr form)
                 (pd_DataFrame (db_master_checklist d)))
  = copied_items form d.
Proof.
  unfold copied_items. rewrite <- select_rows_pd_DataFrame, map_map.
  unfold progress_data. apply map_ext. now intros [i r].
Qed.

Lemma empty_items_to_copy (form : new_scheme_form.inputs) (d : Database) :
  empty (select_rows (fun row => master_checklist.scheme_type row =? scheme_type_abbr form)
                     (pd_DataFrame (db_master_checklist d)))
  = match copied_items form d with [] => true | _ :: _ => false end.
Proof.
  unfold copied_items. rewrite <- select_rows_pd_DataFrame.
  now destruct (select_rows _ (pd_DataFrame (db_master_checklist d))).
Qed.

Lemma new_scheme_page_run (form : new_scheme_form.inputs) (w : World) :
  healthy w ->
  new_scheme_form.submitted form = true ->
  mandatory_fields_filled form = true ->
  db_master_checklist (db w) <> [] ->
  new_scheme_page form w = (returned tt, scheme_created form w).
Proof.
  intros Hw Hs Hm Hc. unfold new_scheme_page.
  rewrite bind_run, fetch_data_healthy by assumption.
  destruct (db_master_checklist (db w)) as [|m0 cat] eqn:Ec; [contradiction|]. rewrite <- Ec.
  rewrite Hs. unfold mandatory_fields_filled in Hm. rewrite Hm. cbn [negb].
  set (wa := {| db := db w; faults := tl (faults w);
                requests := requests w ++ [(select_all "master_checklist", true)];
                screen := screen w |}).
  assert (Hwa : healthy wa) by (subst wa; now apply healthy_tl).
  unfold try_except. rewrite bind_run, execute_healthy by assumption.
  cbn [fst snd store_scheme]. rewrite bind_run. unfold st at 1. rewrite bind_run. unfold ret at 1.
  change (next_scheme_id (db wa)) with (next_scheme_id (db w)).
  rewrite empty_items_to_copy, progress_data_of_catalog.
  unfold scheme_created.
  destruct (copied_items form (db w)) as [|i0 items] eqn:Ei; cbn [negb].
  - unfold st. subst wa. cbn [fst snd db screen requests faults store_scheme].
    now rewrite <- !app_assoc.
  - rewrite bind_run.
    set (wb := {| db := _; faults := _; requests := _; screen := _ |}).
    assert (Hwb : healthy wb).
    { subst wb. cbn [faults]. apply (healthy_tl wa). exact Hwa. }
    rewrite execute_healthy by exact Hwb.
    unfold st. subst wb wa. cbn [fst snd db screen requests faults store_scheme].
    now rewrite <- !app_assoc.
Qed.

(** C10: when the catalog is read, the scheme is stored and the insert of
    the progress records then fails, the page ends normally with the scheme
    stored, the progress table as it was, no request made after the failed
    insert, and the failure shown. *)
Theorem failed_copy_leaves_the_scheme_without_records
  (form : new_scheme_form.inputs) (w : World) (fs : list bool) :
  new_scheme_form.submitted form = true ->
  mandatory_fields_filled form = true ->
  copied_items form (db w) <> [] ->
  faults w = false :: false :: true :: fs ->
  fst (new_scheme_page form w) = returned tt /\
  db_schemes (db (snd (new_scheme_page form w))) =
    db_schemes (db w)
    ++ [{| schemes.id := next_scheme_id (db w); schemes.columns := scheme_data form |}] /\
  db_progress_tracker (db (snd (new_scheme_page form w))) = db_progress_tracker (db w) /\
  requests (snd (new_scheme_page form w)) =
    requests w ++ [(select_all "master_checklist", true);
                   (insert_scheme (scheme_data form), true);
                   (insert_progress (copied_items form (db w)), false)] /\
  screen (snd (new_scheme_page form w)) =
    screen w ++
    [success ("Scheme '" ++ new_scheme_form.scheme_name form ++ "' created successfully!")%string;
     error "Failed to create scheme or copy checklists: " (Some APIError)].
Proof.
  intros Hs Hm Hc Hf.
  assert (E : new_scheme_page form w =
              (returned tt,
               {| db := snd (store_scheme (scheme_data form) (db w));
                  faults := fs;
                  requests := requests w ++ [(select_all "master_checklist", true);
                                             (insert_scheme (scheme_data form), true);
                                             (insert_progress (copied_items form (db w)), false)];
                  screen := screen w ++
                    [success ("Scheme '" ++ new_scheme_form.scheme_name form
                              ++ "' created successfully!")%string;
                     error "Failed to create scheme or copy checklists: " (Some APIError)] |})).
  { unfold new_scheme_page, fetch_data, try_except at 1.
    rewrite !bind_run, execute_answers by now rewrite Hf.
    cbn [fst snd is_Exception].
    assert (Hcat : db_master_checklist (db w) <> []).
    { intros E. apply Hc. unfold copied_items. now rewrite E. }
    destruct (db_master_checklist (db w)) as [|m0 cat] eqn:Ec; [contradiction|]. rewrite <- Ec.
    unfold ret at 1. rewrite Hs. unfold mandatory_fields_filled in Hm. rewrite Hm. cbn [negb].
    unfold try_except. rewrite bind_run, execute_answers by (cbn [faults]; now rewrite Hf).
    cbn [fst snd store_scheme]. rewrite bind_run. unfold st at 1. rewrite bind_run. unfold ret at 1.
    cbn [db]. rewrite empty_items_to_copy, progress_data_of_catalog.
    destruct (copied_items form (db w)) as [|i0 items] eqn:Ei; [contradiction|]. cbn [negb].
    rewrite bind_run, execute_raises by (cbn [faults]; now rewrite Hf).
    cbn [is_Exception]. unfold st. cbn [fst snd db screen requests faults].
    rewrite Hf. cbn [tl]. now rewrite <- !app_assoc. }
  rewrite E. cbn [fst snd db db_schemes db_progress_tracker store_scheme requests screen].
  now repeat split.
Qed.

(** On Sunset Villas, with the insert of its two records failing. *)
Lemma failed_copy_leaves_the_scheme_without_records_witness :
  fst (new_scheme_page sunset_form third_call_fails) = returned tt /\
  db_schemes (db (snd (new_scheme_page sunset_form third_call_fails))) =
    db_schemes (db third_call_fails)
    ++ [{| schemes.id := next_scheme_id (db third_call_fails);
           schemes.columns := scheme_data sunset_form |}] /\
  db_progress_tracker (db (snd (new_scheme_page sunset_form third_call_fails))) =
    db_progress_tracker (db third_call_fails) /\
  requests (snd (new_scheme_page sunset_form third_call_fails)) =
    requests third_call_fails
    ++ [(select_all "master_checklist", true);
        (insert_scheme (scheme_data sunset_form), true);
        (insert_progress (copied_items sunset_form (db third_call_fails)), false)] /\
  screen (snd (new_scheme_page sunset_form third_call_fails)) =
    screen third_call_fails ++
    [success ("Scheme '" ++ new_scheme_form.scheme_name sunset_form
              ++ "' created successfully!")%string;
     error "Failed to create scheme or copy checklists: " (Some APIError)].
Proof.
  apply (failed_copy_leaves_the_scheme_without_records sunset_form third_call_fails []).
  - reflexivity.
  - reflexivity.
  - vm_compute. discriminate.
  - reflexivity.
Defined.

(** X25: what the page stores for a scheme when the store answers and the
    catalog is not empty: one record per catalog item of the scheme's
    type and none for the others, in catalog order, each bound to the new
    scheme, not complete, with no date, signature or notes. *)
Lemma scheme_gets_one_record_per_matching_item (form : new_scheme_form.inputs) (w : World) :
  healthy w ->
  new_scheme_form.submitted form = true ->
  mandatory_fields_filled form = true ->
  db_master_checklist (db w) <> [] ->
  exists created,
    db_progress_tracker (db (snd (new_scheme_page form w))) = db_progress_tracker (db w) ++ created /\
    map progress_tracker.master_item_id created =
      map master_checklist.id
          (filter (fun m => master_checklist.scheme_type m =? scheme_type_abbr form)
                  (db_master_checklist (db w))) /\
    Forall (fun r => progress_tracker.scheme_id r = next_scheme_id (db w) /\
                     progress_tracker.is_complete r = false /\
                     progress_tracker.date_completed r = None /\
                     progress_tracker.completed_by r = None /\
                     progress_tracker.notes r = None) created.
Proof.
  intros Hw Hs Hm Hc. rewrite new_scheme_page_run by assumption. cbn [snd].
  exists (number_from (next_progress_id (db w)) (copied_items form (db w))).
  split; [|split].
  - unfold scheme_created.
    destruct (copied_items form (db w)); cbn [db store_progress store_scheme snd db_progress_tracker
                                               number_from];
      [now rewrite app_nil_r | reflexivity].
  - unfold copied_items. generalize (next_progress_id (db w)).
    induction (filter _ (db_master_checklist (db w))) as [|m items IH]; intros n; [reflexivity|].
    cbn [map number_from fresh_progress progress_tracker.master_item_id
         progress_tracker.new_master_item_id]. now rewrite IH.
  - unfold copied_items. generalize (next_progress_id (db w)).
    induction (filter _ (db_master_checklist (db w))) as [|m items IH]; intros n; [constructor|].
    cbn [map number_from]. constructor; [now repeat split | apply IH].
Qed.

(** C6 fails on an empty catalog: no item matches, which is to be told
    as a notice and not as an error; the page stores the scheme, creates
    no record, and reports a failure, the frame of an empty catalog having
    no column 'scheme_type'. *)
Theorem empty_catalog_is_reported_as_a_failure :
  fst (new_scheme_page sunset_form empty_catalog) = returned tt /\
  db_schemes (db (snd (new_scheme_page sunset_form empty_catalog))) = [sunset_villas] /\
  db_progress_tracker (db (snd (new_scheme_page sunset_form empty_catalog))) = [] /\
  screen (snd (new_scheme_page sunset_form empty_catalog)) =
    [success "Scheme 'Sunset Villas' created successfully!";
     error "Failed to create scheme or copy checklists: " (Some (KeyError "scheme_type"))].
Proof. repeat split; vm_compute; reflexivity. Qed.

(** ** The scenarios of the specification *)

(** A catalog of two BC items and one HOA item: a BC scheme gets two
    records, both not complete. *)
Example two_bc_items_and_one_hoa_item :
  db_progress_tracker
    (db (snd (new_scheme_page sunset_form
                {| db := db third_call_fails; faults := []; requests := []; screen := [] |}))) =
    [stored_record 1 1 1; stored_record 2 1 2].
Proof. vm_compute. reflexivity. Qed.

(** Unticking is sent without the date that was left in the grid, and
    stops in the client. *)
Example unticked_row_loses_its_date :
  display_and_edit_progress
    (pd_DataFrame [ticked 7 "done"]) "PMA"
    (pd_DataFrame [grid_row 7 false (Some "2024-03-01") (Some "Bookkeeper") (Some "done")])
    true two_records =
    (raised (TypeError "Object of type bool_ is not JSON serializable"),
     asked_in_vain {| progress_tracker.set_is_complete := numpy_bool false;
                      progress_tracker.set_date_completed := None;
                      progress_tracker.set_completed_by := None;
                      progress_tracker.set_notes := Some "done" |} 7 two_records).
Proof. vm_compute. reflexivity. Qed.

(** The report of a Pretor record "A" and a PMA record "B" holds "A" only. *)
Example report_of_a_and_b :
  exists doc,
    generate_pdf_report fixed_pitch_lines "Sunset Villas"
      (pd_DataFrame
         [ {| df_progress.progress_id := 1; df_progress.item_description := Some "A";
              df_progress.scheme_type := "BC"; df_progress.type := "Pretor";
              df_progress.is_complete := false; df_progress.date_completed := None;
              df_progress.completed_by := None; df_progress.notes := None |};
           {| df_progress.progress_id := 2; df_progress.item_description := Some "B";
              df_progress.scheme_type := "BC"; df_progress.type := "PMA";
              df_progress.is_complete := true; df_progress.date_completed := Some "2024-03-01";
              df_progress.completed_by := Some "Me"; df_progress.notes := None |} ])
      = returned (py_bytearray doc) /\
    table_rows doc = [["A"; "Pending"; "-"; "-"]].
Proof. eexists. split; vm_compute; reflexivity. Qed.

(** * Further properties *)

(** ** Relations kept by the monad *)

Section Preserved.

Variable R : World -> World -> Prop.
Hypothesis R_refl : forall w, R w w.
Hypothesis R_trans : forall w1 w2 w3, R w1 w2 -> R w2 w3 -> R w1 w3.

Lemma preserves_ret {A} (a : A) : preserves R (ret a).
Proof. intros w. apply R_refl. Qed.

Lemma preserves_raise {A} (e : exn) : preserves R (@raise A e).
Proof. intros w. apply R_refl. Qed.

(** [k] need only keep [R] on the values [m] can return. *)
Lemma preserves_bind {A B} (Q : A -> Prop) (m : M A) (k : A -> M B) :
  preserves R m ->
  (forall w a, fst (m w) = returned a -> Q a) ->
  (forall a, Q a -> preserves R (k a)) ->
  preserves R (bind m k).
Proof.
  intros Hm HQ Hk w. rewrite bind_run.
  specialize (Hm w). specialize (HQ w).
  destruct (m w) as [[a|e] w1]; cbn [fst snd] in *; [|assumption].
  eapply R_trans; [eassumption|]. now apply Hk, HQ.
Qed.

Lemma preserves_then {A B} (m : M A) (k : A -> M B) :
  preserves R m -> (forall a, preserves R (k a)) -> preserves R (bind m k).
Proof.
  intros Hm Hk. apply (preserves_bind (fun _ => True)); auto.
Qed.

Lemma preserves_try_except {A} (body : M A) (handler : exn -> M A) :
  preserves R body -> (forall e, preserves R (handler e)) -> preserves R (try_except body handler).
Proof.
  intros Hb Hh w. unfold try_except. specialize (Hb w).
  destruct (body w) as [[a|e] w1]; cbn [snd] in *; [assumption|].
  destruct (is_Exception e); cbn [snd]; [|assumption].
  eapply R_trans; [eassumption | apply Hh].
Qed.

Lemma preserves_flatten_all items : preserves R (flatten_all items).
Proof. intros w. rewrite flatten_all_run. destruct (flattened items); apply R_refl. Qed.

(** The screen is not part of what [R] looks at. *)
Hypothesis R_st : forall w ev, R w (snd (st ev w)).

(** Nor is a call that leaves the tables alone, answered or not. *)
Hypothesis R_read :
  forall w rq ok fs,
    is_read (rq, ok) = true ->
    R w {| db := db w; faults := fs; requests := requests w ++ [(rq, ok)]; screen := screen w |}.

Lemma preserves_st (ev : st_event) : preserves R (st ev).
Proof. intros w. apply R_st. Qed.

Lemma preserves_read {A} (rq : request) (run : Database -> A * Database) :
  is_read (rq, true) = true -> (forall d, snd (run d) = d) -> preserves R (execute rq run).
Proof.
  intros Hq Hrun w. unfold execute.
  destruct (faults w) as [|[] fs]; try (specialize (Hrun (db w)); destruct (run (db w)) as [a d];
    cbn [snd] in *; subst d); apply R_read; exact Hq.
Qed.

Lemma preserves_fetch_data {A} (table_name : string) (table : Database -> list A) :
  preserves R (fetch_data table_name table).
Proof.
  unfold fetch_data. apply preserves_try_except.
  - apply preserves_then; [now apply preserves_read|].
    intros [|x data]; apply preserves_ret.
  - intros e. apply preserves_then; [apply preserves_st | intros; apply preserves_ret].
Qed.

Lemma preserves_getitem (scheme_options : list (Z * string)) (x : Z) :
  preserves R (getitem scheme_options x).
Proof. unfold getitem. destruct (find _ _); [apply preserves_ret | apply preserves_raise]. Qed.

Lemma preserves_download_button (data : py_data) : preserves R (st_download_button data).
Proof. destruct data; [apply preserves_ret | apply preserves_ret | apply preserves_raise]. Qed.

(** The page keeps [R] as soon as its two grids do. *)
Lemma preserves_page (multi_cell_lines : Z -> string -> list string) (ui : tracker.inputs) :
  (forall df, preserves R (display_and_edit_progress df "PMA" (tracker.edit_pma ui df)
                                                     (tracker.save_pma ui))) ->
  (forall df, preserves R (display_and_edit_progress df "Pretor Group" (tracker.edit_pretor ui df)
                                                     (tracker.save_pretor ui))) ->
  preserves R (progress_tracker_page multi_cell_lines ui).
Proof.
  intros Hpma Hpretor. unfold progress_tracker_page.
  apply preserves_then; [apply preserves_fetch_data|].
  intros [df_schemes|];
    [|apply preserves_then; [apply preserves_st | intros; apply preserves_ret]].
  destruct (negb _); [|apply preserves_ret].
  apply preserves_then; [now apply preserves_read|].
  intros [|item items];
    [apply preserves_then; [apply preserves_st | intros; apply preserves_ret]|].
  apply preserves_then; [apply preserves_flatten_all|]. intros data_for_df.
  apply preserves_then; [apply Hpma|]. intros _.
  apply preserves_then; [apply Hpretor|]. intros _.
  apply preserves_then; [apply preserves_st|]. intros _.
  apply preserves_then; [apply preserves_getitem|]. intros scheme_name.
  apply preserves_then; [intros w; apply R_refl|]. intros pdf_bytes.
  apply preserves_download_button.
Qed.

End Preserved.

(** ** What a run of the tracker leaves alone *)

Lemma keeps_I1_refl w : keeps_I1 w w.
Proof. now intros H. Qed.

Lemma keeps_I1_trans w1 w2 w3 : keeps_I1 w1 w2 -> keeps_I1 w2 w3 -> keeps_I1 w1 w3.
Proof. unfold keeps_I1. auto. Qed.

Lemma keeps_I1_same_db w w' : db w' = db w -> keeps_I1 w w'.
Proof. unfold keeps_I1. now intros ->. Qed.

Lemma reads_only_refl w : reads_only w w.
Proof. split; [reflexivity|]. exists []. now rewrite app_nil_r. Qed.

Lemma reads_only_trans w1 w2 w3 : reads_only w1 w2 -> reads_only w2 w3 -> reads_only w1 w3.
Proof.
  intros (D1 & n1 & E1 & F1) (D2 & n2 & E2 & F2). split; [congruence|].
  exists (n1 ++ n2). split; [now rewrite E2, E1, app_assoc|].
  now rewrite forallb_app, F1, F2.
Qed.

Lemma reads_only_st w ev : reads_only w (snd (st ev w)).
Proof. split; [reflexivity|]. exists []. cbn. now rewrite app_nil_r. Qed.

Lemma reads_only_read w rq ok fs :
  is_read (rq, ok) = true ->
  reads_only w {| db := db w; faults := fs; requests := requests w ++ [(rq, ok)];
                  screen := screen w |}.
Proof.
  intros H. split; [reflexivity|]. exists [(rq, ok)]. split; [reflexivity|].
  cbn [forallb]. now rewrite H.
Qed.

(** The page leaves the store as it found it. *)
Lemma page_same_db (multi_cell_lines : Z -> string -> list string) (ui : tracker.inputs)
  (w : World) :
  db (snd (progress_tracker_page multi_cell_lines ui w)) = db w.
Proof.
  revert w.
  apply (preserves_page (fun w w' => db w' = db w)); try reflexivity.
  - intros w1 w2 w3 H1 H2. congruence.
  - intros df w. apply grid_outcomes.
  - intros df w. apply grid_outcomes.
Qed.

(** X1: whatever the store does and whatever the user hands back, a run
    of the Progress Tracker page leaves the catalog and the schemes as
    they were, and of the progress records it neither adds nor removes
    any, nor changes the id, the scheme or the catalog item of one. *)
Theorem tracker_page_keeps_the_records_and_their_bindings
  (multi_cell_lines : Z -> string -> list string) (ui : tracker.inputs) (w : World) :
  db_master_checklist (db (snd (progress_tracker_page multi_cell_lines ui w)))
    = db_master_checklist (db w) /\
  db_schemes (db (snd (progress_tracker_page multi_cell_lines ui w))) = db_schemes (db w) /\
  map identity (db_progress_tracker (db (snd (progress_tracker_page multi_cell_lines ui w))))
    = map identity (db_progress_tracker (db w)).
Proof. now rewrite page_same_db. Qed.

(** X2: a save of a grid, whether it is refused or stops on the way,
    leaves every stored record whose id is not an id of the grid exactly
    as it was. *)
Theorem records_outside_the_grid_are_untouched
  (df edited_df : DataFrame df_progress.row) (source_type : string) (save : bool) (w : World) :
  Forall2 (fun r r' =>
             ~ In (progress_tracker.id r) (map (fun ir => df_progress.progress_id (snd ir)) df) ->
             r' = r)
          (db_progress_tracker (db w))
          (db_progress_tracker
             (db (snd (display_and_edit_progress df source_type edited_df save w)))).
Proof.
  destruct (grid_outcomes df edited_df source_type save w) as (-> & _).
  induction (db_progress_tracker (db w)); constructor; auto.
Qed.

(** X3: when no save button is pressed, a run of the Progress Tracker
    page leaves the store as it was, and every request it makes is a
    read. *)
Theorem looking_at_the_tracker_writes_nothing
  (multi_cell_lines : Z -> string -> list string) (ui : tracker.inputs) (w : World) :
  tracker.save_pma ui = false ->
  tracker.save_pretor ui = false ->
  db (snd (progress_tracker_page multi_cell_lines ui w)) = db w /\
  exists new,
    requests (snd (progress_tracker_page multi_cell_lines ui w)) = requests w ++ new /\
    forallb is_read new = true.
Proof.
  intros Hpma Hpretor.
  assert (Hgrid : forall df s e, preserves reads_only (display_and_edit_progress df s e false)).
  { intros df s e w0. unfold display_and_edit_progress.
    destruct (empty df); [apply reads_only_st | apply reads_only_refl]. }
  apply (preserves_page reads_only reads_only_refl reads_only_trans reads_only_st
                        reads_only_read multi_cell_lines ui).
  - intros df. rewrite Hpma. apply Hgrid.
  - intros df. rewrite Hpretor. apply Hgrid.
Qed.

Lemma looking_at_the_tracker_writes_nothing_witness :
  db (snd (progress_tracker_page fixed_pitch_lines look_at_scheme_1 onboarding)) = db onboarding /\
  exists new,
    requests (snd (progress_tracker_page fixed_pitch_lines look_at_scheme_1 onboarding))
      = requests onboarding ++ new /\
    forallb is_read new = true.
Proof.
  apply looking_at_the_tracker_writes_nothing; reflexivity.
Defined.

(** ** Invariant I1 on the store *)

Lemma keeps_I1_execute {A} (rq : request) (run : Database -> A * Database) :
  (forall d, Forall I1 (db_progress_tracker d) -> Forall I1 (db_progress_tracker (snd (run d)))) ->
  preserves keeps_I1 (execute rq run).
Proof.
  intros H w. unfold execute. destruct (faults w) as [|[] fs];
    try (pose proof (H (db w)) as Hd; destruct (run (db w)) as [a d]; cbn [snd] in *; exact Hd).
  now apply keeps_I1_same_db.
Qed.

Lemma number_from_I1 id rows :
  Forall (fun r => progress_tracker.new_is_complete r = false) rows ->
  Forall I1 (number_from id rows).
Proof.
  intros H. revert id. induction H as [|r rows Hr _ IH]; intros id; cbn [number_from];
    constructor; [|apply IH].
  unfold I1, fresh_progress; cbn. repeat split; discriminate.
Qed.

Lemma keeps_I1_new_scheme_page (form : new_scheme_form.inputs) :
  preserves keeps_I1 (new_scheme_page form).
Proof.
  pose proof keeps_I1_refl as Hr. pose proof keeps_I1_trans as Ht.
  assert (Hst : forall ev, preserves keeps_I1 (st ev)).
  { intros ev w. now apply keeps_I1_same_db. }
  unfold new_scheme_page.
  apply preserves_then; [assumption..| |].
  { apply preserves_fetch_data; try assumption.
    - intros w ev. now apply keeps_I1_same_db.
    - intros w rq ok fs _. now apply keeps_I1_same_db. }
  intros df. destruct (new_scheme_form.submitted form); [|now apply preserves_ret].
  destruct (negb _); [apply Hst|].
  apply preserves_try_except; [assumption| |intros e; apply Hst].
  apply preserves_then; [assumption..| |].
  { apply keeps_I1_execute. now intros d. }
  intros new_scheme_id. apply preserves_then; [assumption..|apply Hst|]. intros _.
  apply preserves_then; [assumption..| |].
  { destruct df; [now apply preserves_ret | now apply preserves_raise]. }
  intros items_to_copy. destruct (negb _); [|apply Hst].
  apply preserves_then; [assumption..| |intros; apply Hst].
  apply keeps_I1_execute. intros d H. cbn [store_progress snd db_progress_tracker].
  apply Forall_app. split; [assumption|]. apply number_from_I1.
  unfold progress_data. apply Forall_map, Forall_forall. now intros [i r] _.
Qed.

Lemma keeps_I1_page (multi_cell_lines : Z -> string -> list string) (ui : tracker.inputs) :
  preserves keeps_I1 (progress_tracker_page multi_cell_lines ui).
Proof. intros w. apply keeps_I1_same_db, page_same_db. Qed.

(** X4: both pages keep Invariant I1 on the store, whatever the user
    enters and whichever calls fail: if every stored record that is not
    complete has neither date nor signature, and none holds an empty
    date or signature, the same is true after a run of the Progress
    Tracker page and after a run of the Create New Scheme page. *)
Theorem pages_keep_invariant_I1
  (multi_cell_lines : Z -> string -> list string) (ui : tracker.inputs)
  (form : new_scheme_form.inputs) (w : World) :
  Forall I1 (db_progress_tracker (db w)) ->
  Forall I1 (db_progress_tracker (db (snd (progress_tracker_page multi_cell_lines ui w)))) /\
  Forall I1 (db_progress_tracker (db (snd (new_scheme_page form w)))).
Proof.
  intros H. split.
  - now apply (keeps_I1_page multi_cell_lines ui w).
  - now apply (keeps_I1_new_scheme_page form w).
Qed.

Lemma pages_keep_invariant_I1_witness :
  Forall I1 (db_progress_tracker
               (db (snd (progress_tracker_page fixed_pitch_lines leave_date_on_record_7
                                               onboarding)))) /\
  Forall I1 (db_progress_tracker (db (snd (new_scheme_page sunset_form onboarding)))).
Proof.
  apply pages_keep_invariant_I1.
  repeat constructor; cbn; discriminate.
Defined.

(** ** Edits that are not saved *)

Lemma bind_ext {A B} (m : M A) (k k' : A -> M B) (w : World) :
  (forall a w', k a w' = k' a w') -> bind m k w = bind m k' w.
Proof. intros H. rewrite !bind_run. destruct (m w) as [[a|e] w1]; [apply H | reflexivity]. Qed.

Lemma grid_not_saved (df edited_df edited_df' : DataFrame df_progress.row) (source_type : string)
  (w : World) :
  display_and_edit_progress df source_type edited_df false w =
  display_and_edit_progress df source_type edited_df' false w.
Proof. unfold display_and_edit_progress. now destruct (empty df). Qed.

(** X5: what is typed into the grids and not saved reaches neither the
    store nor the report: with no save button pressed, the whole run of
    the Progress Tracker page, and what it ends on, is the same whatever
    the grids hand back. *)
Theorem unsaved_edits_change_nothing
  (multi_cell_lines : Z -> string -> list string) (ui ui' : tracker.inputs) (w : World) :
  tracker.selected_scheme_id ui' = tracker.selected_scheme_id ui ->
  tracker.save_pma ui = false -> tracker.save_pretor ui = false ->
  tracker.save_pma ui' = false -> tracker.save_pretor ui' = false ->
  progress_tracker_page multi_cell_lines ui' w = progress_tracker_page multi_cell_lines ui w.
Proof.
  intros Hsel Hp Hr Hp' Hr'. unfold progress_tracker_page.
  rewrite Hsel, Hp, Hr, Hp', Hr'.
  apply bind_ext. intros [df_schemes|] w1; [|reflexivity].
  destruct (negb _); [|reflexivity].
  apply bind_ext. intros [|item items] w2; [reflexivity|].
  apply bind_ext. intros data_for_df w3.
  set (df_progress := pd_DataFrame data_for_df).
  set (df_pma := reset_index (select_rows _ df_progress)).
  set (df_pretor := reset_index (select_rows (fun r => df_progress.type r =? "Pretor") df_progress)).
  rewrite !bind_run.
  rewrite (grid_not_saved df_pma (tracker.edit_pma ui' df_pma) (tracker.edit_pma ui df_pma)).
  destruct (display_and_edit_progress df_pma "PMA" _ false w3) as [[[]|e] w4]; [|reflexivity].
  rewrite !bind_run.
  rewrite (grid_not_saved df_pretor (tracker.edit_pretor ui' df_pretor)
                          (tracker.edit_pretor ui df_pretor)).
  reflexivity.
Qed.

Lemma unsaved_edits_change_nothing_witness :
  progress_tracker_page fixed_pitch_lines
    {| tracker.selected_scheme_id := 1;
       tracker.edit_pma := map_rows (fill_in true); tracker.save_pma := false;
       tracker.edit_pretor := fun df => df; tracker.save_pretor := false |} onboarding
  = progress_tracker_page fixed_pitch_lines look_at_scheme_1 onboarding.
Proof.
  apply unsaved_edits_change_nothing; reflexivity.
Defined.

(** ** What Save stores *)

(** X6: Save stores nothing.  Whatever the frame, the view and the
    button, a run of the grid leaves the store as it was, reaches the
    store with no call (none of its coming outcomes is used up), and no
    update of it goes through. *)
Theorem save_stores_nothing
  (df edited_df : DataFrame df_progress.row) (source_type : string) (save : bool) (w : World) :
  db (snd (display_and_edit_progress df source_type edited_df save w)) = db w /\
  faults (snd (display_and_edit_progress df source_type edited_df save w)) = faults w /\
  applied_updates (snd (display_and_edit_progress df source_type edited_df save w))
    = applied_updates w.
Proof.
  destruct (grid_outcomes df edited_df source_type save w) as (Hd & Hf & _).
  split; [assumption|]. split; [assumption|]. apply applied_updates_grid.
Qed.

(** ** Reading a table *)

(** X7: [fetch_data] never fails and never changes the store.  When the
    store call fails it shows the error and hands back the frame without
    columns, the same frame an empty table gives; otherwise it shows
    nothing and hands back the rows of the table, labelled from 0. *)
Theorem fetch_data_swallows_a_failed_read {A} (table_name : string)
  (table : Database -> list A) (w : World) :
  fst (fetch_data table_name table w) =
    returned (if hd false (faults w) then None
              else match table (db w) with
                   | [] => None
                   | _ :: _ => Some (pd_DataFrame (table (db w)))
                   end) /\
  db (snd (fetch_data table_name table w)) = db w /\
  requests (snd (fetch_data table_name table w)) =
    requests w ++ [(select_all table_name, negb (hd false (faults w)))] /\
  screen (snd (fetch_data table_name table w)) =
    screen w ++ (if hd false (faults w)
                 then [error ("Error fetching data from " ++ table_name ++ ": ")%string
                             (Some APIError)]
                 else []).
Proof.
  unfold fetch_data, try_except. rewrite bind_run.
  destruct (hd false (faults w)) eqn:Hf.
  - rewrite execute_raises by assumption. cbn. auto.
  - rewrite execute_answers by assumption. cbn [fst snd].
    destruct (table (db w)); cbn; rewrite app_nil_r; auto.
Qed.

(** ** Creating a scheme: what can go wrong *)

Lemma fetch_data_run {A} (table_name : string) (table : Database -> list A) (w : World) :
  fetch_data table_name table w =
    (returned (if hd false (faults w) then None
               else match table (db w) with
                    | [] => None
                    | _ :: _ => Some (pd_DataFrame (table (db w)))
                    end),
     {| db := db w; faults := tl (faults w);
        requests := requests w ++ [(select_all table_name, negb (hd false (faults w)))];
        screen := screen w ++
          (if hd false (faults w)
           then [error ("Error fetching data from " ++ table_name ++ ": ")%string (Some APIError)]
           else []) |}).
Proof.
  unfold fetch_data, try_except. rewrite bind_run.
  destruct (hd false (faults w)) eqn:Hf.
  - rewrite execute_raises by assumption. reflexivity.
  - rewrite execute_answers by assumption. cbn [fst snd].
    destruct (table (db w)); unfold ret; now rewrite app_nil_r.
Qed.

(** X8: a submitted form with one of the four mandatory fields empty stores
    nothing: the page reads the catalog, asks the store for nothing else,
    and ends on the request to fill in the mandatory fields. *)
Theorem form_with_an_empty_mandatory_field_stores_nothing
  (form : new_scheme_form.inputs) (w : World) :
  new_scheme_form.submitted form = true ->
  mandatory_fields_filled form = false ->
  fst (new_scheme_page form w) = returned tt /\
  db (snd (new_scheme_page form w)) = db w /\
  requests (snd (new_scheme_page form w)) =
    requests w ++ [(select_all "master_checklist", negb (hd false (faults w)))] /\
  exists shown,
    screen (snd (new_scheme_page form w)) =
      screen w ++ shown ++ [error "Please fill in all mandatory fields (*)." None].
Proof.
  intros Hs Hm. unfold new_scheme_page. rewrite bind_run, fetch_data_run, Hs.
  unfold mandatory_fields_filled in Hm. rewrite Hm. cbn [negb]. unfold st. cbn [fst snd db requests screen].
  repeat split. eexists. now rewrite <- app_assoc.
Qed.

Lemma form_with_an_empty_mandatory_field_stores_nothing_witness :
  db (snd (new_scheme_page unsigned_form onboarding)) = db onboarding.
Proof.
  apply (form_with_an_empty_mandatory_field_stores_nothing unsigned_form onboarding);
    reflexivity.
Defined.

(** X9: when the store refuses the new scheme, nothing is stored: no
    scheme, no record; the page asks for nothing more and ends on the
    failure message carrying the store's error. *)
Theorem refused_scheme_leaves_the_store_unchanged
  (form : new_scheme_form.inputs) (w : World) (b : bool) (fs : list bool) :
  new_scheme_form.submitted form = true ->
  mandatory_fields_filled form = true ->
  faults w = b :: true :: fs ->
  fst (new_scheme_page form w) = returned tt /\
  db (snd (new_scheme_page form w)) = db w /\
  requests (snd (new_scheme_page form w)) =
    requests w ++ [(select_all "master_checklist", negb b);
                   (insert_scheme (scheme_data form), false)] /\
  exists shown,
    screen (snd (new_scheme_page form w)) =
      screen w ++ shown ++ [error "Failed to create scheme or copy checklists: " (Some APIError)].
Proof.
  intros Hs Hm Hf. unfold new_scheme_page. rewrite bind_run, fetch_data_run, Hs.
  unfold mandatory_fields_filled in Hm. rewrite Hm. cbn [negb].
  unfold try_except. rewrite bind_run, execute_raises by now rewrite Hf.
  rewrite Hf. unfold st. cbn [fst snd db requests screen is_Exception hd].
  repeat split.
  - now rewrite <- app_assoc.
  - eexists. now rewrite <- app_assoc.
Qed.

Lemma refused_scheme_leaves_the_store_unchanged_witness :
  db (snd (new_scheme_page sunset_form
             {| db := db onboarding; faults := [false; true]; requests := []; screen := [] |}))
  = db onboarding.
Proof.
  apply (refused_scheme_leaves_the_store_unchanged sunset_form
           {| db := db onboarding; faults := [false; true]; requests := []; screen := [] |}
           false []); reflexivity.
Defined.

(** X10: when the catalog cannot be read as the page opens, a submitted
    form still creates the scheme, and the scheme gets no record: the
    filter on the frame without columns fails after the insert, and the
    page ends on the failure message. *)
Theorem unread_catalog_gives_a_scheme_without_records
  (form : new_scheme_form.inputs) (w : World) (fs : list bool) :
  new_scheme_form.submitted form = true ->
  mandatory_fields_filled form = true ->
  faults w = true :: false :: fs ->
  fst (new_scheme_page form w) = returned tt /\
  db (snd (new_scheme_page form w)) = snd (store_scheme (scheme_data form) (db w)) /\
  requests (snd (new_scheme_page form w)) =
    requests w ++ [(select_all "master_checklist", false);
                   (insert_scheme (scheme_data form), true)] /\
  screen (snd (new_scheme_page form w)) =
    screen w ++
    [error "Error fetching data from master_checklist: " (Some APIError);
     success ("Scheme '" ++ new_scheme_form.scheme_name form ++ "' created successfully!")%string;
     error "Failed to create scheme or copy checklists: " (Some (KeyError "scheme_type"))].
Proof.
  intros Hs Hm Hf. unfold new_scheme_page. rewrite bind_run, fetch_data_run, Hs.
  unfold mandatory_fields_filled in Hm. rewrite Hm. cbn [negb].
  unfold try_except. rewrite bind_run, execute_answers by now rewrite Hf.
  rewrite Hf.
  cbv beta iota delta [bind st raise fst snd hd db requests screen is_Exception store_scheme].
  repeat split; now rewrite <- !app_assoc.
Qed.

Lemma unread_catalog_gives_a_scheme_without_records_witness :
  db (snd (new_scheme_page sunset_form
             {| db := db onboarding; faults := [true; false]; requests := []; screen := [] |}))
  = snd (store_scheme (scheme_data sunset_form) (db onboarding)).
Proof.
  apply (unread_catalog_gives_a_scheme_without_records sunset_form
           {| db := db onboarding; faults := [true; false]; requests := []; screen := [] |}
           []); reflexivity.
Defined.

Lemma try_except_run {A} (body : M A) (handler : exn -> M A) (w : World) :
  try_except body handler w =
    match body w with
    | (returned a, w') => (returned a, w')
    | (raised e, w') => if is_Exception e then handler e w' else (raised e, w')
    end.
Proof. unfold try_except. now destruct (body w) as [[a|e] w']. Qed.

(** X11: whatever the form holds and whichever store calls fail, the
    Create New Scheme page leaves the store in one of three states:
    untouched; with the new scheme and none of its records; or with the
    new scheme and one record for each catalog item of its type.  It never
    stores records without their scheme, or a part of them. *)
Theorem new_scheme_page_stores_all_or_the_scheme_or_nothing
  (form : new_scheme_form.inputs) (w : World) :
  let after := db (snd (new_scheme_page form w)) in
  let with_scheme := snd (store_scheme (scheme_data form) (db w)) in
  after = db w \/
  after = with_scheme \/
  after = snd (store_progress (copied_items form (db w)) with_scheme).
Proof.
  cbv zeta. unfold new_scheme_page. rewrite bind_run, fetch_data_run.
  destruct (new_scheme_form.submitted form); [|now left].
  destruct (negb _); [now left|].
  set (w1 := {| db := db w; faults := tl (faults w); requests := _; screen := _ |}).
  rewrite try_except_run, bind_run.
  destruct (hd false (faults w1)) eqn:H1.
  { rewrite execute_raises by assumption. now left. }
  rewrite execute_answers by assumption.
  set (w2 := {| db := snd (store_scheme (scheme_data form) (db w1)); faults := _;
                requests := _; screen := _ |}).
  cbv beta iota. rewrite bind_run.
  set (created := success _).
  change (st created w2) with
    (returned tt, {| db := db w2; faults := faults w2; requests := requests w2;
                     screen := screen w2 ++ [created] |}).
  set (w3 := {| db := db w2; faults := _; requests := _; screen := _ ++ [created] |}).
  cbv beta iota. rewrite bind_run.
  destruct (hd false (faults w)).
  { right; left. reflexivity. }
  destruct (db_master_checklist (db w)) as [|m0 cat] eqn:Ec.
  { right; left. reflexivity. }
  rewrite <- Ec.
  change (fst (store_scheme (scheme_data form) (db w1))) with (next_scheme_id (db w)).
  unfold ret. cbv beta iota.
  rewrite empty_items_to_copy, progress_data_of_catalog.
  destruct (copied_items form (db w)) as [|i0 items] eqn:Ei; cbn [negb].
  { right; left. reflexivity. }
  rewrite bind_run.
  destruct (hd false (faults w3)) eqn:H3.
  - rewrite execute_raises by assumption. right; left. reflexivity.
  - rewrite execute_answers by assumption. right; right. reflexivity.
Qed.

(** ** The report: what reaches the document *)

Lemma ascii_only_fixes_ascii (s : string) : is_ascii s = true -> ascii_only s = s.
Proof.
  unfold is_ascii. induction s as [|c s IH]; [reflexivity|].
  cbn [list_ascii_of_string forallb ascii_only]. intros H.
  apply andb_prop in H as [Hc Hs]. rewrite Hc. now rewrite IH.
Qed.

Lemma drawn_items_app (a b : PDF) : drawn_items (a ++ b) = drawn_items a ++ drawn_items b.
Proof. unfold drawn_items. apply flat_map_app. Qed.

Lemma drawn_items_rows (multi_cell_lines : Z -> string -> list string) (rows : list report.row) :
  drawn_items (flat_map (row_ops multi_cell_lines) rows) =
    map (fun r => ascii_only (fillna "N/A" (report.item_description r))) rows.
Proof.
  induction rows as [|r rows IH]; [reflexivity|].
  cbn [flat_map map]. rewrite drawn_items_app, IH. reflexivity.
Qed.

Lemma drawn_items_report (multi_cell_lines : Z -> string -> list string)
  (scheme_name : string) (progress_data : DataFrame df_progress.row) :
  drawn_items (footer (report_calls multi_cell_lines scheme_name progress_data)) =
    map (fun r => ascii_only (fillna "N/A" (report.item_description r)))
        match pretor_columns progress_data with
        | [] => map snd no_pretor_items
        | rows => rows
        end.
Proof.
  unfold footer, report_calls.
  rewrite !drawn_items_app, drawn_items_rows. cbn [drawn_items flat_map app].
  now rewrite app_nil_r.
Qed.

(** X12: every item text of the report is plain ASCII, whatever the
    descriptions in the catalog hold: the characters outside ASCII are
    left out before the text is drawn.  The function either hands the
    document back, as a [bytearray] whose item texts are all ASCII, or
    ends in FPDF's encoding error. *)
Theorem report_items_are_ascii (multi_cell_lines : Z -> string -> list string)
  (scheme_name : string) (progress_data : DataFrame df_progress.row) :
  match generate_pdf_report multi_cell_lines scheme_name progress_data with
  | returned (py_bytearray doc) => Forall (fun item => is_ascii item = true) (drawn_items doc)
  | returned _ => False
  | raised e => e = FPDFUnicodeEncodingException
  end.
Proof.
  rewrite generate_pdf_report_run. destruct (forallb encodes _); [|reflexivity].
  rewrite drawn_items_report. apply Forall_map, Forall_forall. intros r _.
  apply ascii_only_is_ascii.
Qed.

(** X13: in a report FPDF can draw, a Pretor record whose description is
    plain ASCII is drawn with that description, character for
    character. *)
Theorem ascii_description_is_drawn_as_it_is (multi_cell_lines : Z -> string -> list string)
  (scheme_name : string) (progress_data : DataFrame df_progress.row)
  (i : nat) (r : df_progress.row) (description : string) :
  printable scheme_name progress_data ->
  In (i, r) progress_data ->
  df_progress.type r = "Pretor" ->
  df_progress.item_description r = Some description ->
  is_ascii description = true ->
  exists doc,
    generate_pdf_report multi_cell_lines scheme_name progress_data = returned (py_bytearray doc) /\
    In description (drawn_items doc).
Proof.
  intros Hp Hin Ht Hd Ha.
  apply encodes_report_calls with (multi_cell_lines := multi_cell_lines) in Hp.
  exists (footer (report_calls multi_cell_lines scheme_name progress_data)).
  rewrite generate_pdf_report_run, Hp. split; [reflexivity|].
  rewrite drawn_items_report.
  assert (Hr : In (report_columns r) (pretor_columns progress_data)).
  { unfold pretor_columns, select_rows.
    apply (in_map (fun ir => report_columns (snd ir)) _ (i, r)).
    apply filter_In. split; [assumption|]. cbn [snd]. rewrite Ht. reflexivity. }
  destruct (pretor_columns progress_data) as [|r0 rows] eqn:E; [contradiction|].
  apply in_map_iff. exists (report_columns r). split; [|assumption].
  cbn [report_columns report.item_description]. rewrite Hd. cbn [fillna].
  now apply ascii_only_fixes_ascii.
Qed.

Lemma ascii_description_is_drawn_as_it_is_witness :
  exists doc,
    generate_pdf_report fixed_pitch_lines "Sunset Villas" insurance_and_audit
      = returned (py_bytearray doc) /\
    In "Confirm insurance schedule" (drawn_items doc).
Proof.
  apply (ascii_description_is_drawn_as_it_is fixed_pitch_lines "Sunset Villas"
           insurance_and_audit 1 (pretor_row 8 "Confirm insurance schedule" None)
           "Confirm insurance schedule").
  - split; [reflexivity|]. repeat constructor.
  - right; left; reflexivity.
  - reflexivity.
  - reflexivity.
  - reflexivity.
Defined.

(** X14: the report shows the Pretor records by their description, status,
    date and signature, and nothing else: two frames whose Pretor records
    agree on these four columns give the same document, whatever their
    notes, their ids, their labels and their PMA records are. *)
Theorem report_is_drawn_from_four_columns_of_the_pretor_records
  (multi_cell_lines : Z -> string -> list string) (scheme_name : string)
  (progress_data progress_data' : DataFrame df_progress.row) :
  pretor_columns progress_data' = pretor_columns progress_data ->
  generate_pdf_report multi_cell_lines scheme_name progress_data' =
  generate_pdf_report multi_cell_lines scheme_name progress_data.
Proof. intros H. rewrite !generate_pdf_report_run. unfold report_calls. now rewrite H. Qed.

Lemma report_is_drawn_from_four_columns_of_the_pretor_records_witness :
  generate_pdf_report fixed_pitch_lines "Sunset Villas" insurance_with_notes =
  generate_pdf_report fixed_pitch_lines "Sunset Villas" insurance_and_audit.
Proof.
  apply (report_is_drawn_from_four_columns_of_the_pretor_records fixed_pitch_lines
           "Sunset Villas" insurance_and_audit insurance_with_notes).
  reflexivity.
Defined.

(** X26: the report is handed back exactly when FPDF can draw the scheme
    name and the date and the signature of every Pretor record; a name,
    a date or a signature with a character outside the font's range ends
    the report in FPDF's encoding error. *)
Theorem unprintable_text_stops_the_report (multi_cell_lines : Z -> string -> list string)
  (scheme_name : string) (progress_data : DataFrame df_progress.row) :
  generate_pdf_report multi_cell_lines scheme_name progress_data
    = raised FPDFUnicodeEncodingException <->
  ~ printable scheme_name progress_data.
Proof.
  rewrite generate_pdf_report_run, <- (encodes_report_calls multi_cell_lines).
  destruct (forallb encodes _); split; intros H; try discriminate; try reflexivity.
  now contradiction H.
Qed.

(** ** The Progress Tracker page: what stops it *)

(** X15: one record of the chosen scheme whose catalog item is not in the
    catalog stops the Progress Tracker page for that scheme: the run ends
    in a TypeError after the two reads, before either grid is reached, so
    nothing is shown, saved or offered, whatever buttons are pressed. *)
Theorem record_without_catalog_item_stops_the_page
  (multi_cell_lines : Z -> string -> list string) (ui : tracker.inputs) (w : World)
  (p : progress_tracker.row) :
  healthy w ->
  db_schemes (db w) <> [] ->
  tracker.selected_scheme_id ui <> 0%Z ->
  In p (db_progress_tracker (db w)) ->
  progress_tracker.scheme_id p = tracker.selected_scheme_id ui ->
  embedded_item (db w) p = None ->
  progress_tracker_page multi_cell_lines ui w =
    (raised (TypeError "'NoneType' object is not subscriptable"),
     {| db := db w; faults := tl (tl (faults w));
        requests := requests w ++
          [(select_all "schemes", true);
           (select_progress_joined (tracker.selected_scheme_id ui), true)];
        screen := screen w |}).
Proof.
  intros Hw Hs Hsel Hin Hsid He. unfold progress_tracker_page.
  rewrite bind_run, fetch_data_healthy by assumption.
  destruct (db_schemes (db w)) as [|s0 ss] eqn:Es; [contradiction|].
  apply Z.eqb_neq in Hsel. rewrite Hsel. cbn [negb].
  set (w1 := {| db := db w; faults := tl (faults w); requests := _; screen := _ |}).
  assert (Hw1 : healthy w1) by (subst w1; now apply healthy_tl).
  rewrite bind_run, execute_healthy by assumption.
  cbn [fst snd read_progress_joined].
  set (rows := filter _ (db_progress_tracker (db w1))).
  assert (Hp : In p rows).
  { subst rows. apply filter_In. split; [assumption|]. now apply Z.eqb_eq. }
  assert (Hfl : flattened (map (fun p => (p, embedded_item (db w1) p)) rows) = None).
  { clear - Hp He. change (db w1) with (db w).
    induction rows as [|q rows IH]; [contradiction|].
    cbn [map flattened fst snd]. destruct Hp as [->|Hp].
    - now rewrite He.
    - destruct (embedded_item (db w) q); [|reflexivity]. now rewrite IH. }
  destruct rows as [|q rows']; [contradiction|].
  cbn [map]. rewrite bind_run, flatten_all_run.
  cbn [map] in Hfl. rewrite Hfl. subst w1. cbn [db faults requests screen].
  now rewrite <- app_assoc.
Qed.

Lemma record_without_catalog_item_stops_the_page_witness :
  fst (progress_tracker_page fixed_pitch_lines look_at_scheme_1 item_2_withdrawn) =
    raised (TypeError "'NoneType' object is not subscriptable").
Proof.
  rewrite (record_without_catalog_item_stops_the_page fixed_pitch_lines look_at_scheme_1
             item_2_withdrawn (stored_record 8 1 2)).
  - reflexivity.
  - constructor.
  - discriminate.
  - discriminate.
  - right; left; reflexivity.
  - reflexivity.
  - reflexivity.
Defined.

(** X16: the read of the records is not guarded as the read of the
    schemes is: when the store fails on it, the error leaves the page,
    with nothing shown and nothing stored. *)
Theorem failed_read_of_the_records_leaves_the_page
  (multi_cell_lines : Z -> string -> list string) (ui : tracker.inputs) (w : World)
  (fs : list bool) :
  faults w = false :: true :: fs ->
  db_schemes (db w) <> [] ->
  tracker.selected_scheme_id ui <> 0%Z ->
  progress_tracker_page multi_cell_lines ui w =
    (raised APIError,
     {| db := db w; faults := fs;
        requests := requests w ++
          [(select_all "schemes", true);
           (select_progress_joined (tracker.selected_scheme_id ui), false)];
        screen := screen w |}).
Proof.
  intros Hf Hs Hsel. unfold progress_tracker_page.
  rewrite bind_run, fetch_data_run, Hf. cbn [hd tl negb].
  destruct (db_schemes (db w)) as [|s0 ss] eqn:Es; [contradiction|].
  apply Z.eqb_neq in Hsel. rewrite Hsel. cbn [negb].
  rewrite bind_run, execute_raises by reflexivity.
  cbn [db faults requests screen tl]. now rewrite app_nil_r, <- app_assoc.
Qed.

Lemma failed_read_of_the_records_leaves_the_page_witness :
  fst (progress_tracker_page fixed_pitch_lines look_at_scheme_1
         {| db := db onboarding; faults := [false; true]; requests := []; screen := [] |})
  = raised APIError.
Proof.
  rewrite (failed_read_of_the_records_leaves_the_page fixed_pitch_lines look_at_scheme_1
             {| db := db onboarding; faults := [false; true]; requests := []; screen := [] |} []).
  - reflexivity.
  - reflexivity.
  - discriminate.
  - discriminate.
Defined.

(** X17: with no scheme to choose from, be it that none is stored or that
    the read of the schemes failed, the page asks the store for nothing
    more and ends on the invitation to create a scheme. *)
Theorem tracker_without_schemes_asks_for_a_scheme
  (multi_cell_lines : Z -> string -> list string) (ui : tracker.inputs) (w : World) :
  hd false (faults w) = true \/ db_schemes (db w) = [] ->
  fst (progress_tracker_page multi_cell_lines ui w) = returned None /\
  db (snd (progress_tracker_page multi_cell_lines ui w)) = db w /\
  requests (snd (progress_tracker_page multi_cell_lines ui w)) =
    requests w ++ [(select_all "schemes", negb (hd false (faults w)))] /\
  exists shown,
    screen (snd (progress_tracker_page multi_cell_lines ui w)) =
      screen w ++ shown ++ [info "Please create a new scheme first."].
Proof.
  intros H. unfold progress_tracker_page. rewrite bind_run, fetch_data_run.
  assert (E : (if hd false (faults w) then None
               else match db_schemes (db w) with
                    | [] => None
                    | _ :: _ => Some (pd_DataFrame (db_schemes (db w)))
                    end) = None).
  { destruct H as [-> | ->]; [reflexivity | now destruct (hd false (faults w))]. }
  rewrite E. rewrite bind_run. unfold st, ret. cbn [fst snd db requests screen].
  repeat split. eexists. now rewrite <- app_assoc.
Qed.

Lemma tracker_without_schemes_asks_for_a_scheme_witness :
  fst (progress_tracker_page fixed_pitch_lines look_at_scheme_1 empty_catalog) = returned None.
Proof.
  apply (tracker_without_schemes_asks_for_a_scheme fixed_pitch_lines look_at_scheme_1
           empty_catalog).
  right; reflexivity.
Defined.

(** ** The Progress Tracker page: what it ends on *)

Lemma no_document_bind {A} (c : M A) (k : A -> M (option PDF)) :
  (forall a, no_document (k a)) -> no_document (bind c k).
Proof.
  intros Hk w. rewrite bind_run. destruct (c w) as [[a|e] w1].
  - apply Hk.
  - right. now exists e.
Qed.

Lemma no_document_ret_None : no_document (ret None).
Proof. intros w. now left. Qed.

(** X27: the Progress Tracker page never hands a document to the user:
    whatever the store does and whatever the user does, a run of the
    page returns without a document or ends in an exception.  The
    download button is given the [bytearray] of FPDF, which it refuses. *)
Theorem tracker_page_offers_no_document
  (multi_cell_lines : Z -> string -> list string) (ui : tracker.inputs) (w : World) :
  fst (progress_tracker_page multi_cell_lines ui w) = returned None \/
  exists e, fst (progress_tracker_page multi_cell_lines ui w) = raised e.
Proof.
  revert w. change (no_document (progress_tracker_page multi_cell_lines ui)).
  unfold progress_tracker_page.
  apply no_document_bind. intros [df_schemes|];
    [|apply no_document_bind; intros _; apply no_document_ret_None].
  destruct (negb _); [|apply no_document_ret_None].
  apply no_document_bind. intros [|item items];
    [apply no_document_bind; intros _; apply no_document_ret_None|].
  apply no_document_bind. intros data_for_df.
  apply no_document_bind. intros _.
  apply no_document_bind. intros _.
  apply no_document_bind. intros _.
  apply no_document_bind. intros scheme_name.
  intros w. rewrite bind_run, generate_pdf_report_run.
  destruct (forallb encodes _); cbn [fst snd]; right; eexists; reflexivity.
Qed.

(** ** The script: session and sign-in *)

Lemma bind'_run {A B} (m : P A) (k : A -> P B) (s : Site) :
  bind' m k s =
    match m s with
    | (ended a, s') => k a s'
    | (stopped e, s') => (stopped e, s')
    end.
Proof. reflexivity. Qed.

(** What sign-in leaves: either the session as it was and a message of
    failure in the sidebar, or a session that names the user the auth
    service answered with, and the run ended for a rerun. *)
Lemma sign_in_run (email password : string) (s : Site) :
  let '(r, s') := sign_in email password s in
  world s' = world s /\ db_departments s' = db_departments s /\ inserts s' = inserts s /\
  ((r = ended tt /\ session s' = session s /\
    exists text e, shown s' = shown s ++ [sidebar_error text e]) \/
   (exists u, sign_in_with_password s email password = auth.response (Some u) /\
              r = stopped (page_exn RerunException) /\
              session s' = {| session_state.logged_in := Some true;
                              session_state.user := Some (Some u) |})).
Proof.
  unfold sign_in, try_except'. rewrite bind'_run.
  destruct (sign_in_with_password s email password) as [[u|]|message] eqn:E; cbn.
  - repeat split. right. exists u. now repeat split.
  - repeat split. left. repeat split. now eexists _, _.
  - repeat split. left. repeat split. now eexists _, _.
Qed.

(** X18: signing in changes the session only when the auth service answers
    with a user: then the session names that user as logged in and the run
    ends for a rerun, which the function's own handler does not swallow.
    Otherwise the session stays as it was, the sidebar shows the failure
    and the function returns.  Either way the store is not touched. *)
Theorem sign_in_needs_a_user_from_the_auth_service (email password : string) (s : Site) :
  world (snd (sign_in email password s)) = world s /\
  ((fst (sign_in email password s) = ended tt /\
    session (snd (sign_in email password s)) = session s /\
    exists text e, shown (snd (sign_in email password s)) = shown s ++ [sidebar_error text e]) \/
   (exists u, sign_in_with_password s email password = auth.response (Some u) /\
              fst (sign_in email password s) = stopped (page_exn RerunException) /\
              session (snd (sign_in email password s)) =
                {| session_state.logged_in := Some true;
                   session_state.user := Some (Some u) |})).
Proof.
  pose proof (sign_in_run email password s) as H.
  destruct (sign_in email password s) as [r s']. cbn [fst snd]. tauto.
Qed.

Lemma sign_out_run (s : Site) :
  sign_out s =
    match auth_sign_out s with
    | Some message =>
        (ended tt, showing (body_error "Sign-out failed: " (Some (AuthApiError message))) s)
    | None =>
        (stopped (page_exn RerunException),
         showing (body_success "Signed out successfully.")
           (set_session s {| session_state.logged_in := Some false;
                             session_state.user := Some None |}))
    end.
Proof.
  unfold sign_out, try_except'. rewrite bind'_run.
  destruct (auth_sign_out s) as [message|] eqn:E.
  - reflexivity.
  - cbn. unfold showing, set_session, set_world. cbn. destruct s; reflexivity.
Qed.

(** X19: a sign-out the auth service refuses leaves the user signed in:
    the function returns with the session, and everything else, as it
    was, but for the failure it shows. *)
Theorem refused_sign_out_keeps_the_session (s : Site) (message : string) :
  auth_sign_out s = Some message ->
  sign_out s =
    (ended tt, showing (body_error "Sign-out failed: " (Some (AuthApiError message))) s).
Proof. intros H. now rewrite sign_out_run, H. Qed.

Lemma refused_sign_out_keeps_the_session_witness :
  session (snd (sign_out auth_is_down)) = session signed_in.
Proof.
  rewrite (refused_sign_out_keeps_the_session auth_is_down "Service unavailable"); reflexivity.
Defined.

(** ** The script: what its steps keep *)

Section Kept.

Variable R : Site -> Site -> Prop.
Hypothesis R_refl : forall s, R s s.
Hypothesis R_trans : forall s1 s2 s3, R s1 s2 -> R s2 s3 -> R s1 s3.

Lemma keeps_ret' {A} (a : A) : keeps R (ret' a).
Proof. intros s. apply R_refl. Qed.

Lemma keeps_raise' {A} (e : app_exn) : keeps R (@raise' A e).
Proof. intros s. apply R_refl. Qed.

Lemma keeps_bind' {A B} (m : P A) (k : A -> P B) :
  keeps R m -> (forall a, keeps R (k a)) -> keeps R (bind' m k).
Proof.
  intros Hm Hk s. rewrite bind'_run. specialize (Hm s).
  destruct (m s) as [[a|e] s1]; cbn [snd] in *; [|assumption].
  eapply R_trans; [eassumption | apply Hk].
Qed.

Lemma keeps_try_except' {A} (body : P A) (handler : app_exn -> P A) :
  keeps R body -> (forall e, keeps R (handler e)) -> keeps R (try_except' body handler).
Proof.
  intros Hb Hh s. unfold try_except'. specialize (Hb s).
  destruct (body s) as [[a|e] s1]; cbn [snd] in *; [assumption|].
  destruct (is_app_Exception e); [|assumption].
  eapply R_trans; [eassumption | apply Hh].
Qed.

End Kept.

Lemma same_session_refl s : same_session s s.
Proof. reflexivity. Qed.

Lemma same_session_trans s1 s2 s3 : same_session s1 s2 -> same_session s2 s3 -> same_session s1 s3.
Proof. unfold same_session. congruence. Qed.

Lemma same_tables_refl s : same_tables s s.
Proof. now split. Qed.

Lemma same_tables_trans s1 s2 s3 : same_tables s1 s2 -> same_tables s2 s3 -> same_tables s1 s3.
Proof. unfold same_tables. intros [] []. split; congruence. Qed.

Lemma store_not_called_refl s : store_not_called s s.
Proof. now repeat split. Qed.

Lemma store_not_called_trans s1 s2 s3 :
  store_not_called s1 s2 -> store_not_called s2 s3 -> store_not_called s1 s3.
Proof. unfold store_not_called. intros (?&?&?&?&?) (?&?&?&?&?). repeat split; congruence. Qed.

Lemma same_session_lift {A} (m : M A) : keeps same_session (lift m).
Proof. intros s. unfold lift. now destruct (m (world s)) as [[a|e] w]. Qed.

Lemma same_session_show (ev : app_event) : keeps same_session (show ev).
Proof. now intros s. Qed.

Lemma insert_data_run (table_name : string) (data : record_data) (s : Site) :
  insert_data table_name data s =
    match (if hd false (faults (world s)) then None else store_insert table_name data s) with
    | Some s' =>
        (stopped (page_exn RerunException),
         showing (body_success ("Successfully added to " ++ table_name ++ "!")%string)
                 (called table_name data true s'))
    | None =>
        (ended tt,
         showing (body_error ("Error inserting data into " ++ table_name ++ ": ")%string
                             (Some (page_exn APIError)))
                 (called table_name data false s))
    end.
Proof.
  unfold insert_data, try_except'. rewrite bind'_run. unfold execute_insert.
  destruct (hd false (faults (world s))); [reflexivity|].
  destruct (store_insert table_name data s) as [s'|]; [|reflexivity].
  cbn. unfold showing, set_world. cbn. reflexivity.
Qed.

Lemma store_insert_session (table_name : string) (data : record_data) (s s' : Site) :
  store_insert table_name data s = Some s' -> session s' = session s.
Proof.
  unfold store_insert. destruct data; destruct (table_name =? _); intros H; inversion H; reflexivity.
Qed.

Lemma same_session_insert_data (table_name : string) (data : record_data) :
  keeps same_session (insert_data table_name data).
Proof.
  intros s. rewrite insert_data_run.
  destruct (hd false (faults (world s))); [reflexivity|].
  destruct (store_insert table_name data s) as [s'|] eqn:E; [|reflexivity].
  unfold same_session. cbn. now apply store_insert_session in E.
Qed.

Lemma same_session_master_data_page (ui : master_data.inputs) :
  keeps same_session (master_data_page ui).
Proof.
  pose proof same_session_refl as Hr. pose proof same_session_trans as Ht.
  unfold master_data_page. cbv zeta.
  repeat (apply keeps_bind'; [assumption..| |intros ?]);
    repeat match goal with
           | |- keeps _ (if ?b then _ else _) => destruct b
           | |- keeps _ (match ?x with Some _ => _ | None => _ end) => destruct x
           | |- keeps _ (ret' _) => now apply keeps_ret'
           | |- keeps _ (show _) => apply same_session_show
           | |- keeps _ (insert_data _ _) => apply same_session_insert_data
           | |- keeps _ (lift _) => apply same_session_lift
           end.
  intros s. apply same_session_lift.
Qed.

(** ** The script: the session and the store *)

(** The run as far as the branch on [logged_in]. *)
Lemma main_run (multi_cell_lines : Z -> string -> list string) (ui : app.inputs) (s : Site) :
  main multi_cell_lines ui s =
    let s0 := match session_state.logged_in (session s) with
              | None => set_session s {| session_state.logged_in := Some false;
                                         session_state.user := Some None |}
              | Some _ => s
              end in
    match session_state.logged_in (session s) with
    | Some true =>
        match session_state.user (session s) with
        | Some (Some user) =>
            (let app_mode := app.app_mode ui in
             if app_mode =? "Master Data" then master_data_page (app.master_data ui)
             else if app_mode =? "Create New Scheme"
                  then lift (new_scheme_page (app.new_scheme ui))
             else if app_mode =? "Progress Tracker"
                  then bind' (lift (progress_tracker_page multi_cell_lines
                                      (app.progress_tracker ui)))
                             (fun _ => ret' tt)
             else ret' tt)
              (showing (sidebar_success ("Logged in as: " ++ auth.email user)%string) s)
        | Some None => (stopped (AttributeError "'NoneType' object has no attribute 'email'"), s)
        | None => (stopped (page_exn (KeyError "user")), s)
        end
    | _ =>
        login_form (app.login_form ui)
          (showing (body_info "Please sign in on the sidebar to access the application.") s0)
    end.
Proof.
  unfold main. rewrite bind'_run.
  destruct s as [w dd ni nd ins auth so [[[]|] u] sh]; cbn.
  - destruct u as [[user|]|]; reflexivity.
  - reflexivity.
  - reflexivity.
Qed.

Lemma login_form_run (ui : login.inputs) (s : Site) :
  let '(r, s') := login_form ui s in
  world s' = world s /\ db_departments s' = db_departments s /\ inserts s' = inserts s /\
  (session s' = session s \/
   exists u, session s' = {| session_state.logged_in := Some true;
                             session_state.user := Some (Some u) |}) /\
  forall msg, r <> stopped (AttributeError msg).
Proof.
  unfold login_form. destruct (login.submitted ui).
  - pose proof (sign_in_run (login.email ui) (login.password ui) s) as H.
    destruct (sign_in _ _ s) as [r s'].
    destruct H as (Hw & Hd & Hi & [(-> & Hs & _) | (u & _ & -> & Hs)]).
    + repeat split; try assumption; [now left | discriminate].
    + repeat split; try assumption; [right; now exists u | discriminate].
  - cbn. repeat split; [now left | discriminate].
Qed.

(** X20: nothing of the store is read or written for somebody who is not
    signed in: whatever the widgets hold, a run of the script in a session
    that is not logged in makes no call to the store and leaves every
    table as it is. *)
Theorem store_is_not_called_before_sign_in
  (multi_cell_lines : Z -> string -> list string) (ui : app.inputs) (s : Site) :
  session_state.logged_in (session s) <> Some true ->
  store_not_called s (snd (main multi_cell_lines ui s)).
Proof.
  intros Hs. rewrite main_run. cbv zeta.
  set (s1 := showing _ _).
  assert (H1 : store_not_called s s1).
  { subst s1. destruct (session_state.logged_in (session s)); now repeat split. }
  assert (Hl : store_not_called s (snd (login_form (app.login_form ui) s1))).
  { pose proof (login_form_run (app.login_form ui) s1) as H.
    destruct (login_form _ s1) as [r s']. cbn [snd].
    destruct H as (Hw & Hd & Hi & _).
    apply (store_not_called_trans _ _ _ H1). unfold store_not_called.
    rewrite Hw, Hd, Hi. now repeat split. }
  destruct (session_state.logged_in (session s)) as [[]|]; [contradiction|assumption..].
Qed.

Lemma store_is_not_called_before_sign_in_witness :
  store_not_called front_door (snd (main fixed_pitch_lines wrong_password front_door)).
Proof.
  apply (store_is_not_called_before_sign_in fixed_pitch_lines wrong_password front_door).
  discriminate.
Defined.

Lemma page_errors_only_ret' {A} (a : A) : page_errors_only (ret' a).
Proof. intros s e H. discriminate. Qed.

Lemma page_errors_only_show (ev : app_event) : page_errors_only (show ev).
Proof. intros s e H. discriminate. Qed.

Lemma page_errors_only_lift {A} (m : M A) : page_errors_only (lift m).
Proof.
  intros s e. unfold lift. destruct (m (world s)) as [[a|e0] w]; cbn; [discriminate|].
  intros H. inversion H. now exists e0.
Qed.

Lemma page_errors_only_bind' {A B} (m : P A) (k : A -> P B) :
  page_errors_only m -> (forall a, page_errors_only (k a)) -> page_errors_only (bind' m k).
Proof.
  intros Hm Hk s e. rewrite bind'_run. specialize (Hm s).
  destruct (m s) as [[a|e0] s1]; cbn [fst] in *; [apply Hk|].
  intros H. inversion H; subst. now apply Hm.
Qed.

Lemma page_errors_only_insert_data (table_name : string) (data : record_data) :
  page_errors_only (insert_data table_name data).
Proof.
  intros s e. rewrite insert_data_run.
  destruct (if hd false (faults (world s)) then None else store_insert table_name data s);
    cbn; [|discriminate].
  intros H. inversion H. now eexists.
Qed.

Lemma page_errors_only_master_data_page (ui : master_data.inputs) :
  page_errors_only (master_data_page ui).
Proof.
  unfold master_data_page. cbv zeta.
  repeat (apply page_errors_only_bind'; [|intros ?]);
    repeat match goal with
           | |- page_errors_only (if ?b then _ else _) => destruct b
           | |- page_errors_only (match ?x with Some _ => _ | None => _ end) => destruct x
           | |- page_errors_only (ret' _) => now apply page_errors_only_ret'
           | |- page_errors_only (show _) => apply page_errors_only_show
           | |- page_errors_only (insert_data _ _) => apply page_errors_only_insert_data
           | |- page_errors_only (lift _) => apply page_errors_only_lift
           end.
  intros s. apply page_errors_only_lift.
Qed.

(** X21: the session names a user whenever it says that someone is logged
    in, and a run of the script keeps it so, as does a sign-out; in such a
    session the script never fails on the greeting, which reads the
    user's e-mail address. *)
Theorem session_names_the_user_it_logs_in
  (multi_cell_lines : Z -> string -> list string) (ui : app.inputs) (s : Site) :
  session_ok (session s) ->
  session_ok (session (snd (main multi_cell_lines ui s))) /\
  session_ok (session (snd (sign_out s))) /\
  forall msg, fst (main multi_cell_lines ui s) <> stopped (AttributeError msg).
Proof.
  intros Hok. split; [|split].
  - rewrite main_run. cbv zeta.
    assert (Hlogin : forall s1, session_state.logged_in (session s1) <> Some true ->
              session_ok (session (snd (login_form (app.login_form ui) s1)))).
    { intros s1 H1. pose proof (login_form_run (app.login_form ui) s1) as H.
      destruct (login_form _ s1) as [r s']. cbn [snd].
      destruct H as (_ & _ & _ & [Hs | (u & Hs)] & _); rewrite Hs.
      - intros H. contradiction.
      - intros _. now exists u. }
    destruct (session_state.logged_in (session s)) as [[]|] eqn:El.
    + destruct (Hok El) as (u & ->).
      set (s1 := showing _ s).
      assert (H1 : session s1 = session s) by reflexivity.
      assert (Hk : forall (m : P unit), keeps same_session m -> session_ok (session (snd (m s1)))).
      { intros m Hm. rewrite (Hm s1), H1. exact Hok. }
      destruct (_ =? "Master Data"); [apply Hk, same_session_master_data_page|].
      destruct (_ =? "Create New Scheme"); [apply Hk, same_session_lift|].
      destruct (_ =? "Progress Tracker").
      * apply Hk. apply keeps_bind';
          [apply same_session_trans | apply same_session_lift | ].
        intros a. now apply keeps_ret'.
      * apply Hk. now apply keeps_ret'.
    + apply Hlogin. cbn. now rewrite El.
    + apply Hlogin. cbn. discriminate.
  - rewrite sign_out_run. destruct (auth_sign_out s); [exact Hok|].
    cbn. intros H. discriminate.
  - intros msg H. rewrite main_run in H. cbv zeta in H.
    destruct (session_state.logged_in (session s)) as [[]|] eqn:El.
    + destruct (Hok El) as (u & Hu). rewrite Hu in H.
      set (s1 := showing _ s) in H.
      assert (Hp : forall m : P unit, page_errors_only m ->
                fst (m s1) <> stopped (AttributeError msg)).
      { intros m Hm E. destruct (Hm s1 _ E) as (e' & He). discriminate. }
      revert H.
      destruct (_ =? "Master Data"); [apply Hp, page_errors_only_master_data_page|].
      destruct (_ =? "Create New Scheme"); [apply Hp, page_errors_only_lift|].
      destruct (_ =? "Progress Tracker").
      * apply Hp. apply page_errors_only_bind'; [apply page_errors_only_lift|].
        intros a. apply page_errors_only_ret'.
      * apply Hp. apply page_errors_only_ret'.
    + pose proof (login_form_run (app.login_form ui)
                    (showing (body_info "Please sign in on the sidebar to access the application.") s))
        as Hl.
      destruct (login_form _ _) as [r s']. destruct Hl as (_ & _ & _ & _ & Hr).
      exact (Hr msg H).
    + match type of H with fst (login_form ?u ?s0) = _ =>
        pose proof (login_form_run u s0) as Hl; destruct (login_form u s0) as [r s'] end.
      destruct Hl as (_ & _ & _ & _ & Hr). exact (Hr msg H).
Qed.

Lemma session_names_the_user_it_logs_in_witness :
  session_ok (session signed_in) /\
  session_ok (session (snd (main fixed_pitch_lines wrong_password signed_in))).
Proof.
  assert (H : session_ok (session signed_in)) by (intros _; now eexists).
  split; [exact H|].
  apply (session_names_the_user_it_logs_in fixed_pitch_lines wrong_password signed_in H).
Defined.

(** ** Master data *)

Lemma grown_by_refl ui s : grown_by ui s s.
Proof.
  repeat split. exists [], []. rewrite !app_nil_r. now repeat split.
Qed.

Lemma grown_by_trans ui s1 s2 s3 : grown_by ui s1 s2 -> grown_by ui s2 s3 -> grown_by ui s1 s3.
Proof.
  intros (Hs & Hp & i1 & c1 & Hi1 & Hc1 & Fi1 & Fc1) (Hs' & Hp' & i2 & c2 & Hi2 & Hc2 & Fi2 & Fc2).
  split; [congruence|]. split; [congruence|].
  exists (i1 ++ i2), (c1 ++ c2). rewrite Hi2, Hi1, Hc2, Hc1, !app_assoc.
  repeat split; apply Forall_app; now split.
Qed.

Lemma grown_by_same_tables ui s s' : same_tables s s' -> grown_by ui s s'.
Proof.
  intros [Hd Hc]. unfold grown_by. rewrite Hd, Hc. apply grown_by_refl.
Qed.

Lemma same_tables_lift {A} (m : M A) :
  (forall w, db (snd (m w)) = db w) -> keeps same_tables (lift m).
Proof.
  intros H s. unfold lift. specialize (H (world s)).
  destruct (m (world s)) as [[a|e] w]; now split.
Qed.

Lemma fetch_data_same_db {A} (table_name : string) (table : Database -> list A) (w : World) :
  db (snd (fetch_data table_name table w)) = db w.
Proof. now rewrite fetch_data_run. Qed.

Lemma grown_by_insert_item (ui : master_data.inputs) :
  master_data.item_description ui <> "" ->
  keeps (grown_by ui)
    (insert_data "master_checklist"
       (checklist_item (master_data.item_description ui) (master_data.item_type ui)
                       (master_data.scheme_type ui))).
Proof.
  intros Hd s. rewrite insert_data_run.
  destruct (hd false (faults (world s))); [now apply grown_by_same_tables|].
  cbn. repeat split.
  exists [item_row (next_item_id s) ui], []. rewrite app_nil_r.
  repeat split; repeat constructor; [assumption | now eexists].
Qed.

Lemma grown_by_insert_department (ui : master_data.inputs) :
  master_data.department_name ui <> "" -> master_data.email ui <> "" ->
  keeps (grown_by ui)
    (insert_data "departments"
       (department_contact (master_data.department_name ui) (master_data.email ui))).
Proof.
  intros Hn He s. rewrite insert_data_run.
  destruct (hd false (faults (world s))); [now apply grown_by_same_tables|].
  cbn. repeat split.
  exists [], [department_row (next_department_id s) ui]. rewrite app_nil_r.
  repeat split; repeat constructor; try assumption. now eexists.
Qed.

(** X22: the Master Data page only adds to the catalog and to the
    departments, and only what its forms hold with the mandatory fields
    filled: an item has a description, a department a name and an e-mail
    address.  It changes and removes no row, and it leaves the schemes and
    their records alone, whatever is submitted and whichever calls fail. *)
Theorem master_data_page_only_adds_complete_rows (ui : master_data.inputs) (s : Site) :
  grown_by ui s (snd (master_data_page ui s)).
Proof.
  revert s. change (keeps (grown_by ui) (master_data_page ui)).
  pose proof (grown_by_trans ui) as Ht.
  assert (Hshow : forall ev, keeps (grown_by ui) (show ev)).
  { intros ev s. now apply grown_by_same_tables. }
  assert (Hfetch : forall A t (tb : Database -> list A), keeps (grown_by ui) (lift (fetch_data t tb))).
  { intros A t tb s. apply grown_by_same_tables. apply same_tables_lift.
    intros w. apply fetch_data_same_db. }
  unfold master_data_page. cbv zeta.
  apply keeps_bind'; [assumption| |intros _].
  { destruct (master_data.add_item ui); [|apply keeps_ret', grown_by_refl].
    destruct (master_data.item_description ui =? "") eqn:E; cbn [negb]; [apply Hshow|].
    apply grown_by_insert_item. now apply String.eqb_neq. }
  apply keeps_bind'; [assumption|apply Hfetch|intros df].
  apply keeps_bind'; [assumption| |intros _].
  { destruct df; [apply keeps_ret', grown_by_refl | apply Hshow]. }
  apply keeps_bind'; [assumption| |intros _].
  { destruct (master_data.add_department ui); [|apply keeps_ret', grown_by_refl].
    destruct (master_data.department_name ui =? "") eqn:En; cbn [negb andb]; [apply Hshow|].
    destruct (master_data.email ui =? "") eqn:Ee; cbn [negb]; [apply Hshow|].
    apply grown_by_insert_department; now apply String.eqb_neq. }
  apply keeps_bind'; [assumption| |intros df'].
  { intros s. apply Hfetch. }
  destruct df'; [apply keeps_ret', grown_by_refl | apply Hshow].
Qed.

(** X23: unless it ends the run for a refresh, [insert_data] has stored
    nothing and has shown the error: a failed insert is never silent, and
    never leaves the function. *)
Theorem insert_data_refreshes_or_reports (table_name : string) (data : record_data) (s : Site) :
  fst (insert_data table_name data s) = stopped (page_exn RerunException) \/
  (fst (insert_data table_name data s) = ended tt /\
   same_tables s (snd (insert_data table_name data s)) /\
   shown (snd (insert_data table_name data s)) =
     shown s ++ [body_error ("Error inserting data into " ++ table_name ++ ": ")%string
                            (Some (page_exn APIError))]).
Proof.
  rewrite insert_data_run.
  destruct (if hd false (faults (world s)) then None else store_insert table_name data s);
    [now left | right]. now repeat split.
Qed.

Lemma master_data_page_item_run (ui : master_data.inputs) (s : Site) :
  master_data.add_item ui = true ->
  master_data.item_description ui <> "" ->
  hd false (faults (world s)) = false ->
  master_data_page ui s = (stopped (page_exn RerunException), item_added ui s).
Proof.
  intros Ha Hd Hf. unfold master_data_page. cbv zeta. rewrite bind'_run, Ha.
  apply String.eqb_neq in Hd. rewrite Hd. cbn [negb].
  rewrite insert_data_run, Hf. reflexivity.
Qed.

(** X24: an item added on the Master Data page is copied to the next
    scheme of its type: after the run that stores the item, a run of the
    Create New Scheme page for that scheme type, with the store answering,
    leaves a record of the new scheme bound to the new item, not complete. *)
Theorem added_item_is_copied_to_the_next_scheme
  (ui : master_data.inputs) (form : new_scheme_form.inputs) (s : Site) :
  healthy (world s) ->
  master_data.add_item ui = true ->
  master_data.item_description ui <> "" ->
  master_data.scheme_type ui = scheme_type_abbr form ->
  new_scheme_form.submitted form = true ->
  mandatory_fields_filled form = true ->
  let s1 := snd (master_data_page ui s) in
  let s2 := snd (lift (new_scheme_page form) s1) in
  exists r,
    In r (db_progress_tracker (db (world s2))) /\
    progress_tracker.master_item_id r = next_item_id s /\
    progress_tracker.scheme_id r = next_scheme_id (db (world s)) /\
    progress_tracker.is_complete r = false.
Proof.
  intros Hw Ha Hd Ht Hs Hm. cbv zeta.
  assert (Hf : hd false (faults (world s)) = false).
  { unfold healthy in Hw. destruct (faults (world s)); [reflexivity|]. now inversion Hw. }
  rewrite master_data_page_item_run by assumption. cbn [snd].
  set (s1 := item_added ui s).
  assert (Hw1 : healthy (world s1)).
  { subst s1. unfold item_added. cbn. unfold healthy in *.
    destruct (faults (world s)); [constructor|]. now inversion Hw. }
  assert (Hc : db_master_checklist (db (world s1)) =
               db_master_checklist (db (world s)) ++ [item_row (next_item_id s) ui]) by reflexivity.
  assert (Hn : next_scheme_id (db (world s1)) = next_scheme_id (db (world s))) by reflexivity.
  unfold lift. rewrite new_scheme_page_run; try assumption.
  2:{ rewrite Hc. now destruct (db_master_checklist (db (world s))). }
  cbn [snd world set_world].
  assert (Hin : In {| progress_tracker.new_scheme_id := next_scheme_id (db (world s));
                      progress_tracker.new_master_item_id := next_item_id s;
                      progress_tracker.new_is_complete := false |}
                   (copied_items form (db (world s1)))).
  { unfold copied_items. rewrite Hn, Hc.
    apply (in_map (fun m => {| progress_tracker.new_scheme_id := next_scheme_id (db (world s));
                               progress_tracker.new_master_item_id := master_checklist.id m;
                               progress_tracker.new_is_complete := false |})
                  _ (item_row (next_item_id s) ui)).
    apply filter_In. split; [apply in_or_app; right; now left|].
    cbn [item_row master_checklist.scheme_type]. rewrite Ht. apply String.eqb_refl. }
  assert (Hnum : forall rows n x, In x rows ->
            exists r, In r (number_from n rows) /\
                      progress_tracker.master_item_id r = progress_tracker.new_master_item_id x /\
                      progress_tracker.scheme_id r = progress_tracker.new_scheme_id x /\
                      progress_tracker.is_complete r = progress_tracker.new_is_complete x).
  { induction rows as [|y rows IH]; intros n x Hx; [contradiction|].
    destruct Hx as [->|Hx].
    - exists (fresh_progress n x). repeat split. now left.
    - destruct (IH (n + 1)%Z x Hx) as (r & Hr & H'). exists r. split; [now right|assumption]. }
  unfold scheme_created.
  destruct (copied_items form (db (world s1))) as [|i0 items] eqn:Ei; [contradiction|].
  destruct (Hnum (i0 :: items) (next_progress_id (db (world s1))) _ Hin) as (r & Hr & H1 & H2 & H3).
  exists r. cbn [db store_progress snd db_progress_tracker store_scheme].
  split; [apply in_or_app; now right | now repeat split].
Qed.

Lemma added_item_is_copied_to_the_next_scheme_witness :
  exists r,
    In r (db_progress_tracker
            (db (world (snd (lift (new_scheme_page fairview_form)
                               (snd (master_data_page levy_item signed_in))))))) /\
    progress_tracker.master_item_id r = 3%Z /\
    progress_tracker.scheme_id r = 2%Z /\
    progress_tracker.is_complete r = false.
Proof.
  apply (added_item_is_copied_to_the_next_scheme levy_item fairview_form signed_in).
  - constructor.
  - reflexivity.
  - discriminate.
  - reflexivity.
  - reflexivity.
  - reflexivity.
Defined.

(** ** Records of a new scheme *)

Lemma scheme_gets_one_record_per_matching_item_witness :
  exists created,
    db_progress_tracker (db (snd (new_scheme_page sunset_form third_call_answers))) =
      db_progress_tracker (db third_call_answers) ++ created /\
    map progress_tracker.master_item_id created =
      map master_checklist.id
          (filter (fun m => master_checklist.scheme_type m =? scheme_type_abbr sunset_form)
                  (db_master_checklist (db third_call_answers))) /\
    Forall (fun r => progress_tracker.scheme_id r = next_scheme_id (db third_call_answers) /\
                     progress_tracker.is_complete r = false /\
                     progress_tracker.date_completed r = None /\
                     progress_tracker.completed_by r = None /\
                     progress_tracker.notes r = None) created.
Proof.
  apply (scheme_gets_one_record_per_matching_item sunset_form third_call_answers).
  - constructor.
  - reflexivity.
  - reflexivity.
  - discriminate.
Defined.
